(** * GetIdracLcLogsREDFISH: a shallow embedding of the LC-log retrieval script

    The script [GetIdracLcLogsREDFISH.py] queries an iDRAC over Redfish for
    its Lifecycle Controller log, page by page, filters the entries on the
    client and writes the selected ones to a text file.  This development
    embeds the script function by function: Python values decoded from JSON
    are the inductive type [json], a dict is an association list in
    insertion order, the effects of the script (HTTP requests, console
    output, the files it creates and removes, its module-level globals,
    [sys.exit] and uncaught exceptions) are threaded through a state and
    exit monad [M].

    Modelling conventions:
    - strings are byte strings; [str.lower] is modelled on the ASCII letters;
    - JSON numbers are integers (no floating point);
    - [os.remove] on a file that is open unlinks it (POSIX);
    - writes reach the file at once (buffering is not modelled);
    - [time.sleep] has no effect. *)

From Stdlib Require Import ZArith List String Ascii Bool Lia DecimalString Sorted.
From stdpp Require Import base option list strings gmap.

Set Warnings "-register-all".

Local Open Scope string_scope.
Local Open Scope Z_scope.
Local Open Scope list_scope.

(** ** Python strings *)

Module PyStr.

Definition is_upper (c : ascii) : bool :=
  let n := nat_of_ascii c in (Nat.leb 65 n && Nat.leb n 90)%bool.

Definition lower_ascii (c : ascii) : ascii :=
  if is_upper c then ascii_of_nat (nat_of_ascii c + 32) else c.

(** [s.lower()] *)
Fixpoint lower (s : string) : string :=
  match s with
  | EmptyString => EmptyString
  | String c s' => String (lower_ascii c) (lower s')
  end.

(** [s.startswith(p)] *)
Fixpoint startswith (p s : string) : bool :=
  match p, s with
  | EmptyString, _ => true
  | String a p', String b s' => if Ascii.eqb a b then startswith p' s' else false
  | String _ _, EmptyString => false
  end.

(** [needle in hay] for two strings *)
Fixpoint contains (needle hay : string) : bool :=
  if startswith needle hay then true
  else match hay with
       | EmptyString => false
       | String _ hay' => contains needle hay'
       end.

(** [s.split(sep)] for a one-character separator: never empty. *)
Fixpoint split (sep : ascii) (s : string) : list string :=
  match s with
  | EmptyString => [EmptyString]
  | String c s' =>
      if Ascii.eqb c sep then EmptyString :: split sep s'
      else match split sep s' with
           | seg :: segs => String c seg :: segs
           | [] => [String c EmptyString]
           end
  end.

(** [l[-1]] on a list of strings; [None] stands for IndexError. *)
Definition last_item (l : list string) : option string := List.last (List.map Some l) None.

(** [s.replace(old, "")] for a one-character [old]. *)
Fixpoint remove_char (old : ascii) (s : string) : string :=
  match s with
  | EmptyString => EmptyString
  | String c s' => if Ascii.eqb c old then remove_char old s' else String c (remove_char old s')
  end.

Fixpoint join (sep : string) (l : list string) : string :=
  match l with
  | [] => EmptyString
  | [x] => x
  | x :: l' => x +:+ sep +:+ join sep l'
  end.

Fixpoint concat (l : list string) : string :=
  match l with
  | [] => EmptyString
  | x :: l' => x +:+ concat l'
  end.

(** [str(n)] for an integer *)
Definition of_Z (z : Z) : string := NilZero.string_of_int (Z.to_int z).

Definition hexdigit (n : nat) : ascii :=
  if Nat.ltb n 10 then ascii_of_nat (48 + n) else ascii_of_nat (87 + n).

Definition occurs (c : ascii) (s : string) : bool := contains (String c EmptyString) s.

Definition squote : ascii := ascii_of_nat 39.
Definition dquote : ascii := ascii_of_nat 34.
Definition backslash : ascii := ascii_of_nat 92.

(** The escape of one character inside [repr(s)], [q] the chosen quote. *)
Definition repr_char (q c : ascii) : string :=
  let n := nat_of_ascii c in
  if (Ascii.eqb c q || Ascii.eqb c backslash)%bool then String backslash (String c EmptyString)
  else if Nat.eqb n 9 then String backslash "t"
  else if Nat.eqb n 10 then String backslash "n"
  else if Nat.eqb n 13 then String backslash "r"
  else if (Nat.ltb n 32 || Nat.eqb n 127)%bool then
    String backslash (String "x" (String (hexdigit (n / 16)) (String (hexdigit (n mod 16)) EmptyString)))
  else String c EmptyString.

Fixpoint repr_body (q : ascii) (s : string) : string :=
  match s with
  | EmptyString => EmptyString
  | String c s' => repr_char q c +:+ repr_body q s'
  end.

(** [repr(s)]: single quotes, unless [s] has a single quote and no
    double quote. *)
Definition repr (s : string) : string :=
  let q := if (occurs squote s && negb (occurs dquote s))%bool then dquote else squote in
  String q (repr_body q s +:+ String q EmptyString).

Definition is_digit (c : ascii) : bool :=
  let n := nat_of_ascii c in (Nat.leb 48 n && Nat.leb n 57)%bool.

Definition is_space (c : ascii) : bool :=
  let n := nat_of_ascii c in
  ((Nat.leb 9 n && Nat.leb n 13) || Nat.eqb n 32 || (Nat.leb 28 n && Nat.leb n 31))%bool.

Fixpoint lstrip (s : string) : string :=
  match s with
  | String c s' => if is_space c then lstrip s' else s
  | EmptyString => EmptyString
  end.

(** The digits of an integer literal as [int] reads them: digits, with
    single underscores between digits; [after_digit] tells whether the
    previous character was a digit; trailing white space is allowed. *)
Fixpoint digits (after_digit : bool) (acc : Z) (s : string) : option Z :=
  match s with
  | EmptyString => if after_digit then Some acc else None
  | String c s' =>
      if is_digit c then digits true (10 * acc + Z.of_nat (nat_of_ascii c - 48)) s'
      else if Ascii.eqb c "_" then
        if after_digit then
          match s' with
          | String d _ => if is_digit d then digits false acc s' else None
          | EmptyString => None
          end
        else None
      else if is_space c then
        if after_digit then (if String.eqb (lstrip s') EmptyString then Some acc else None) else None
      else None
  end.

(** [int(s)] for a string, base 10; [None] stands for ValueError. *)
Definition to_int (s : string) : option Z :=
  match lstrip s with
  | String "-" s' => option_map Z.opp (digits false 0 s')
  | String "+" s' => digits false 0 s'
  | s' => digits false 0 s'
  end.

End PyStr.

(** ** Values decoded from JSON *)

Inductive json : Type :=
| JNull
| JBool (b : bool)
| JInt (z : Z)
| JStr (s : string)
| JArr (l : list json)
| JObj (items : list (string * json)).

(** [repr(v)] *)
Fixpoint py_repr (v : json) : string :=
  match v with
  | JNull => "None"
  | JBool true => "True"
  | JBool false => "False"
  | JInt z => PyStr.of_Z z
  | JStr s => PyStr.repr s
  | JArr l => "[" +:+ PyStr.join ", " (List.map py_repr l) +:+ "]"
  | JObj items =>
      "{" +:+ PyStr.join ", "
               (List.map (fun kv => match kv with
                                    | (k, x) => PyStr.repr k +:+ ": " +:+ py_repr x
                                    end) items) +:+ "}"
  end.

(** [str(v)], which is what [%s] formats *)
Definition py_str (v : json) : string :=
  match v with
  | JStr s => s
  | _ => py_repr v
  end.

(** [str(o)] for an argparse value, [None] when the option was not given *)
Definition str_of_arg (o : option string) : string :=
  match o with
  | Some s => s
  | None => "None"
  end.

(** Truth value of an argparse string option *)
Definition truthy (o : option string) : bool :=
  match o with
  | Some EmptyString => false
  | Some _ => true
  | None => false
  end.

(** ** The world of a run *)

(** The exceptions the script can meet. *)
Inductive exn : Type :=
| KeyError | IndexError | TypeError | AttributeError | NameError
| ValueError | JSONDecodeError | FileNotFoundError.

(** How a piece of the script ends: normally with a value, by
    [sys.exit(code)], or with an exception nobody caught. *)
Inductive result (A : Type) : Type :=
| Ret (a : A)
| Exit (code : Z)
| Raise (e : exn).
Arguments Ret {A} a.
Arguments Exit {A} code.
Arguments Raise {A} e.

(** [headers={'X-Auth-Token': ...}] or [auth=(user, password)] *)
Inductive auth_t : Type :=
| XAuthToken (token : string)
| BasicAuth (user : option string) (password : string).

(** One call of [requests.get]. *)
Record request : Type := { url : string; verify : bool; auth : auth_t }.

(** What [requests.get] returns: the status and the body, [None] when the
    body is not JSON. *)
Record response : Type := { status_code : Z; body : option json }.

Inductive level : Type := DEBUG | INFO | WARNING | ERROR.

(** What reaches the console: [logging] records, [pprint] of a value or of
    an item of a dict, [print], the text of [script_examples] and the
    prompt of [getpass.getpass]. *)
Inductive event : Type :=
| Log (l : level) (msg : string)
| Pprint (v : json)
| PprintItem (k : string) (v : json)
| Print (s : string)
| PrintScriptExamples
| Getpass (prompt : string).

(** [datetime.now()] *)
Record datetime : Type :=
  { dt_month : Z; dt_day : Z; dt_year : Z; dt_hour : Z; dt_minute : Z; dt_second : Z }.

(** The module-level names that [__main__] binds; [None] is unbound. *)
Record globals : Type :=
  { idrac_ip : option (option string);
    idrac_username : option (option string);
    idrac_password : option string;
    verify_cert : option bool;
    iDRAC_version : option string }.

Definition set_idrac_ip (v : option string) (g : globals) : globals :=
  {| idrac_ip := Some v; idrac_username := idrac_username g; idrac_password := idrac_password g;
     verify_cert := verify_cert g; iDRAC_version := iDRAC_version g |}.
Definition set_idrac_username (v : option string) (g : globals) : globals :=
  {| idrac_ip := idrac_ip g; idrac_username := Some v; idrac_password := idrac_password g;
     verify_cert := verify_cert g; iDRAC_version := iDRAC_version g |}.
Definition set_idrac_password (v : string) (g : globals) : globals :=
  {| idrac_ip := idrac_ip g; idrac_username := idrac_username g; idrac_password := Some v;
     verify_cert := verify_cert g; iDRAC_version := iDRAC_version g |}.
Definition set_verify_cert (v : bool) (g : globals) : globals :=
  {| idrac_ip := idrac_ip g; idrac_username := idrac_username g; idrac_password := idrac_password g;
     verify_cert := Some v; iDRAC_version := iDRAC_version g |}.
Definition set_iDRAC_version (v : string) (g : globals) : globals :=
  {| idrac_ip := idrac_ip g; idrac_username := idrac_username g; idrac_password := idrac_password g;
     verify_cert := verify_cert g; iDRAC_version := Some v |}.

Definition no_globals : globals :=
  {| idrac_ip := None; idrac_username := None; idrac_password := None;
     verify_cert := None; iDRAC_version := None |}.

(** The state a run changes: the files of the working directory, the file
    the handle [open_file] is open on, the requests sent so far (oldest
    first), the console and the globals. *)
Record world : Type :=
  { fs : gmap string string;
    open_file : option string;
    net : list request;
    console : list event;
    glob : globals }.

Definition set_fs (f : gmap string string) (w : world) : world :=
  {| fs := f; open_file := open_file w; net := net w; console := console w; glob := glob w |}.
Definition set_open_file (o : option string) (w : world) : world :=
  {| fs := fs w; open_file := o; net := net w; console := console w; glob := glob w |}.
Definition set_net (n : list request) (w : world) : world :=
  {| fs := fs w; open_file := open_file w; net := n; console := console w; glob := glob w |}.
Definition set_console (c : list event) (w : world) : world :=
  {| fs := fs w; open_file := open_file w; net := net w; console := c; glob := glob w |}.
Definition set_glob (g : globals) (w : world) : world :=
  {| fs := fs w; open_file := open_file w; net := net w; console := console w; glob := g |}.

(** ** The monad of the script *)

Definition M (A : Type) : Type := world -> result A * world.

Definition ret {A} (a : A) : M A := fun w => (Ret a, w).

Definition bind {A B} (m : M A) (k : A -> M B) : M B :=
  fun w => match m w with
           | (Ret a, w') => k a w'
           | (Exit c, w') => (Exit c, w')
           | (Raise e, w') => (Raise e, w')
           end.

Declare Scope py_scope.
Delimit Scope py_scope with py.
Notation "x <- m ;; k" := (bind m (fun x => k))
  (at level 100, m at next level, right associativity) : py_scope.
Notation "m ;; k" := (bind m (fun _ => k))
  (at level 100, right associativity) : py_scope.
Local Open Scope py_scope.

Definition raise {A} (e : exn) : M A := fun w => (Raise e, w).

(** [sys.exit(code)] *)
Definition sys_exit {A} (code : Z) : M A := fun w => (Exit code, w).

(** [try: m  except: h], a bare [except], which also catches SystemExit. *)
Definition try_except {A} (m h : M A) : M A :=
  fun w => match m w with
           | (Ret a, w') => (Ret a, w')
           | (Exit _, w') => h w'
           | (Raise _, w') => h w'
           end.

Definition of_option {A} (e : exn) (o : option A) : M A :=
  match o with
  | Some a => ret a
  | None => raise e
  end.

(** Reading a global: NameError when it is unbound. *)
Definition read_global {A} (f : globals -> option A) : M A :=
  fun w => of_option NameError (f (glob w)) w.

Definition write_global (upd : globals -> globals) : M unit :=
  fun w => (Ret tt, set_glob (upd (glob w)) w).

Definition emit (e : event) : M unit :=
  fun w => (Ret tt, set_console (console w ++ [e]) w).

Definition logging (l : level) (msg : string) : M unit := emit (Log l msg).
Definition pprint (v : json) : M unit := emit (Pprint v).
Definition pprint_item (ii : string * json) : M unit := emit (PprintItem (fst ii) (snd ii)).
Definition print (s : string) : M unit := emit (Print s).

(** [os.remove(name)] *)
Definition os_remove (name : string) : M unit :=
  fun w => match fs w !! name with
           | Some _ => (Ret tt, set_fs (delete name (fs w)) w)
           | None => (Raise FileNotFoundError, w)
           end.

(** [open_file = open(name, "w")]: the file is created or truncated. *)
Definition open_w (name : string) : M unit :=
  fun w => (Ret tt, set_open_file (Some name) (set_fs (<[name := EmptyString]> (fs w)) w)).

(** [open_file.writelines(s)] for a string [s]: [s] is appended; on a
    closed handle ValueError; on a file removed meanwhile nothing shows. *)
Definition writelines (s : string) : M unit :=
  fun w => match open_file w with
           | None => (Raise ValueError, w)
           | Some name =>
               match fs w !! name with
               | Some old => (Ret tt, set_fs (<[name := old +:+ s]> (fs w)) w)
               | None => (Ret tt, w)
               end
           end.

(** [open_file.close()] *)
Definition close : M unit := fun w => (Ret tt, set_open_file None w).

(** Loops: [for x in l: body], the body saying whether the loop goes on
    ([Continue]) or was left by [break]; [s] carries the local variables
    the body assigns. *)
Inductive ctl : Type := Continue | Break.

Fixpoint for_each {A S} (l : list A) (body : A -> S -> M (ctl * S)) (s : S) : M S :=
  match l with
  | [] => ret s
  | x :: l' =>
      r <- body x s ;;
      match r with
      | (Continue, s') => for_each l' body s'
      | (Break, s') => ret s'
      end
  end.

(** A loop without [break]. *)
Definition for_in {A S} (l : list A) (body : A -> S -> M S) (s : S) : M S :=
  for_each l (fun x s => s' <- body x s ;; ret (Continue, s')) s.

(** ** Python operations on decoded values *)

Fixpoint assoc (k : string) (items : list (string * json)) : option json :=
  match items with
  | [] => None
  | (k', v) :: rest => if String.eqb k k' then Some v else assoc k rest
  end.

(** [v[k]] for a string key *)
Definition getitem (v : json) (k : string) : M json :=
  match v with
  | JObj items => of_option KeyError (assoc k items)
  | _ => raise TypeError
  end.

(** [v[0]] *)
Definition getitem0 (v : json) : M json :=
  match v with
  | JArr (x :: _) => ret x
  | JArr [] => raise IndexError
  | JStr (String c _) => ret (JStr (String c EmptyString))
  | JStr EmptyString => raise IndexError
  | JObj _ => raise KeyError
  | _ => raise TypeError
  end.

Definition is_str (s : string) (v : json) : bool :=
  match v with
  | JStr s' => String.eqb s s'
  | _ => false
  end.

(** [s in v] for a string [s] *)
Definition py_in (s : string) (v : json) : M bool :=
  match v with
  | JStr hay => ret (PyStr.contains s hay)
  | JArr l => ret (existsb (is_str s) l)
  | JObj items => ret (match assoc s items with Some _ => true | None => false end)
  | _ => raise TypeError
  end.

Fixpoint chars (s : string) : list json :=
  match s with
  | EmptyString => []
  | String c s' => JStr (String c EmptyString) :: chars s'
  end.

(** What [for i in v] goes through *)
Definition iter (v : json) : M (list json) :=
  match v with
  | JArr l => ret l
  | JObj items => ret (List.map (fun kv => JStr (fst kv)) items)
  | JStr s => ret (chars s)
  | _ => raise TypeError
  end.

(** [v.items()] *)
Definition items_of (v : json) : M (list (string * json)) :=
  match v with
  | JObj items => ret items
  | _ => raise AttributeError
  end.

(** [v.lower()] *)
Definition py_lower (v : json) : M string :=
  match v with
  | JStr s => ret (PyStr.lower s)
  | _ => raise AttributeError
  end.

(** [o.lower()] for an argparse value *)
Definition arg_lower (o : option string) : M string :=
  match o with
  | Some s => ret (PyStr.lower s)
  | None => raise AttributeError
  end.

(** [v == []] *)
Definition is_empty_list (v : json) : bool :=
  match v with
  | JArr [] => true
  | _ => false
  end.

(** [response.json()] *)
Definition response_json (r : response) : M json := of_option JSONDecodeError (body r).

Definition nl : string := String (ascii_of_nat 10) EmptyString.
Definition dq : string := String PyStr.dquote EmptyString.

(** ** The script *)

(** [args = vars(parser.parse_args())]: a string option is [None] when it
    was not given, a [store_true] flag is a boolean. *)
Record Args : Type :=
  { a_ip : option string;
    a_u : option string;
    a_p : option string;
    a_x : option string;
    a_ssl : option string;
    a_script_examples : bool;
    a_get_all : bool;
    a_get_severity : option string;
    a_get_category : option string;
    a_get_date_range : bool;
    a_start_date : option string;
    a_end_date : option string;
    a_get_fail : bool;
    a_get_message_id : option string }.

(** [range(a, b)] *)
Fixpoint range_from (a : Z) (n : nat) : list Z :=
  match n with
  | O => []
  | S n' => a :: range_from (a + 1) n'
  end.

Definition range (a b : Z) : list Z := range_from a (Z.to_nat (b - a)).

(** [number_list = [i for i in range (1,100001) if i % 50 == 0]] *)
Definition number_list : list Z := List.filter (fun i => i mod 50 =? 0) (range 1 100001).

Definition lclog_path : string := "redfish/v1/Managers/iDRAC.Embedded.1/Logs/Lclog".

(** The path of a paged fetch: [Lclog?$skip=%s] *)
Definition skip_path (seq : Z) : string := lclog_path +:+ "?$skip=" +:+ PyStr.of_Z seq.

Definition version_path : string :=
  "redfish/v1/Managers/iDRAC.Embedded.1?$select=FirmwareVersion".

Definition severity_path (sev : string) : string :=
  lclog_path +:+ "?$filter=Severity eq '" +:+ sev +:+ "'".

Definition date_range_path (start_date end_date : option string) : string :=
  "redfish/v1/Managers/iDRAC.Embedded.1/LogServices/Lclog/Entries?$filter=Created ge '"
  +:+ str_of_arg start_date +:+ "' and Created le '" +:+ str_of_arg end_date +:+ "'".

(** ['https://%s/%s' % (idrac_ip, path)] *)
Definition https (ip : option string) (path : string) : string :=
  "https://" +:+ str_of_arg ip +:+ "/" +:+ path.

(** [data["error"]["@Message.ExtendedInfo"][0]["Message"]] *)
Definition error_message (data : json) : M json :=
  e <- getitem data "error" ;;
  x <- getitem e "@Message.ExtendedInfo" ;;
  y <- getitem0 x ;;
  getitem y "Message".

(** [A in error_message or B in error_message] *)
Definition skip_or_internal (data : json) : M bool :=
  m <- error_message data ;;
  b <- py_in "query parameter $skip is out of range" m ;;
  if b then ret true
  else m' <- error_message data ;; py_in "internal error" m'.

(** The lines [field: value] of an entry and the blank line after them. *)
Definition write_items (i : json) (show : bool) : M unit :=
  its <- items_of i ;;
  for_in its (fun ii _ =>
                (if show then pprint_item ii else ret tt) ;;
                writelines (fst ii +:+ ": " +:+ py_str (snd ii) +:+ nl)) tt.

Section Script.

(** What a run is given: the command line, the iDRAC (its answer to the
    [n]-th request of the run), the clock and what the user types at the
    password prompt. *)
Variable args : Args.
Variable transport : nat -> request -> response.
Variable clock : datetime.
Variable typed_password : string.

(** [requests.get(url, verify=..., ...)] *)
Definition requests_get (r : request) : M response :=
  fun w => (Ret (transport (length (net w)) r), set_net (net w ++ [r]) w).

(** The request every function but [get_iDRAC_version] sends:
    [if args["x"]: requests.get(url, verify=verify_cert, headers=...)
     else: requests.get(url, verify=verify_cert, auth=(user, password))] *)
Definition redfish_get (path : string) : M response :=
  if truthy (a_x args) then
    ip <- read_global idrac_ip ;;
    v <- read_global verify_cert ;;
    requests_get {| url := https ip path; verify := v; auth := XAuthToken (str_of_arg (a_x args)) |}
  else
    ip <- read_global idrac_ip ;;
    v <- read_global verify_cert ;;
    u <- read_global idrac_username ;;
    p <- read_global idrac_password ;;
    requests_get {| url := https ip path; verify := v; auth := BasicAuth u p |}.

Definition script_examples : M unit :=
  emit PrintScriptExamples ;; sys_exit 0.

Definition check_supported_idrac_version : M unit :=
  response <- redfish_get lclog_path ;;
  data <- response_json response ;;
  if status_code response =? 401 then
    logging WARNING (nl +:+ "- WARNING, status code " +:+ PyStr.of_Z (status_code response)
                     +:+ " returned. Incorrect iDRAC username/password or invalid privilege detected.") ;;
    sys_exit 0
  else if negb (status_code response =? 200) then
    logging WARNING (nl +:+ "- WARNING, iDRAC version installed does not support this feature using Redfish API") ;;
    sys_exit 0
  else ret tt.

(** [int(data["FirmwareVersion"].replace(".",""))] *)
Definition firmware_number (data : json) : M Z :=
  v <- getitem data "FirmwareVersion" ;;
  match v with
  | JStr s => of_option ValueError (PyStr.to_int (PyStr.remove_char "." s))
  | _ => raise AttributeError
  end.

Definition get_iDRAC_version : M unit :=
  response <-
    (if truthy (a_x args) then
       ip <- read_global idrac_ip ;;
       v <- read_global verify_cert ;;
       requests_get {| url := https ip version_path; verify := v;
                       auth := XAuthToken (str_of_arg (a_x args)) |}
     else
       ip <- read_global idrac_ip ;;
       u <- read_global idrac_username ;;
       p <- read_global idrac_password ;;
       requests_get {| url := https ip version_path; verify := false; auth := BasicAuth u p |}) ;;
  data <- response_json response ;;
  if status_code response =? 401 then
    logging ERROR "- ERROR, status code 401 detected, check to make sure your iDRAC script session has correct username/password credentials or if using X-auth token, confirm the session is still active."
  else if negb (status_code response =? 200) then
    logging WARNING (nl +:+ "- WARNING, unable to get current iDRAC version installed") ;;
    sys_exit 0
  else
    n <- firmware_number data ;;
    if 6000000 <=? n then write_global (set_iDRAC_version "new")
    else write_global (set_iDRAC_version "old").

(** The first lines of [get_specific_severity_logs]: the filter URI of a
    severity, or the report of an invalid value and [sys.exit(0)]. *)
Definition severity_filter_uri : M string :=
  s <- arg_lower (a_get_severity args) ;;
  if String.eqb s "informational" then ret (severity_path "OK")
  else
    s <- arg_lower (a_get_severity args) ;;
    if String.eqb s "critical" then ret (severity_path "Critical")
    else
      s <- arg_lower (a_get_severity args) ;;
      if String.eqb s "warning" then ret (severity_path "Warning")
      else
        logging ERROR (nl +:+ "- WARNING, invalid value passed in for argument --get-severity") ;;
        sys_exit 0.

(** The end of the two functions that let the server filter: the checks
    of the status, then the page or the report that it is empty. *)
Definition show_filtered (response : response) (data : json) (empty_msg : string) : M unit :=
  if status_code response =? 401 then
    logging WARNING (nl +:+ "- WARNING, status code " +:+ PyStr.of_Z (status_code response)
                     +:+ " returned. Incorrect iDRAC username/password or invalid privilege detected.") ;;
    sys_exit 0
  else if negb (status_code response =? 200) then
    logging WARNING (nl +:+ "- WARNING, iDRAC version installed does not support this feature using Redfish API") ;;
    sys_exit 0
  else
    m <- getitem data "Members" ;;
    if is_empty_list m then logging INFO empty_msg
    else pprint data.

Definition get_specific_severity_logs : M unit :=
  filter_uri <- severity_filter_uri ;;
  response <- redfish_get filter_uri ;;
  data <- response_json response ;;
  show_filtered response data
    (nl +:+ "- WARNING, no " +:+ dq +:+ str_of_arg (a_get_severity args) +:+ dq
     +:+ " severity detected in iDRAC LC logs").

Definition get_date_range : M unit :=
  response <- redfish_get (date_range_path (a_start_date args) (a_end_date args)) ;;
  data <- response_json response ;;
  show_filtered response data
    (nl +:+ "- WARNING, no iDRAC LC logs detected within the date range specified").

(** [current_date_time] *)
Definition timestamp_line : string :=
  "- Data collection timestamp: " +:+ PyStr.of_Z (dt_month clock) +:+ "-"
  +:+ PyStr.of_Z (dt_day clock) +:+ "-" +:+ PyStr.of_Z (dt_year clock) +:+ "  "
  +:+ PyStr.of_Z (dt_hour clock) +:+ ":" +:+ PyStr.of_Z (dt_minute clock) +:+ ":"
  +:+ PyStr.of_Z (dt_second clock) +:+ nl.

(** The opening of every scan: the old file removed if there is one, a
    new one created and stamped. *)
Definition fresh_file (name : string) (announce : M unit) : M unit :=
  try_except (os_remove name)
    (logging DEBUG ("- INFO, unable to locate file " +:+ name +:+ ", skipping step to delete")) ;;
  announce ;;
  open_w name ;;
  writelines timestamp_line ;;
  writelines (nl +:+ nl).

Definition captured (what name tail : string) : string :=
  nl +:+ "- INFO, " +:+ what +:+ " also captured in " +:+ dq +:+ name +:+ dq +:+ tail.

Definition skip_failed (response : response) (data : json) : string :=
  nl +:+ "- FAIL, GET request failed using skip query parameter, status code "
  +:+ PyStr.of_Z (status_code response) +:+ " returned. Detailed error results: " +:+ nl
  +:+ py_str data.

(** *** [--get-all] *)

(** The body of [for i in data['Members']] in [get_LC_logs] *)
Definition dump_entry (i : json) : M unit :=
  pprint i ;; print nl ;;
  write_items i false ;;
  writelines nl.

Definition dump_page (data : json) : M unit :=
  members <- getitem data "Members" ;;
  l <- iter members ;;
  for_in l (fun i _ => dump_entry i) tt.

Definition get_LC_logs_page (seq : Z) (_ : unit) : M (ctl * unit) :=
  response <- redfish_get (skip_path seq) ;;
  data <- response_json response ;;
  if status_code response =? 500 then
    close ;;
    logging INFO (captured "Lifecycle logs" "lc_logs.txt" " file") ;;
    sys_exit 0
  else if negb (status_code response =? 200) then
    m <- error_message data ;;
    b <- py_in "query parameter $skip is out of range" m ;;
    if b then
      close ;;
      logging INFO (captured "Lifecycle logs" "lc_logs.txt" " file") ;;
      sys_exit 0
    else
      logging ERROR (skip_failed response data) ;;
      sys_exit 0
  else
    has <- py_in "Members" data ;;
    if negb has then ret (Break, tt)
    else
      m <- getitem data "Members" ;;
      if (is_empty_list m || (status_code response =? 400))%bool then ret (Break, tt)
      else dump_page data ;; ret (Continue, tt).

Definition get_LC_logs : M unit :=
  fresh_file "lc_logs.txt" (ret tt) ;;
  response <- redfish_get lclog_path ;;
  data <- response_json response ;;
  if negb (status_code response =? 200) then
    logging ERROR (nl +:+ "- ERROR, GET command failed to get iDRAC LC logs, status code "
                   +:+ PyStr.of_Z (status_code response) +:+ " returned") ;;
    logging ERROR (py_str data) ;;
    sys_exit 0
  else
    dump_page data ;;
    for_each number_list get_LC_logs_page tt ;;
    logging INFO (captured "Lifecycle logs" "lc_logs.txt" " file") ;;
    close.

(** *** [--get-fail] *)

(** [i] is kept when a [Message] of it has one of the words. *)
Definition fail_words (v : json) : M bool :=
  s <- py_lower v ;;
  ret (PyStr.contains "unable" s || PyStr.contains "fail" s
       || PyStr.contains "fail" s || PyStr.contains "error" s)%bool.

(** What follows the test of an entry that matched, but for the count:
    its items shown and written, then the blank line. *)
Definition record_items (i : json) : M unit :=
  write_items i true ;;
  print nl ;;
  writelines nl.

(** The body of [for i in data['Members']] in [get_LC_log_failures] *)
Definition fail_entry (i : json) (count : Z) : M Z :=
  its <- items_of i ;;
  for_in its (fun ii count =>
                if String.eqb (fst ii) "Message" then
                  b <- fail_words (snd ii) ;;
                  if b then record_items i ;; ret (count + 1)
                  else ret count
                else ret count) count.

Definition fail_page (data : json) (count : Z) : M Z :=
  members <- getitem data "Members" ;;
  l <- iter members ;;
  for_in l fail_entry count.

(** The end of a scan that found nothing. *)
Definition nothing_found {A} (msg name : string) : M A :=
  logging INFO msg ;;
  try_except (os_remove name)
    (logging INFO ("- INFO, unable to locate file " +:+ name +:+ ", skipping step to delete")) ;;
  sys_exit 0.

Definition get_LC_log_failures_page (seq : Z) (count : Z) : M (ctl * Z) :=
  response <- redfish_get (skip_path seq) ;;
  data <- response_json response ;;
  if status_code response =? 500 then
    close ;;
    logging INFO (captured "Lifecycle logs" "lc_log_failures.txt" " file") ;;
    sys_exit 0
  else if negb (status_code response =? 200) then
    b <- skip_or_internal data ;;
    if b then
      close ;;
      if count =? 0 then
        nothing_found "- WARNING, no failed entries detected in LC logs" "lc_log_failures.txt"
      else
        logging INFO (captured "Lifecycle log entries" "lc_log_failures.txt" " file") ;;
        close ;;
        sys_exit 0
    else
      logging ERROR (skip_failed response data) ;;
      sys_exit 0
  else
    has <- py_in "Members" data ;;
    if negb has then ret (Break, count)
    else
      m <- getitem data "Members" ;;
      if (is_empty_list m || (status_code response =? 400)
          || (status_code response =? 500))%bool then ret (Break, count)
      else count' <- fail_page data count ;; ret (Continue, count').

Definition get_LC_log_failures : M unit :=
  fresh_file "lc_log_failures.txt"
    (logging INFO (nl +:+ "- INFO, checking iDRAC LC logs for failed entries, this may take up to 1 minute to complete depending on log size -" +:+ nl)) ;;
  response <- redfish_get lclog_path ;;
  data <- response_json response ;;
  count <- fail_page data 0 ;;
  count <- for_each number_list get_LC_log_failures_page count ;;
  if count =? 0 then
    nothing_found "- WARNING, no failed entries detected in LC logs" "lc_log_failures.txt"
  else
    logging INFO (captured "Lifecycle log entries" "lc_log_failures.txt" " file") ;;
    close.

(** *** [--get-message-id] *)

(** [message_id] of a [MessageId] value, by the convention detected. *)
Definition normalize_message_id (v : json) : M json :=
  ver <- read_global iDRAC_version ;;
  if String.eqb ver "new" then
    match v with
    | JStr s => s' <- of_option IndexError (PyStr.last_item (PyStr.split "." s)) ;; ret (JStr s')
    | _ => raise AttributeError
    end
  else ret v.

(** [message_id.lower() in args["get_message_id"].lower()] *)
Definition message_id_matches (v : json) : M bool :=
  message_id <- normalize_message_id v ;;
  m <- py_lower message_id ;;
  a <- arg_lower (a_get_message_id args) ;;
  ret (PyStr.contains m a).

Definition message_id_entry (i : json) (count : Z) : M Z :=
  its <- items_of i ;;
  for_in its (fun ii count =>
                if String.eqb (fst ii) "MessageId" then
                  b <- message_id_matches (snd ii) ;;
                  if b then record_items i ;; ret (count + 1)
                  else ret count
                else ret count) count.

Definition message_id_page (data : json) (count : Z) : M Z :=
  members <- getitem data "Members" ;;
  l <- iter members ;;
  for_in l message_id_entry count.

Definition get_message_id_page (seq : Z) (count : Z) : M (ctl * Z) :=
  response <- redfish_get (skip_path seq) ;;
  data <- response_json response ;;
  if status_code response =? 500 then
    close ;;
    logging INFO (captured "Lifecycle logs" "message_id_entries.txt" " file") ;;
    sys_exit 0
  else if negb (status_code response =? 200) then
    b <- skip_or_internal data ;;
    if b then
      close ;;
      if count =? 0 then
        nothing_found ("- WARNING, no entries detected in LC logs for message id(s): "
                       +:+ str_of_arg (a_get_message_id args)) "message_id_entries.txt"
      else
        logging INFO (captured "Lifecycle log entries" "message_id_entries.txt" " file") ;;
        close ;;
        sys_exit 0
    else
      logging ERROR (skip_failed response data) ;;
      sys_exit 0
  else
    has <- py_in "Members" data ;;
    if negb has then ret (Break, count)
    else
      m <- getitem data "Members" ;;
      if (is_empty_list m || (status_code response =? 400)
          || (status_code response =? 500))%bool then ret (Break, count)
      else count' <- message_id_page data count ;; ret (Continue, count').

Definition get_message_id : M unit :=
  fresh_file "message_id_entries.txt"
    (logging INFO (nl +:+ "- INFO, checking iDRAC LC logs for message ID(s) "
                   +:+ str_of_arg (a_get_message_id args)
                   +:+ ", this may take up to 1 minute to complete depending on log size -" +:+ nl)) ;;
  response <- redfish_get lclog_path ;;
  data <- response_json response ;;
  count <- message_id_page data 0 ;;
  count <- for_each number_list get_message_id_page count ;;
  if count =? 0 then
    nothing_found "- WARNING, no failed entries detected in LC logs" "message_id_entries.txt"
  else
    logging INFO (captured "Lifecycle log entries" "message_id_entries.txt" " file") ;;
    close.

(** *** [--get-category] *)

Definition categories : list string :=
  ["audit"; "configuration"; "updates"; "systemhealth"; "storage"].

(** [i["Oem"]["Dell"]["Category"].lower() == args["get_category"]] *)
Definition category_matches (i : json) : M bool :=
  oem <- getitem i "Oem" ;;
  dell <- getitem oem "Dell" ;;
  cat <- getitem dell "Category" ;;
  c <- py_lower cat ;;
  ret (match a_get_category args with
       | Some a => String.eqb c a
       | None => false
       end).

Definition category_entry (i : json) (count : Z) : M Z :=
  b <- category_matches i ;;
  if b then
    pprint i ;;
    print nl ;;
    writelines (py_str i) ;;
    writelines (nl +:+ nl) ;;
    ret (count + 1)
  else ret count.

Definition category_page (data : json) (count : Z) : M Z :=
  members <- getitem data "Members" ;;
  l <- iter members ;;
  for_in l category_entry count.

Definition get_category_entries_page (seq : Z) (count : Z) : M (ctl * Z) :=
  response <- redfish_get (skip_path seq) ;;
  data <- response_json response ;;
  if status_code response =? 500 then
    (if count =? 0 then
       logging INFO ("- WARNING, no " +:+ str_of_arg (a_get_category args)
                     +:+ " category entries detected in LC logs") ;;
       close ;;
       os_remove "category_entries.txt"
     else
       logging INFO (captured "Lifecycle log entries" "category_entries.txt" " file") ;;
       close) ;;
    sys_exit 0
  else if negb (status_code response =? 200) then
    b <- skip_or_internal data ;;
    if b then
      close ;;
      if count =? 0 then
        nothing_found ("- WARNING, no entries detected in LC logs for message id(s): "
                       +:+ str_of_arg (a_get_category args)) "category_entries.txt"
      else
        logging INFO (captured "Lifecycle log entries" "category_entries.txt" "") ;;
        close ;;
        sys_exit 0
    else
      logging ERROR (skip_failed response data) ;;
      sys_exit 0
  else count' <- category_page data count ;; ret (Continue, count').

Definition get_category_entries : M unit :=
  c <- arg_lower (a_get_category args) ;;
  if negb (existsb (String.eqb c) categories) then
    logging INFO (nl +:+ "- WARNING, invalid value entered for argument --get-category, see help text for supported values") ;;
    sys_exit 0
  else
    fresh_file "category_entries.txt"
      (logging INFO (nl +:+ "- INFO, checking iDRAC LC logs for category " +:+ dq
                     +:+ str_of_arg (a_get_category args) +:+ dq
                     +:+ ", this may take up to 1 minute to complete depending on log size -" +:+ nl)) ;;
    response <- redfish_get lclog_path ;;
    data <- response_json response ;;
    count <- category_page data 0 ;;
    count <- for_each number_list get_category_entries_page count ;;
    if count =? 0 then
      nothing_found ("- WARNING, no " +:+ str_of_arg (a_get_category args)
                     +:+ " category entries detected in LC logs") "category_entries.txt"
    else
      logging INFO (captured "Lifecycle log entries" "category_entries.txt" " file") ;;
      close.

(** *** [__main__] *)

Definition invalid_arguments : string :=
  nl +:+ "- FAIL, invalid argument values or not all required parameters passed in. See help text or argument --script-examples for more details.".

(** [verify_cert] as [__main__] derives it from [--ssl] *)
Definition verify_cert_of (ssl : option string) : bool :=
  if truthy ssl then
    if String.eqb (PyStr.lower (str_of_arg ssl)) "true" then true
    else if String.eqb (PyStr.lower (str_of_arg ssl)) "false" then false
    else false
  else false.

Definition main : M unit :=
  (if a_script_examples args then script_examples else ret tt) ;;
  (if ((truthy (a_ip args) && truthy (a_ssl args)) || truthy (a_u args)
       || truthy (a_p args) || truthy (a_x args))%bool then
     write_global (set_idrac_ip (a_ip args)) ;;
     write_global (set_idrac_username (a_u args)) ;;
     (if truthy (a_p args) then write_global (set_idrac_password (str_of_arg (a_p args)))
      else ret tt) ;;
     (if (negb (truthy (a_p args)) && negb (truthy (a_x args)) && truthy (a_u args))%bool then
        emit (Getpass (nl +:+ "- Argument -p not detected, pass in iDRAC user "
                       +:+ str_of_arg (a_u args) +:+ " password: ")) ;;
        write_global (set_idrac_password typed_password)
      else ret tt) ;;
     write_global (set_verify_cert (verify_cert_of (a_ssl args))) ;;
     check_supported_idrac_version ;;
     get_iDRAC_version
   else
     logging ERROR invalid_arguments ;;
     sys_exit 0) ;;
  if a_get_fail args then get_LC_log_failures
  else if (a_get_date_range args && truthy (a_start_date args)
           && truthy (a_end_date args))%bool then get_date_range
  else if truthy (a_get_severity args) then get_specific_severity_logs
  else if a_get_all args then get_LC_logs
  else if truthy (a_get_message_id args) then get_message_id
  else if truthy (a_get_category args) then get_category_entries
  else logging ERROR invalid_arguments.

End Script.


(** * Vocabulary of the properties *)

(** [wp m Q w]: run from [w], [m] ends in a result and a world that [Q]
    accepts.  Every piece of the script is a total function of the world,
    so this also says that [m] ends. *)
Definition wp {A} (m : M A) (Q : result A -> world -> Prop) (w : world) : Prop :=
  Q (fst (m w)) (snd (m w)).

(** [m] sends no request and binds no global. *)
Definition quiet {A} (m : M A) : Prop :=
  forall w, net (snd (m w)) = net w /\ glob (snd (m w)) = glob w.

(** The host the requests of a run go to. *)
Definition host (g : globals) : option string :=
  match idrac_ip g with
  | Some ip => ip
  | None => None
  end.

(** From the requests [n0] and the globals [g0], a piece of the script
    arrives at [n] and [g] by fetching [paths], in this order and nothing
    else, the globals untouched. *)
Definition fetched (n0 : list request) (g0 : globals) (paths : list string)
           (n : list request) (g : globals) : Prop :=
  g = g0 /\ exists reqs, n = n0 ++ reqs /\ List.map url reqs = List.map (https (host g0)) paths.

(** What the body of a paged loop does to the requests: it fetches the
    page of its offset, or it sends nothing and does not end normally. *)
Definition page_fetch {S} (body : Z -> S -> M (ctl * S)) : Prop :=
  forall seq s w,
    wp (body seq s)
       (fun r w' => fetched (net w) (glob w) [skip_path seq] (net w') (glob w')
                    \/ (fetched (net w) (glob w) [] (net w') (glob w')
                        /\ forall v, r <> Ret v)) w.

(** The fetches of a whole walk, in order: the log without [$skip], then
    one [$skip] for each member of [number_list]. *)
Definition walk_paths : list string := lclog_path :: List.map skip_path number_list.

(** A run from [w] to [w'] fetched a prefix of [walk_paths]. *)
Definition walked (w w' : world) : Prop :=
  exists k, (k <= 2001)%nat
            /\ fetched (net w) (glob w) (List.firstn k walk_paths) (net w') (glob w').


(** ** Concrete runs *)

(** A command line with basic authentication and no mode chosen yet. *)
Definition base_args : Args :=
  {| a_ip := Some "192.168.0.120"; a_u := Some "root"; a_p := Some "calvin"; a_x := None;
     a_ssl := None; a_script_examples := false; a_get_all := false;
     a_get_severity := None; a_get_category := None; a_get_date_range := false;
     a_start_date := None; a_end_date := None; a_get_fail := false;
     a_get_message_id := None |}.

Definition with_severity (s : string) (a : Args) : Args :=
  {| a_ip := a_ip a; a_u := a_u a; a_p := a_p a; a_x := a_x a; a_ssl := a_ssl a;
     a_script_examples := a_script_examples a; a_get_all := a_get_all a;
     a_get_severity := Some s; a_get_category := a_get_category a;
     a_get_date_range := a_get_date_range a; a_start_date := a_start_date a;
     a_end_date := a_end_date a; a_get_fail := a_get_fail a;
     a_get_message_id := a_get_message_id a |}.

Definition with_category (s : string) (a : Args) : Args :=
  {| a_ip := a_ip a; a_u := a_u a; a_p := a_p a; a_x := a_x a; a_ssl := a_ssl a;
     a_script_examples := a_script_examples a; a_get_all := a_get_all a;
     a_get_severity := a_get_severity a; a_get_category := Some s;
     a_get_date_range := a_get_date_range a; a_start_date := a_start_date a;
     a_end_date := a_end_date a; a_get_fail := a_get_fail a;
     a_get_message_id := a_get_message_id a |}.

Definition with_message_id (s : string) (a : Args) : Args :=
  {| a_ip := a_ip a; a_u := a_u a; a_p := a_p a; a_x := a_x a; a_ssl := a_ssl a;
     a_script_examples := a_script_examples a; a_get_all := a_get_all a;
     a_get_severity := a_get_severity a; a_get_category := a_get_category a;
     a_get_date_range := a_get_date_range a; a_start_date := a_start_date a;
     a_end_date := a_end_date a; a_get_fail := a_get_fail a;
     a_get_message_id := Some s |}.

Definition with_ssl (s : string) (a : Args) : Args :=
  {| a_ip := a_ip a; a_u := a_u a; a_p := a_p a; a_x := a_x a; a_ssl := Some s;
     a_script_examples := a_script_examples a; a_get_all := a_get_all a;
     a_get_severity := a_get_severity a; a_get_category := a_get_category a;
     a_get_date_range := a_get_date_range a; a_start_date := a_start_date a;
     a_end_date := a_end_date a; a_get_fail := a_get_fail a;
     a_get_message_id := a_get_message_id a |}.

Definition with_get_all (a : Args) : Args :=
  {| a_ip := a_ip a; a_u := a_u a; a_p := a_p a; a_x := a_x a; a_ssl := a_ssl a;
     a_script_examples := a_script_examples a; a_get_all := true;
     a_get_severity := a_get_severity a; a_get_category := a_get_category a;
     a_get_date_range := a_get_date_range a; a_start_date := a_start_date a;
     a_end_date := a_end_date a; a_get_fail := a_get_fail a;
     a_get_message_id := a_get_message_id a |}.

Definition with_get_fail (a : Args) : Args :=
  {| a_ip := a_ip a; a_u := a_u a; a_p := a_p a; a_x := a_x a; a_ssl := a_ssl a;
     a_script_examples := a_script_examples a; a_get_all := a_get_all a;
     a_get_severity := a_get_severity a; a_get_category := a_get_category a;
     a_get_date_range := a_get_date_range a; a_start_date := a_start_date a;
     a_end_date := a_end_date a; a_get_fail := true;
     a_get_message_id := a_get_message_id a |}.

(** 14 March 2023, 10:05:09 *)
Definition a_clock : datetime :=
  {| dt_month := 3; dt_day := 14; dt_year := 2023; dt_hour := 10; dt_minute := 5;
     dt_second := 9 |}.

(** The world when the interpreter starts: an empty directory, nothing
    sent, nothing printed, no global bound. *)
Definition start : world :=
  {| fs := ∅; open_file := None; net := []; console := []; glob := no_globals |}.

(** The world when a mode function is entered after [__main__] bound the
    globals for [base_args], the firmware being of the new kind ([new] true)
    or of the old kind. *)
Definition entered (new : bool) : world :=
  {| fs := ∅; open_file := None; net := []; console := [];
     glob := {| idrac_ip := Some (Some "192.168.0.120"); idrac_username := Some (Some "root");
                idrac_password := Some "calvin"; verify_cert := Some false;
                iDRAC_version := Some (if new then "new" else "old") |} |}.

(** A log entry as the iDRAC gives it, cut down to the fields the script
    reads. *)
Definition an_entry (id : Z) (message message_id category : string) : json :=
  JObj [("Id", JInt id); ("Message", JStr message); ("MessageId", JStr message_id);
        ("Oem", JObj [("Dell", JObj [("Category", JStr category)])])].

(** An answer 200 with these members. *)
Definition a_page (members : list json) : response :=
  {| status_code := 200; body := Some (JObj [("Members", JArr members)]) |}.

(** An answer that is an error, with the message of its extended
    information. *)
Definition an_error (status : Z) (message : string) : response :=
  {| status_code := status;
     body := Some (JObj [("error",
                          JObj [("@Message.ExtendedInfo",
                                 JArr [JObj [("Message", JStr message)]])])]) |}.

(** The iDRAC that gives these answers in turn and [last] ever after. *)
Definition answers (l : list response) (last : response) : nat -> request -> response :=
  fun n _ => List.nth n l last.

(** ** Vocabulary of the further properties *)

(** The globals that the requests read are all bound, as they are when
    [__main__] was given [-ip], [-u] and [-p]. *)
Definition globals_bound (g : globals) : Prop :=
  is_Some (idrac_ip g) /\ is_Some (idrac_username g) /\ is_Some (idrac_password g)
  /\ is_Some (verify_cert g).

(** The handle is open on the file [name], which holds [content]. *)
Definition file_is (name content : string) (w : world) : Prop :=
  open_file w = Some name /\ fs w !! name = Some content.

(** The lines a dict gets in the files of the full dump and of the two
    scans by text: one [key: value] for each item, then an empty line. *)
Definition item_line (ii : string * json) : string :=
  fst ii +:+ ": " +:+ py_str (snd ii) +:+ nl.

Definition entry_lines (i : json) : string :=
  match i with
  | JObj items => PyStr.concat (List.map item_line items) +:+ nl
  | _ => EmptyString
  end.

(** What the scan by category writes for an entry: the entry as [str]
    shows it, on one line, and an empty line. *)
Definition entry_repr (i : json) : string := py_str i +:+ nl +:+ nl.

Definition is_dict (v : json) : Prop :=
  match v with
  | JObj _ => True
  | _ => False
  end.

(** A dict as [json.loads] builds it: no key twice. *)
Definition keys_unique (v : json) : Prop :=
  match v with
  | JObj items => List.NoDup (List.map fst items)
  | _ => False
  end.

(** The value of a string field of a dict, [None] when the field is not
    there or is not a string. *)
Definition str_field (k : string) (v : json) : option string :=
  match v with
  | JObj items => match assoc k items with
                  | Some (JStr s) => Some s
                  | _ => None
                  end
  | _ => None
  end.

(** The field [k] of a dict is a string when it is there. *)
Definition field_is_str (k : string) (v : json) : Prop :=
  match v with
  | JObj items => match assoc k items with
                  | Some (JStr _) => True
                  | Some _ => False
                  | None => True
                  end
  | _ => False
  end.

(** An entry the scan for failures keeps: its [Message], in lower case,
    has one of the three words. *)
Definition is_failure (i : json) : bool :=
  match str_field "Message" i with
  | Some m => (PyStr.contains "unable" (PyStr.lower m) || PyStr.contains "fail" (PyStr.lower m)
               || PyStr.contains "error" (PyStr.lower m))%bool
  | None => false
  end.

(** The identifier kept from a [MessageId] under the convention [ver]. *)
Definition kept_message_id (ver raw : string) : string :=
  if String.eqb ver "new"
  then match PyStr.last_item (PyStr.split "." raw) with
       | Some t => t
       | None => raw
       end
  else raw.

(** An entry the scan by message ID keeps. *)
Definition has_message_id (ver ids : string) (i : json) : bool :=
  match str_field "MessageId" i with
  | Some raw => PyStr.contains (PyStr.lower (kept_message_id ver raw)) (PyStr.lower ids)
  | None => false
  end.

(** The category of an entry, [i["Oem"]["Dell"]["Category"]], when the
    three dicts are there and it is a string. *)
Definition category_of (i : json) : option string :=
  match i with
  | JObj items =>
      match assoc "Oem" items with
      | Some (JObj oem) =>
          match assoc "Dell" oem with
          | Some dell => str_field "Category" dell
          | None => None
          end
      | _ => None
      end
  | _ => None
  end.

(** An entry the scan by category keeps for the argument [arg] (taken as
    it was typed). *)
Definition in_category (arg : string) (i : json) : bool :=
  match category_of i with
  | Some c => String.eqb (PyStr.lower c) arg
  | None => false
  end.

(** A string has an upper-case ASCII letter. *)
Fixpoint has_upper (s : string) : bool :=
  match s with
  | EmptyString => false
  | String c s' => (PyStr.is_upper c || has_upper s')%bool
  end.

(** From [w] to [w'] a piece of the script only wrote: the handle is open
    on [name], which now holds [content]; nothing was sent, no global
    bound, no other file touched. *)
Definition wrote (name content : string) (w w' : world) : Prop :=
  file_is name content w' /\ net w' = net w /\ glob w' = glob w
  /\ forall other, other <> name -> fs w' !! other = fs w !! other.

(** The entries of a page that a filter keeps, in the order of the page. *)
Definition kept (sel : json -> bool) (entries : list json) : list json :=
  List.filter sel entries.

(** The answer [data] is a dict whose [Members] is this list. *)
Definition members_are (data : json) (entries : list json) : Prop :=
  exists fields, data = JObj fields /\ assoc "Members" fields = Some (JArr entries).

(** The body of the two scans by text, for the field [key] and the test
    [test] of its value. *)
Definition scan_item (key : string) (test : json -> M bool) (i : json)
           (ii : string * json) (count : Z) : M Z :=
  if String.eqb (fst ii) key then
    bind (test (snd ii))
         (fun b => if b then bind (record_items i) (fun _ => ret (count + 1)) else ret count)
  else ret count.

(** What [scan_item] finds in the items [its] of a dict: the field [key]
    is a string that passes [holds]. *)
Definition field_holds (key : string) (holds : string -> bool)
           (its : list (string * json)) : bool :=
  match assoc key its with
  | Some (JStr m) => holds m
  | _ => false
  end.

(** A world in which the handle is open on [name], which holds
    [content]; the globals are those of [entered]. *)
Definition writing (new : bool) (name content : string) : world :=
  {| fs := {[ name := content ]}; open_file := Some name; net := []; console := [];
     glob := glob (entered new) |}.

(** Whatever the world it starts from, [m] takes it to a world related to
    it by [R]. *)
Definition preserves {A} (R : world -> world -> Prop) (m : M A) : Prop :=
  forall w, R w (snd (m w)).

(** No file was created, written or removed, and the handle is as it was. *)
Definition same_files (w w' : world) : Prop :=
  fs w' = fs w /\ open_file w' = open_file w.

(** No request was sent. *)
Definition same_net (w w' : world) : Prop := net w' = net w.

(** The file [name], if it began with [pre] and the handle was on it or
    closed, is still there and still begins with [pre], the handle on it
    or closed. *)
Definition keeps_file (name pre : string) (w w' : world) : Prop :=
  (open_file w = Some name \/ open_file w = None) ->
  (exists body, fs w !! name = Some (pre +:+ body)) ->
  (open_file w' = Some name \/ open_file w' = None)
  /\ exists body', fs w' !! name = Some (pre +:+ body').

(** The two lines every output file begins with. *)
Definition file_head (clock : datetime) : string := timestamp_line clock +:+ nl +:+ nl.

(** The messages of the probe. *)
Definition wrong_credentials (status : Z) : string :=
  nl +:+ "- WARNING, status code " +:+ PyStr.of_Z status
  +:+ " returned. Incorrect iDRAC username/password or invalid privilege detected.".

Definition not_supported : string :=
  nl +:+ "- WARNING, iDRAC version installed does not support this feature using Redfish API".

(** An answer 200 to the fetch of the firmware version. *)
Definition a_firmware (version : string) : response :=
  {| status_code := 200; body := Some (JObj [("FirmwareVersion", JStr version)]) |}.

Definition session_expired : string :=
  "- ERROR, status code 401 detected, check to make sure your iDRAC script session has correct username/password credentials or if using X-auth token, confirm the session is still active.".

(** The text of an error answer, [error.@Message.ExtendedInfo[0].Message],
    when the answer has this shape and the message is a string. *)
Definition error_text (data : json) : option string :=
  match data with
  | JObj fields =>
      match assoc "error" fields with
      | Some (JObj err) =>
          match assoc "@Message.ExtendedInfo" err with
          | Some (JArr (info :: _)) => str_field "Message" info
          | _ => None
          end
      | _ => None
      end
  | _ => None
  end.

(** The two texts that end a scan. *)
Definition skip_out_of_range : string := "query parameter $skip is out of range".
Definition internal_error : string := "internal error".

(** A page ended the scan of the file [name]: [sys.exit(0)], the handle
    closed, and the file removed if nothing had matched. *)
Definition ends_scan (name : string) (count : Z) (w : world)
           (out : result (ctl * Z) * world) : Prop :=
  fst out = Exit 0
  /\ open_file (snd out) = None
  /\ fs (snd out) = (if count =? 0 then delete name (fs w) else fs w).

(** A page stopped the run on an error it reports: [sys.exit(0)] after a
    message with the status code and the body; files and handle are left
    as they were. *)
Definition fatal_stop {A} (resp : response) (data : json) (w : world)
           (out : result A * world) : Prop :=
  fst out = Exit 0
  /\ fs (snd out) = fs w
  /\ open_file (snd out) = open_file w
  /\ exists before, console (snd out) = before ++ [Log ERROR (skip_failed resp data)].

(** ** A log of finitely many pages *)

(** An answer 200 whose body is a dict with the members [es], all
    entries of the shape [ok]. *)
Definition good_page (ok : json -> Prop) (resp : response) (es : list json) : Prop :=
  status_code resp = 200
  /\ exists data, body resp = Some data /\ members_are data es /\ List.Forall ok es.

(** From its [n0]-th request on the iDRAC answers with [resps], in turn,
    and then with [stop], whatever it is asked. *)
Definition served (tr : nat -> request -> response) (n0 : nat) (resps : list response)
           (stop : response) : Prop :=
  forall i req, tr (n0 + i)%nat req = List.nth i resps stop.

(** An answer that tells the end of the log: neither 200 nor 500, with an
    error text that has one of the [texts]. *)
Definition end_of_log (texts : list string) (stop : response) : Prop :=
  status_code stop <> 200 /\ status_code stop <> 500
  /\ exists data m, body stop = Some data /\ error_text data = Some m
                    /\ existsb (fun t => PyStr.contains t m) texts = true.

(** From [w] to [w'] a page was fetched and dealt with: one request more,
    the globals as they were, the handle open on [name], which now holds
    [content]. *)
Definition paged (name content : string) (w w' : world) : Prop :=
  file_is name content w' /\ glob w' = glob w /\ length (net w') = S (length (net w)).

(** What a paged loop does on a page that goes on, and on the answer
    [stop]: the local state [s] becomes [step es s] and the kept entries
    are appended as [render] shows them; on [stop] the run exits and the
    file is then [final s content]. *)
Definition page_goes_on {St} (page : Z -> St -> M (ctl * St)) (tr : nat -> request -> response)
           (pre : globals -> Prop) (ok : json -> Prop) (fit : list json -> Prop)
           (name : string) (step : list json -> St -> St) (text : list json -> string) : Prop :=
  forall seq s content w resp es,
    globals_bound (glob w) -> pre (glob w) ->
    (forall req, tr (length (net w)) req = resp) ->
    good_page ok resp es -> fit es -> file_is name content w ->
    fst (page seq s w) = Ret (Continue, step es s)
    /\ paged name (content +:+ text es) w (snd (page seq s w)).

Definition page_stops {St} (page : Z -> St -> M (ctl * St)) (tr : nat -> request -> response)
           (stop : response) (name : string) (final : St -> string -> option string) : Prop :=
  forall seq s content w,
    globals_bound (glob w) ->
    (forall req, tr (length (net w)) req = stop) ->
    file_is name content w ->
    fst (page seq s w) = Exit 0
    /\ fs (snd (page seq s w)) !! name = final s content
    /\ length (net (snd (page seq s w))) = S (length (net w)).

(** The file of a scan at its end: none when nothing matched. *)
Definition scan_file (count : Z) (content : string) : option string :=
  if count =? 0 then None else Some content.

(** The first answer of a scan: its status is not looked at; its body is
    a dict with the members [es], all of the shape [ok]. *)
Definition first_page (ok : json -> Prop) (resp : response) (es : list json) : Prop :=
  exists data, body resp = Some data /\ members_are data es /\ List.Forall ok es.

(** All the entries of a log: those of the first answer, then those of
    the pages, in order. *)
Definition all_entries (es0 : list json) (ess : list (list json)) : list json :=
  es0 ++ List.concat ess.

(** A log of three entries, given in two pages, then the error that tells
    its end. *)
Definition entry1 : json := an_entry 1 "Unable to configure NIC" "Update.1.0.SYS1003" "Audit".
Definition entry2 : json := an_entry 2 "Job completed" "Update.1.0.WRK0001" "Updates".
Definition entry3 : json := an_entry 3 "Disk failure predicted" "Update.1.0.STOR7" "Storage".

Definition out_of_range : response :=
  an_error 400 "The value 100 for the query parameter $skip is out of range.".

Definition small_log : nat -> request -> response :=
  answers [a_page [entry1; entry2]; a_page [entry3]] out_of_range.

(** The fetch of the firmware version as [get_iDRAC_version] writes it
    with a user name and a password: [verify=False] in the text. *)
Definition version_fetch (r : request) : Prop :=
  (exists ip, url r = https ip version_path) /\ verify r = false
  /\ exists u p, auth r = BasicAuth u p.

(** A request carries the flag [v], or is that fetch of a run without
    X-Auth token. *)
Definition flag_kept (args : Args) (v : bool) (r : request) : Prop :=
  verify r = v \/ (truthy (a_x args) = false /\ version_fetch r).

(** From a world where [verify_cert] is [v]: it still is, and each request
    sent meanwhile keeps the flag. *)
Definition sends_with (args : Args) (v : bool) (w w' : world) : Prop :=
  verify_cert (glob w) = Some v ->
  verify_cert (glob w') = Some v
  /\ exists new, net w' = net w ++ new /\ List.Forall (flag_kept args v) new.

(** The world after [__main__] bound the globals from the arguments, the
    password typed at the prompt being [pw]. *)
Definition with_credentials (args : Args) (pw : string) (w : world) : world :=
  let g1 := set_idrac_username (a_u args) (set_idrac_ip (a_ip args) (glob w)) in
  let g2 := if truthy (a_p args) then set_idrac_password (str_of_arg (a_p args)) g1 else g1 in
  if (negb (truthy (a_p args)) && negb (truthy (a_x args)) && truthy (a_u args))%bool
  then set_glob (set_verify_cert (verify_cert_of (a_ssl args)) (set_idrac_password pw g2))
         (set_console (console w ++ [Getpass (nl +:+ "- Argument -p not detected, pass in iDRAC user "
                                              +:+ str_of_arg (a_u args) +:+ " password: ")]) w)
  else set_glob (set_verify_cert (verify_cert_of (a_ssl args)) g2) w.

(** [-ip 192.168.0.120 --ssl true --get-all]: no user, password or token. *)
Definition ip_ssl_args : Args :=
  {| a_ip := Some "192.168.0.120"; a_u := None; a_p := None; a_x := None;
     a_ssl := Some "true"; a_script_examples := false; a_get_all := true;
     a_get_severity := None; a_get_category := None; a_get_date_range := false;
     a_start_date := None; a_end_date := None; a_get_fail := false;
     a_get_message_id := None |}.

(** An answer 200 whose body is a dict without [Members], or with the
    empty list there. *)
Definition empty_page (resp : response) : Prop :=
  status_code resp = 200
  /\ exists fields, body resp = Some (JObj fields)
                    /\ (assoc "Members" fields = None
                        \/ assoc "Members" fields = Some (JArr [])).

(** On the answer [stop] the page leaves the loop by [break]: the state
    and the file as they were, one request more. *)
Definition page_breaks {St} (page : Z -> St -> M (ctl * St)) (tr : nat -> request -> response)
           (stop : response) (name : string) : Prop :=
  forall seq s content w,
    globals_bound (glob w) ->
    (forall req, tr (length (net w)) req = stop) ->
    file_is name content w ->
    fst (page seq s w) = Ret (Break, s)
    /\ paged name content w (snd (page seq s w)).

(** The log of [small_log], ended by a page without entries. *)
Definition small_log_then_empty : nat -> request -> response :=
  answers [a_page [entry1; entry2]; a_page [entry3]] (a_page []).

(** A whole run on the log of [small_log]: the probe and the firmware
    version are answered first. *)
Definition whole_run (version : string) : nat -> request -> response :=
  answers [a_page []; a_firmware version; a_page [entry1; entry2]; a_page [entry3]]
          out_of_range.

(** A log of one page, after which every answer is a 200 with no entry. *)
Definition one_page_then_empty : nat -> request -> response :=
  answers [a_page [entry1; entry2]] (a_page []).

(** The error of an iDRAC that fails inside. *)
Definition failed_inside : response :=
  an_error 400 "Unable to complete the operation because of an internal error.".

(** An answer 500 with a JSON body. *)
Definition http_500 : response := {| status_code := 500; body := Some (JObj []) |}.

(** * Properties *)

(** ** Strings *)

Lemma app_nil_s (t : string) : EmptyString +:+ t = t.
Proof. reflexivity. Qed.

Lemma app_cons_s (c : ascii) (s t : string) : String c s +:+ t = String c (s +:+ t).
Proof. reflexivity. Qed.

Lemma app_empty_r (s : string) : s +:+ EmptyString = s.
Proof.
  induction s as [|c s IH]; [reflexivity|]. now rewrite app_cons_s, IH.
Qed.

Lemma app_assoc_s (a b c : string) : (a +:+ b) +:+ c = a +:+ (b +:+ c).
Proof.
  induction a as [|x a IH]; [reflexivity|]. now rewrite !app_cons_s, IH.
Qed.



Lemma split_nonempty (sep : ascii) (s : string) : PyStr.split sep s <> [].
Proof.
  destruct s as [|c s]; simpl; [discriminate|].
  destruct (Ascii.eqb c sep); [discriminate|].
  destruct (PyStr.split sep s); discriminate.
Qed.

Lemma join_cons (sep x : string) (l : list string) :
  l <> [] -> PyStr.join sep (x :: l) = x +:+ sep +:+ PyStr.join sep l.
Proof. destruct l; [congruence | reflexivity]. Qed.

Lemma join_snoc (sep t : string) (l : list string) :
  l <> [] -> PyStr.join sep (l ++ [t]) = PyStr.join sep l +:+ sep +:+ t.
Proof.
  induction l as [|x l IH]; [congruence|]. intros _.
  destruct l as [|y l].
  - reflexivity.
  - change ((x :: y :: l) ++ [t]) with (x :: ((y :: l) ++ [t])).
    rewrite join_cons by (destruct l; discriminate).
    rewrite IH by discriminate.
    rewrite (join_cons sep x (y :: l)) by discriminate.
    now rewrite !app_assoc_s.
Qed.

(** Joining the pieces of [s.split(sep)] with [sep] gives [s] back. *)
Lemma join_split (sep : ascii) (s : string) :
  PyStr.join (String sep EmptyString) (PyStr.split sep s) = s.
Proof.
  induction s as [|c s IH]; [reflexivity|].
  simpl PyStr.split. destruct (Ascii.eqb_spec c sep) as [->|Hne].
  - rewrite join_cons by apply split_nonempty. now rewrite IH.
  - pose proof (split_nonempty sep s) as Hn.
    destruct (PyStr.split sep s) as [|seg segs]; [congruence|].
    destruct segs as [|seg' segs].
    + simpl in *. now rewrite IH.
    + rewrite join_cons in * by discriminate. now rewrite app_cons_s, IH.
Qed.

Lemma occurs_cons (sep c : ascii) (s : string) :
  PyStr.occurs sep (String c s) = (Ascii.eqb sep c || PyStr.occurs sep s)%bool.
Proof.
  unfold PyStr.occurs. cbn [PyStr.contains PyStr.startswith].
  destruct (Ascii.eqb sep c); reflexivity.
Qed.

(** No piece of [s.split(sep)] has a [sep]. *)
Lemma split_no_sep (sep : ascii) (s : string) :
  List.Forall (fun seg => PyStr.occurs sep seg = false) (PyStr.split sep s).
Proof.
  induction s as [|c s IH]; simpl.
  - constructor; [reflexivity | constructor].
  - destruct (Ascii.eqb_spec c sep) as [->|Hne].
    + constructor; [reflexivity | exact IH].
    + destruct (PyStr.split sep s) as [|seg segs].
      * constructor; [|constructor]. rewrite occurs_cons.
        destruct (Ascii.eqb_spec sep c); [congruence | reflexivity].
      * inversion IH as [|? ? Hseg Hsegs]; subst. constructor; [|exact Hsegs].
        rewrite occurs_cons, Hseg.
        destruct (Ascii.eqb_spec sep c); [congruence | reflexivity].
Qed.

Lemma last_item_snoc (l : list string) (t : string) : PyStr.last_item (l ++ [t]) = Some t.
Proof.
  unfold PyStr.last_item. rewrite List.map_app. simpl. apply List.last_last.
Qed.

(** The last piece of [s.split(sep)]: it has no [sep], and [s] is that
    piece alone or ends with [sep] and that piece. *)
Lemma split_last_spec (sep : ascii) (s : string) :
  exists t, PyStr.last_item (PyStr.split sep s) = Some t
            /\ PyStr.occurs sep t = false
            /\ (s = t \/ exists p, s = p +:+ String sep t).
Proof.
  pose proof (split_nonempty sep s) as Hn.
  pose proof (join_split sep s) as Hj.
  pose proof (split_no_sep sep s) as Hf.
  destruct (List.exists_last Hn) as (init & t & E). rewrite E in *.
  exists t. split; [apply last_item_snoc|]. split.
  - apply List.Forall_app in Hf as [_ Hf]. now inversion Hf.
  - destruct init as [|x init].
    + left. now rewrite <- Hj.
    + right. rewrite join_snoc in Hj by discriminate.
      exists (PyStr.join (String sep EmptyString) (x :: init)). now rewrite <- Hj.
Qed.

(** ** Reasoning about runs *)


Lemma wp_ret {A} (a : A) Q w : Q (Ret a) w -> wp (ret a) Q w.
Proof. exact (fun H => H). Qed.

Lemma wp_raise {A} (e : exn) (Q : result A -> world -> Prop) w :
  Q (Raise e) w -> wp (raise e) Q w.
Proof. exact (fun H => H). Qed.

Lemma wp_exit {A} (c : Z) (Q : result A -> world -> Prop) w :
  Q (Exit c) w -> wp (sys_exit c) Q w.
Proof. exact (fun H => H). Qed.

Lemma wp_bind {A B} (m : M A) (k : A -> M B) Q w :
  wp m (fun r w' => match r with
                    | Ret a => wp (k a) Q w'
                    | Exit c => Q (Exit c) w'
                    | Raise e => Q (Raise e) w'
                    end) w ->
  wp (bind m k) Q w.
Proof.
  unfold wp, bind. destruct (m w) as [[a|c|e] w']; simpl; auto.
Qed.

Lemma wp_mono {A} (m : M A) (Q Q' : result A -> world -> Prop) w :
  wp m Q w -> (forall r w', Q r w' -> Q' r w') -> wp m Q' w.
Proof. unfold wp. auto. Qed.

(** A loop keeps an invariant [I] of the world and of its local variables
    when its body does; a body that leaves by [sys.exit] or an exception
    must establish the postcondition itself. *)
Lemma wp_for_each {A S} (body : A -> S -> M (ctl * S)) (I : S -> world -> Prop)
      (Q : result S -> world -> Prop) :
  (forall s w, I s w -> Q (Ret s) w) ->
  forall l : list A,
  (forall x s w, List.In x l -> I s w ->
                 wp (body x s) (fun r w' => match r with
                                            | Ret (_, s') => I s' w'
                                            | Exit c => Q (Exit c) w'
                                            | Raise e => Q (Raise e) w'
                                            end) w) ->
  forall s w, I s w -> wp (for_each l body s) Q w.
Proof.
  intros HQ l. induction l as [|x l IH]; intros Hbody s w HI.
  - apply wp_ret. auto.
  - cbn [for_each]. apply wp_bind.
    eapply wp_mono; [apply (Hbody x s w); [now left | exact HI]|].
    intros [[[|] s']|c|e] w' H; auto.
    + apply IH; auto. intros y s0 w0 Hy. apply Hbody. now right.
    + apply wp_ret. auto.
Qed.

Lemma wp_for_in {A S} (body : A -> S -> M S) (I : S -> world -> Prop)
      (Q : result S -> world -> Prop) :
  (forall s w, I s w -> Q (Ret s) w) ->
  forall l : list A,
  (forall x s w, List.In x l -> I s w ->
                 wp (body x s) (fun r w' => match r with
                                            | Ret s' => I s' w'
                                            | Exit c => Q (Exit c) w'
                                            | Raise e => Q (Raise e) w'
                                            end) w) ->
  forall s w, I s w -> wp (for_in l body s) Q w.
Proof.
  intros HQ l Hbody s w HI. unfold for_in.
  apply (wp_for_each _ I Q HQ); [|exact HI].
  intros x s0 w0 Hx HI0. apply wp_bind.
  eapply wp_mono; [apply (Hbody x s0 w0 Hx HI0)|].
  intros [s'|c|e] w' H; auto.
Qed.

(** *** Pieces that send nothing *)


Lemma quiet_wp {A} (m : M A) w :
  quiet m -> wp m (fun _ w' => net w' = net w /\ glob w' = glob w) w.
Proof. intros H. exact (H w). Qed.

Lemma quiet_ret {A} (a : A) : quiet (ret a).
Proof. now intros w. Qed.

Lemma quiet_raise {A} (e : exn) : quiet (@raise A e).
Proof. now intros w. Qed.

Lemma quiet_exit {A} (c : Z) : quiet (@sys_exit A c).
Proof. now intros w. Qed.

Lemma quiet_bind {A B} (m : M A) (k : A -> M B) :
  quiet m -> (forall a, quiet (k a)) -> quiet (bind m k).
Proof.
  intros Hm Hk w. unfold bind. specialize (Hm w).
  destruct (m w) as [[a|c|e] w']; simpl in *; auto.
  destruct (Hk a w') as [H1 H2]. destruct Hm as [H3 H4]. split; congruence.
Qed.

Lemma quiet_try_except {A} (m h : M A) : quiet m -> quiet h -> quiet (try_except m h).
Proof.
  intros Hm Hh w. unfold try_except. specialize (Hm w).
  destruct (m w) as [[a|c|e] w']; simpl in *; auto;
    destruct (Hh w') as [H1 H2]; destruct Hm as [H3 H4]; split; congruence.
Qed.

Lemma quiet_of_option {A} (e : exn) (o : option A) : quiet (of_option e o).
Proof. destruct o; now intros w. Qed.

Lemma quiet_read_global {A} (f : globals -> option A) : quiet (read_global f).
Proof. intros w. unfold read_global. destruct (f (glob w)); now simpl. Qed.

Lemma quiet_emit (e : event) : quiet (emit e).
Proof. now intros w. Qed.

Lemma quiet_os_remove (name : string) : quiet (os_remove name).
Proof. intros w. unfold os_remove. now destruct (fs w !! name). Qed.

Lemma quiet_open_w (name : string) : quiet (open_w name).
Proof. now intros w. Qed.

Lemma quiet_writelines (s : string) : quiet (writelines s).
Proof.
  intros w. unfold writelines. destruct (open_file w) as [name|]; [|now simpl].
  now destruct (fs w !! name).
Qed.

Lemma quiet_close : quiet close.
Proof. now intros w. Qed.

Lemma quiet_for_each {A S} (l : list A) (body : A -> S -> M (ctl * S)) (s : S) :
  (forall x s, quiet (body x s)) -> quiet (for_each l body s).
Proof.
  intros Hb. revert s. induction l as [|x l IH]; intros s; cbn [for_each].
  - apply quiet_ret.
  - apply quiet_bind; [apply Hb|]. intros [[|] s']; [apply IH | apply quiet_ret].
Qed.

Lemma quiet_for_in {A S} (l : list A) (body : A -> S -> M S) (s : S) :
  (forall x s, quiet (body x s)) -> quiet (for_in l body s).
Proof.
  intros Hb. unfold for_in. apply quiet_for_each. intros x s0.
  apply quiet_bind; [apply Hb | intros; apply quiet_ret].
Qed.

Create HintDb quiet.
#[local] Hint Resolve quiet_ret quiet_raise quiet_exit quiet_of_option quiet_read_global
  quiet_emit quiet_os_remove quiet_open_w quiet_writelines quiet_close : quiet.

Lemma quiet_response_json r : quiet (response_json r).
Proof. apply quiet_of_option. Qed.

Lemma quiet_pprint v : quiet (pprint v).
Proof. apply quiet_emit. Qed.

Lemma quiet_pprint_item ii : quiet (pprint_item ii).
Proof. apply quiet_emit. Qed.

Lemma quiet_print s : quiet (print s).
Proof. apply quiet_emit. Qed.

Lemma quiet_logging l msg : quiet (logging l msg).
Proof. apply quiet_emit. Qed.

#[local] Hint Resolve quiet_response_json quiet_pprint quiet_pprint_item quiet_print
  quiet_logging : quiet.

(** One step of a proof that a piece is quiet: through a sequence, a
    conditional, a loop, or by a lemma of the database. *)
Ltac quiet_step :=
  lazymatch goal with
  | |- quiet (bind _ _) => apply quiet_bind; [|intros]
  | |- quiet (try_except _ _) => apply quiet_try_except
  | |- quiet (for_each _ _ _) => apply quiet_for_each; intros
  | |- quiet (for_in _ _ _) => apply quiet_for_in; intros
  | |- quiet (if ?b then _ else _) => destruct b
  | |- quiet (match ?x with _ => _ end) => destruct x
  | |- quiet _ => solve [auto with quiet]
  end.
Ltac quiet_tac := repeat quiet_step.

Lemma quiet_getitem v k : quiet (getitem v k).
Proof. unfold getitem. quiet_tac. Qed.

Lemma quiet_getitem0 v : quiet (getitem0 v).
Proof. unfold getitem0. quiet_tac. Qed.

Lemma quiet_py_in s v : quiet (py_in s v).
Proof. unfold py_in. quiet_tac. Qed.

Lemma quiet_iter v : quiet (iter v).
Proof. unfold iter. quiet_tac. Qed.

Lemma quiet_items_of v : quiet (items_of v).
Proof. unfold items_of. quiet_tac. Qed.

Lemma quiet_py_lower v : quiet (py_lower v).
Proof. unfold py_lower. quiet_tac. Qed.

Lemma quiet_arg_lower o : quiet (arg_lower o).
Proof. unfold arg_lower. quiet_tac. Qed.

#[local] Hint Resolve quiet_getitem quiet_getitem0 quiet_py_in quiet_iter
  quiet_items_of quiet_py_lower quiet_arg_lower : quiet.

Lemma quiet_error_message data : quiet (error_message data).
Proof. unfold error_message. quiet_tac. Qed.
#[local] Hint Resolve quiet_error_message : quiet.

Lemma quiet_skip_or_internal data : quiet (skip_or_internal data).
Proof. unfold skip_or_internal. quiet_tac. Qed.

Lemma quiet_write_items i b : quiet (write_items i b).
Proof. unfold write_items. quiet_tac. Qed.
#[local] Hint Resolve quiet_skip_or_internal quiet_write_items : quiet.

Lemma quiet_fresh_file clock name announce :
  quiet announce -> quiet (fresh_file clock name announce).
Proof. intros H. unfold fresh_file. quiet_tac. Qed.

Lemma quiet_nothing_found {A} msg name : quiet (@nothing_found A msg name).
Proof. unfold nothing_found. quiet_tac. Qed.

Lemma quiet_dump_page data : quiet (dump_page data).
Proof. unfold dump_page, dump_entry. quiet_tac. Qed.

Lemma quiet_record_items i : quiet (record_items i).
Proof. unfold record_items. quiet_tac. Qed.
#[local] Hint Resolve quiet_nothing_found quiet_dump_page quiet_record_items : quiet.

Lemma quiet_fail_page data count : quiet (fail_page data count).
Proof. unfold fail_page, fail_entry, fail_words. quiet_tac. Qed.

Lemma quiet_message_id_page args data count : quiet (message_id_page args data count).
Proof.
  unfold message_id_page, message_id_entry, message_id_matches, normalize_message_id.
  quiet_tac.
Qed.

Lemma quiet_category_page args data count : quiet (category_page args data count).
Proof. unfold category_page, category_entry, category_matches. quiet_tac. Qed.
#[local] Hint Resolve quiet_fail_page quiet_message_id_page quiet_category_page : quiet.

(** ** The fetches of a walk *)

Lemma fetched_nil n0 g0 : fetched n0 g0 [] n0 g0.
Proof. split; [reflexivity|]. exists []. now rewrite List.app_nil_r. Qed.

Lemma fetched_app n0 g0 p1 n1 g1 p2 n2 g2 :
  fetched n0 g0 p1 n1 g1 -> fetched n1 g1 p2 n2 g2 -> fetched n0 g0 (p1 ++ p2) n2 g2.
Proof.
  intros [-> (r1 & -> & H1)] [-> (r2 & -> & H2)]. split; [reflexivity|].
  exists (r1 ++ r2). split; [now rewrite List.app_assoc|].
  now rewrite !List.map_app, H1, H2.
Qed.

(** A quiet piece keeps what was fetched. *)
Lemma wp_quiet {A} (m : M A) (R : list request -> globals -> Prop) w :
  quiet m -> R (net w) (glob w) -> wp m (fun _ w' => R (net w') (glob w')) w.
Proof. intros Hq HR. unfold wp. destruct (Hq w) as [-> ->]. exact HR. Qed.

Lemma wp_quiet_bind {A B} (m : M A) (k : A -> M B) (R : list request -> globals -> Prop) w :
  quiet m -> R (net w) (glob w) ->
  (forall a w1, net w1 = net w -> glob w1 = glob w ->
                wp (k a) (fun _ w' => R (net w') (glob w')) w1) ->
  wp (bind m k) (fun _ w' => R (net w') (glob w')) w.
Proof.
  intros Hq HR Hk. apply wp_bind. unfold wp at 1. destruct (Hq w) as [Hn Hg].
  destruct (fst (m w)); [apply Hk; assumption | rewrite Hn, Hg; exact HR ..].
Qed.

(** A fetch sends one request of the path asked for, or, a global it needs
    being unbound, sends nothing and ends in NameError. *)
Lemma redfish_get_wp args tr path w :
  wp (redfish_get args tr path)
     (fun r w' => (r = Raise NameError /\ fetched (net w) (glob w) [] (net w') (glob w'))
                  \/ (exists resp, r = Ret resp
                                   /\ fetched (net w) (glob w) [path] (net w') (glob w'))) w.
Proof.
  unfold wp, redfish_get, bind, read_global, requests_get.
  destruct (truthy (a_x args));
    destruct (idrac_ip (glob w)) as [ip|] eqn:Eip; simpl;
    try (left; split; [reflexivity | apply fetched_nil]).
  all: destruct (verify_cert (glob w)) as [v|]; simpl;
    try (left; split; [reflexivity | apply fetched_nil]).
  all: try (destruct (idrac_username (glob w)) as [u|]; simpl;
            [|left; split; [reflexivity | apply fetched_nil]];
            destruct (idrac_password (glob w)) as [p|]; simpl;
            [|left; split; [reflexivity | apply fetched_nil]]).
  all: right; eexists; (split; [reflexivity|]); (split; [reflexivity|]);
    eexists; (split; [reflexivity|]); unfold host; rewrite Eip; reflexivity.
Qed.

Lemma page_fetch_intro {S} (body : Z -> S -> M (ctl * S)) args tr
      (rest : Z -> S -> response -> M (ctl * S)) :
  (forall seq s, body seq s = bind (redfish_get args tr (skip_path seq)) (rest seq s)) ->
  (forall seq s resp, quiet (rest seq s resp)) ->
  page_fetch body.
Proof.
  intros Hbody Hrest seq s w. rewrite Hbody. apply wp_bind.
  eapply wp_mono; [apply redfish_get_wp|].
  intros r w1 [[-> H] | (resp & -> & H)].
  - right. split; [exact H | discriminate].
  - eapply wp_mono; [apply (wp_quiet _ (fetched (net w) (glob w) [skip_path seq]));
                     [apply Hrest | exact H]|].
    intros r' w' H'. now left.
Qed.

Lemma get_LC_logs_page_fetch args tr : page_fetch (get_LC_logs_page args tr).
Proof.
  eapply page_fetch_intro; [intros; unfold get_LC_logs_page; reflexivity|].
  intros seq s resp. cbv beta. quiet_tac.
Qed.

Lemma get_LC_log_failures_page_fetch args tr : page_fetch (get_LC_log_failures_page args tr).
Proof.
  eapply page_fetch_intro; [intros; unfold get_LC_log_failures_page; reflexivity|].
  intros seq s resp. cbv beta. quiet_tac.
Qed.

Lemma get_message_id_page_fetch args tr : page_fetch (get_message_id_page args tr).
Proof.
  eapply page_fetch_intro; [intros; unfold get_message_id_page; reflexivity|].
  intros seq s resp. cbv beta. quiet_tac.
Qed.

Lemma get_category_entries_page_fetch args tr :
  page_fetch (get_category_entries_page args tr).
Proof.
  eapply page_fetch_intro; [intros; unfold get_category_entries_page; reflexivity|].
  intros seq s resp. cbv beta. quiet_tac.
Qed.

(** A paged loop over [l] fetches the pages of a prefix of [l], in order. *)
Lemma for_each_fetches {St} (body : Z -> St -> M (ctl * St)) :
  page_fetch body ->
  forall l s w,
    wp (for_each l body s)
       (fun _ w' => exists k, (k <= length l)%nat
                              /\ fetched (net w) (glob w) (List.map skip_path (List.firstn k l))
                                         (net w') (glob w')) w.
Proof.
  intros Hb l. induction l as [|seq l IH]; intros s w.
  - apply wp_ret. exists 0%nat. split; [reflexivity | apply fetched_nil].
  - cbn [for_each]. apply wp_bind. eapply wp_mono; [apply Hb|].
    intros r w1 [H | [H Hr]].
    + destruct r as [[[|] s']|c|e].
      * eapply wp_mono; [apply IH|]. intros _ w2 (k & Hk & H2).
        exists (S k). split; [simpl; lia|].
        apply (fetched_app _ _ [skip_path seq] _ _ _ _ _ H H2).
      * apply wp_ret. exists 1%nat. split; [simpl; lia | exact H].
      * exists 1%nat. split; [simpl; lia | exact H].
      * exists 1%nat. split; [simpl; lia | exact H].
    + destruct r as [v|c|e]; [now destruct (Hr v) | |];
        (exists 0%nat; split; [simpl; lia | exact H]).
Qed.

Lemma number_list_spec : number_list = List.map (fun i => 50 * Z.of_nat i) (List.seq 1 2000).
Proof. vm_compute. reflexivity. Qed.

Lemma number_list_length : length number_list = 2000%nat.
Proof. rewrite number_list_spec, List.length_map, List.length_seq. reflexivity. Qed.

Lemma walked_refl w0 w : net w = net w0 -> glob w = glob w0 -> walked w0 w.
Proof.
  intros Hn Hg. exists 0%nat. split; [lia|]. rewrite Hn, Hg. apply fetched_nil.
Qed.

Lemma walked_same w0 w1 w' :
  net w1 = net w0 -> glob w1 = glob w0 -> walked w1 w' -> walked w0 w'.
Proof. unfold walked. now intros -> ->. Qed.

Lemma walked_first w0 w1 :
  fetched (net w0) (glob w0) [lclog_path] (net w1) (glob w1) -> walked w0 w1.
Proof. intros H. exists 1%nat. split; [lia | exact H]. Qed.

Lemma walked_quiet {A} (m : M A) w0 w :
  quiet m -> walked w0 w -> wp m (fun _ w' => walked w0 w') w.
Proof.
  intros Hq Hw.
  exact (wp_quiet m (fun n g => exists k, (k <= 2001)%nat
                                          /\ fetched (net w0) (glob w0)
                                                     (List.firstn k walk_paths) n g) w Hq Hw).
Qed.

Lemma walked_quiet_bind {A B} (m : M A) (k : A -> M B) w0 w :
  quiet m -> walked w0 w ->
  (forall a w1, net w1 = net w -> glob w1 = glob w -> wp (k a) (fun _ w' => walked w0 w') w1) ->
  wp (bind m k) (fun _ w' => walked w0 w') w.
Proof.
  intros Hq Hw Hk.
  exact (wp_quiet_bind m k (fun n g => exists k, (k <= 2001)%nat
                                                 /\ fetched (net w0) (glob w0)
                                                            (List.firstn k walk_paths) n g)
                       w Hq Hw Hk).
Qed.

(** The first fetch of a walk, then whatever comes. *)
Lemma walked_first_fetch {B} args tr (rest : response -> M B) w0 w :
  net w = net w0 -> glob w = glob w0 ->
  (forall resp w1, fetched (net w0) (glob w0) [lclog_path] (net w1) (glob w1) ->
                   wp (rest resp) (fun _ w' => walked w0 w') w1) ->
  wp (bind (redfish_get args tr lclog_path) rest) (fun _ w' => walked w0 w') w.
Proof.
  intros Hn Hg Hrest. apply wp_bind. eapply wp_mono; [apply redfish_get_wp|].
  rewrite Hn, Hg. intros r w1 [[-> H] | (resp & -> & H)].
  - destruct H as [H1 (reqs & H2 & H3)]. destruct reqs; [|discriminate].
    apply walked_refl; [now rewrite H2, List.app_nil_r | exact H1].
  - now apply Hrest.
Qed.

(** The paged loop of a walk and the quiet end of the function. *)
Lemma walked_loop {St B} (page : Z -> St -> M (ctl * St)) (s : St) (post : St -> M B) w0 w1 :
  page_fetch page -> (forall s', quiet (post s')) ->
  fetched (net w0) (glob w0) [lclog_path] (net w1) (glob w1) ->
  wp (bind (for_each number_list page s) post) (fun _ w' => walked w0 w') w1.
Proof.
  intros Hp Hq H1. apply wp_bind. eapply wp_mono; [apply for_each_fetches, Hp|].
  intros r w2 (k & Hk & H2). rewrite number_list_length in Hk.
  assert (Hw : walked w0 w2).
  { exists (S k). split; [lia|]. unfold walk_paths. cbn [List.firstn].
    rewrite List.firstn_map.
    exact (fetched_app _ _ [lclog_path] _ _ _ _ _ H1 H2). }
  destruct r as [s'|c|e]; [|exact Hw ..].
  apply walked_quiet; [apply Hq | exact Hw].
Qed.

Lemma fetched_quiet_step n0 g0 paths w1 w2 :
  fetched n0 g0 paths (net w1) (glob w1) -> net w2 = net w1 -> glob w2 = glob w1 ->
  fetched n0 g0 paths (net w2) (glob w2).
Proof. now intros H -> ->. Qed.

Lemma get_LC_logs_walked args tr clock w :
  walked w (snd (get_LC_logs args tr clock w)).
Proof.
  change (wp (get_LC_logs args tr clock) (fun _ w' => walked w w') w).
  unfold get_LC_logs.
  apply walked_quiet_bind; [apply quiet_fresh_file, quiet_ret | now apply walked_refl|].
  intros _ w1 Hn1 Hg1. apply walked_first_fetch; [assumption ..|].
  intros resp w2 H2.
  apply walked_quiet_bind; [quiet_tac | now apply walked_first|].
  intros data w3 Hn3 Hg3.
  destruct (negb (status_code resp =? 200)).
  - apply walked_quiet; [quiet_tac|].
    apply walked_first. eapply fetched_quiet_step; eassumption.
  - apply walked_quiet_bind; [quiet_tac | |].
    + apply walked_first. eapply fetched_quiet_step; eassumption.
    + intros _ w4 Hn4 Hg4.
      apply walked_loop; [apply get_LC_logs_page_fetch | intros; quiet_tac|].
      eapply fetched_quiet_step; [|eassumption ..].
      eapply fetched_quiet_step; eassumption.
Qed.

Lemma get_LC_log_failures_walked args tr clock w :
  walked w (snd (get_LC_log_failures args tr clock w)).
Proof.
  change (wp (get_LC_log_failures args tr clock) (fun _ w' => walked w w') w).
  unfold get_LC_log_failures.
  apply walked_quiet_bind; [apply quiet_fresh_file; quiet_tac | now apply walked_refl|].
  intros _ w1 Hn1 Hg1. apply walked_first_fetch; [assumption ..|].
  intros resp w2 H2.
  apply walked_quiet_bind; [quiet_tac | now apply walked_first|].
  intros data w3 Hn3 Hg3.
  apply walked_quiet_bind; [quiet_tac | |].
  - apply walked_first. eapply fetched_quiet_step; eassumption.
  - intros count w4 Hn4 Hg4.
    apply walked_loop; [apply get_LC_log_failures_page_fetch | intros; quiet_tac|].
    eapply fetched_quiet_step; [|eassumption ..].
    eapply fetched_quiet_step; eassumption.
Qed.

Lemma get_message_id_walked args tr clock w :
  walked w (snd (get_message_id args tr clock w)).
Proof.
  change (wp (get_message_id args tr clock) (fun _ w' => walked w w') w).
  unfold get_message_id.
  apply walked_quiet_bind; [apply quiet_fresh_file; quiet_tac | now apply walked_refl|].
  intros _ w1 Hn1 Hg1. apply walked_first_fetch; [assumption ..|].
  intros resp w2 H2.
  apply walked_quiet_bind; [quiet_tac | now apply walked_first|].
  intros data w3 Hn3 Hg3.
  apply walked_quiet_bind; [quiet_tac | |].
  - apply walked_first. eapply fetched_quiet_step; eassumption.
  - intros count w4 Hn4 Hg4.
    apply walked_loop; [apply get_message_id_page_fetch | intros; quiet_tac|].
    eapply fetched_quiet_step; [|eassumption ..].
    eapply fetched_quiet_step; eassumption.
Qed.

Lemma get_category_entries_walked args tr clock w :
  walked w (snd (get_category_entries args tr clock w)).
Proof.
  change (wp (get_category_entries args tr clock) (fun _ w' => walked w w') w).
  unfold get_category_entries.
  apply walked_quiet_bind; [quiet_tac | now apply walked_refl|].
  intros c w0 Hn0 Hg0.
  destruct (negb (existsb (String.eqb c) categories)).
  { apply walked_quiet; [quiet_tac | now apply walked_refl]. }
  apply walked_quiet_bind; [apply quiet_fresh_file; quiet_tac | now apply walked_refl|].
  intros _ w1 Hn1 Hg1. apply walked_first_fetch; [congruence ..|].
  intros resp w2 H2.
  apply walked_quiet_bind; [quiet_tac | now apply walked_first|].
  intros data w3 Hn3 Hg3.
  apply walked_quiet_bind; [quiet_tac | |].
  - apply walked_first. eapply fetched_quiet_step; eassumption.
  - intros count w4 Hn4 Hg4.
    apply walked_loop; [apply get_category_entries_page_fetch | intros; quiet_tac|].
    eapply fetched_quiet_step; [|eassumption ..].
    eapply fetched_quiet_step; eassumption.
Qed.

(** ** The claims *)

Lemma sorted_multiples (n a : nat) :
  StronglySorted Z.lt (List.map (fun i => 50 * Z.of_nat i) (List.seq a n)).
Proof.
  revert a. induction n as [|n IH]; intros a; simpl; constructor; [apply IH|].
  apply List.Forall_forall. intros y Hy.
  apply List.in_map_iff in Hy as (i & <- & Hi). apply List.in_seq in Hi. lia.
Qed.

Lemma multiples_range (n a : nat) :
  (0 < a)%nat -> (a + n <= 2001)%nat ->
  List.Forall (fun seq => 0 < seq <= 100000 /\ seq mod 50 = 0)
              (List.map (fun i => 50 * Z.of_nat i) (List.seq a n)).
Proof.
  intros Ha Hn. apply List.Forall_forall. intros y Hy.
  apply List.in_map_iff in Hy as (i & <- & Hi). apply List.in_seq in Hi.
  split; [lia|]. rewrite Z.mul_comm. apply Z.mod_mul. lia.
Qed.

Lemma walk_paths_length_of (l : list Z) :
  length (lclog_path :: List.map skip_path l) = S (length l).
Proof. cbn [length]. now rewrite List.length_map. Qed.

Lemma walk_paths_length : length walk_paths = 2001%nat.
Proof.
  exact (eq_trans (walk_paths_length_of number_list) (f_equal S number_list_length)).
Qed.

(** C6. Whatever the iDRAC answers, each of the four walks fetches a
    prefix of [walk_paths]: the log without [$skip] (offset 0), then
    [$skip=50], [$skip=100], ... in this order, at most 2000 paged fetches
    after the first one; the offsets are the multiples [50 * i] for [i]
    from 1 to 2000, so they are positive, at most 100000, multiples of 50
    and strictly increasing (none comes twice). *)
Theorem walk_offsets_bounded (args : Args) (tr : nat -> request -> response)
        (clock : datetime) (w : world) :
  walked w (snd (get_LC_logs args tr clock w))
  /\ walked w (snd (get_LC_log_failures args tr clock w))
  /\ walked w (snd (get_message_id args tr clock w))
  /\ walked w (snd (get_category_entries args tr clock w))
  /\ number_list = List.map (fun i => 50 * Z.of_nat i) (List.seq 1 2000)
  /\ length walk_paths = 2001%nat
  /\ List.Forall (fun seq => 0 < seq <= 100000 /\ seq mod 50 = 0) number_list
  /\ StronglySorted Z.lt number_list.
Proof.
  split; [apply get_LC_logs_walked|].
  split; [apply get_LC_log_failures_walked|].
  split; [apply get_message_id_walked|].
  split; [apply get_category_entries_walked|].
  split; [exact number_list_spec|].
  split; [exact walk_paths_length|].
  split.
  - exact (eq_ind_r (List.Forall (fun seq => 0 < seq <= 100000 /\ seq mod 50 = 0))
                    (multiples_range 2000 1 ltac:(lia) ltac:(lia)) number_list_spec).
  - exact (eq_ind_r (StronglySorted Z.lt) (sorted_multiples 2000 1) number_list_spec).
Qed.



(** The example of the specification, and the old convention next to it. *)
Example normalize_new_example :
  fst (normalize_message_id (JStr "Update.1.0.WRK0001") (entered true)) = Ret (JStr "WRK0001")
  /\ fst (normalize_message_id (JStr "Update.1.0.WRK0001") (entered false))
     = Ret (JStr "Update.1.0.WRK0001").
Proof. split; reflexivity. Qed.

(** ** Further properties of the script *)

(** *** Running a piece step by step *)

Lemma bind_Ret {A B} (m : M A) (k : A -> M B) w a w1 :
  m w = (Ret a, w1) -> bind m k w = k a w1.
Proof. intros H. unfold bind. now rewrite H. Qed.

Lemma bind_Exit {A B} (m : M A) (k : A -> M B) w c w1 :
  m w = (Exit c, w1) -> bind m k w = (Exit c, w1).
Proof. intros H. unfold bind. now rewrite H. Qed.

Lemma bind_Raise {A B} (m : M A) (k : A -> M B) w e w1 :
  m w = (Raise e, w1) -> bind m k w = (Raise e, w1).
Proof. intros H. unfold bind. now rewrite H. Qed.

(** With the globals bound a fetch sends one request, to the host and the
    path asked for and with [verify_cert], and gets what the iDRAC
    answers. *)
Lemma redfish_get_bound args tr path w :
  globals_bound (glob w) ->
  exists req,
    redfish_get args tr path w
    = (Ret (tr (length (net w)) req), set_net (net w ++ [req]) w)
    /\ url req = https (host (glob w)) path
    /\ verify_cert (glob w) = Some (verify req).
Proof.
  intros ([ip Hip] & [u Hu] & [p Hp] & [v Hv]).
  unfold redfish_get, bind, read_global, requests_get, host.
  destruct (truthy (a_x args)); rewrite Hip; simpl; rewrite Hv; simpl;
    try (rewrite Hu; simpl; rewrite Hp; simpl);
    eexists; (split; [reflexivity|]); simpl; auto.
Qed.

(** *** What the sink writes *)

Lemma for_in_nil {A St} (body : A -> St -> M St) (s : St) w :
  for_in [] body s w = (Ret s, w).
Proof. reflexivity. Qed.

Lemma for_in_cons {A St} (x : A) (l : list A) (body : A -> St -> M St) (s : St) w :
  for_in (x :: l) body s w = bind (body x s) (fun s' => for_in l body s') w.
Proof.
  unfold for_in. cbn [for_each]. unfold bind.
  destruct (body x s w) as [[s'|c|e] w1]; reflexivity.
Qed.

Lemma wp_for_in_cons {A St} (x : A) (l : list A) (body : A -> St -> M St) (s : St) Q w :
  wp (bind (body x s) (fun s' => for_in l body s')) Q w -> wp (for_in (x :: l) body s) Q w.
Proof. unfold wp. now rewrite for_in_cons. Qed.

Lemma file_is_console name content c w :
  file_is name content w -> file_is name content (set_console c w).
Proof. exact (fun H => H). Qed.

Lemma wrote_refl name content w : file_is name content w -> wrote name content w w.
Proof. intros H. split; [exact H|]. repeat split; auto. Qed.

Lemma wrote_trans name c1 c2 w w1 w2 :
  wrote name c1 w w1 -> wrote name c2 w1 w2 -> wrote name c2 w w2.
Proof.
  intros (_ & Hn1 & Hg1 & Ho1) (Hf & Hn2 & Hg2 & Ho2).
  split; [exact Hf|]. split; [congruence|]. split; [congruence|].
  intros other Hne. rewrite Ho2, Ho1; auto.
Qed.

Lemma wp_emit e (Q : result unit -> world -> Prop) w :
  Q (Ret tt) (set_console (console w ++ [e]) w) -> wp (emit e) Q w.
Proof. exact (fun H => H). Qed.

(** Writing through the handle appends to the file. *)
Lemma wp_writelines name content s (Q : result unit -> world -> Prop) w :
  file_is name content w ->
  (forall w', wrote name (content +:+ s) w w' -> Q (Ret tt) w') ->
  wp (writelines s) Q w.
Proof.
  intros [Ho Hf] HQ. unfold wp, writelines. rewrite Ho, Hf. simpl.
  apply HQ. split; [split; simpl; [exact Ho | apply lookup_insert_eq]|].
  split; [reflexivity|]. split; [reflexivity|].
  intros other Hne. simpl. now apply lookup_insert_ne.
Qed.

Lemma wp_emit_wrote name content e (Q : result unit -> world -> Prop) w :
  file_is name content w ->
  (forall w', wrote name content w w' -> Q (Ret tt) w') ->
  wp (emit e) Q w.
Proof.
  intros Hf HQ. apply wp_emit, HQ. split; [exact Hf|]. repeat split; auto.
Qed.

Lemma concat_app (l1 l2 : list string) :
  PyStr.concat (l1 ++ l2) = PyStr.concat l1 +:+ PyStr.concat l2.
Proof.
  induction l1 as [|x l1 IH]; [reflexivity|].
  cbn [List.app PyStr.concat]. now rewrite IH, app_assoc_s.
Qed.

(** The items of a dict go to the file as their lines, in order. *)
Lemma write_items_wp name content items show w :
  file_is name content w ->
  wp (write_items (JObj items) show)
     (fun r w' => r = Ret tt
                  /\ wrote name (content +:+ PyStr.concat (List.map item_line items)) w w') w.
Proof.
  unfold write_items. intros Hf. apply wp_bind. apply wp_ret.
  revert content w Hf. induction items as [|ii items IH]; intros content w Hf.
  - unfold wp. rewrite for_in_nil. simpl. split; [reflexivity|].
    rewrite app_empty_r. now apply wrote_refl.
  - apply wp_for_in_cons. apply wp_bind. apply wp_bind.
    assert (Hshow : wp (if show then pprint_item ii else ret tt)
                       (fun r w' => r = Ret tt /\ wrote name content w w') w).
    { destruct show.
      - apply (wp_emit_wrote name content); [exact Hf | auto].
      - apply wp_ret. split; [reflexivity | now apply wrote_refl]. }
    eapply wp_mono; [exact Hshow|]. intros r w1 [-> H1].
    apply (wp_writelines name content); [exact (proj1 H1)|]. intros w2 H2.
    eapply wp_mono; [apply (IH _ w2 (proj1 H2))|].
    intros r w3 [-> H3]. split; [reflexivity|].
    cbn [List.map PyStr.concat]. rewrite <- app_assoc_s.
    exact (wrote_trans _ _ _ _ _ _ (wrote_trans _ _ _ _ _ _ H1 H2) H3).
Qed.

(** A loop over the entries of a page whose body, on each entry, changes
    the local state by [step] and appends [written] to the file: the loop
    does so for all of them, in order. *)
Lemma for_in_entries {St} (body : json -> St -> M St) (ok : json -> Prop)
      (pre : globals -> Prop) (step : json -> St -> St) (written : json -> string)
      (name : string) :
  (forall i s content w,
      ok i -> pre (glob w) -> file_is name content w ->
      wp (body i s) (fun r w' => r = Ret (step i s)
                                 /\ wrote name (content +:+ written i) w w') w) ->
  forall entries s content w,
    List.Forall ok entries -> pre (glob w) -> file_is name content w ->
    wp (for_in entries body s)
       (fun r w' => r = Ret (List.fold_left (fun s i => step i s) entries s)
                    /\ wrote name (content +:+ PyStr.concat (List.map written entries)) w w') w.
Proof.
  intros Hbody entries. induction entries as [|i entries IH]; intros s content w Hok Hpre Hf.
  - unfold wp. rewrite for_in_nil. simpl. split; [reflexivity|].
    rewrite app_empty_r. now apply wrote_refl.
  - inversion Hok as [|? ? Hi Hrest]; subst.
    apply wp_for_in_cons, wp_bind.
    eapply wp_mono; [apply (Hbody i s content w Hi Hpre Hf)|].
    intros r w1 [-> H1].
    assert (Hpre1 : pre (glob w1)) by (destruct H1 as (_ & _ & -> & _); exact Hpre).
    eapply wp_mono; [apply (IH (step i s) _ w1 Hrest Hpre1 (proj1 H1))|].
    intros r w2 [-> H2]. split; [reflexivity|].
    cbn [List.map PyStr.concat]. rewrite <- app_assoc_s.
    exact (wrote_trans _ _ _ _ _ _ H1 H2).
Qed.

Lemma members_getitem data entries w :
  members_are data entries -> getitem data "Members" w = (Ret (JArr entries), w).
Proof. intros (fields & -> & H). unfold getitem. now rewrite H. Qed.

Lemma fold_count (sel : json -> bool) (entries : list json) (count : Z) :
  List.fold_left (fun c i => c + (if sel i then 1 else 0)) entries count
  = count + Z.of_nat (length (kept sel entries)).
Proof.
  revert count. induction entries as [|i entries IH]; intros count; simpl.
  - lia.
  - rewrite IH. destruct (sel i); simpl length; lia.
Qed.

Lemma concat_kept (sel : json -> bool) (render : json -> string) (entries : list json) :
  PyStr.concat (List.map (fun i => if sel i then render i else EmptyString) entries)
  = PyStr.concat (List.map render (kept sel entries)).
Proof.
  unfold kept. induction entries as [|i entries IH]; [reflexivity|].
  cbn [List.map PyStr.concat List.filter]. destruct (sel i).
  - cbn [List.map PyStr.concat]. now rewrite <- IH.
  - now rewrite app_nil_s.
Qed.

Lemma wp_eq {A} (m : M A) (Q : result A -> world -> Prop) w r w1 :
  m w = (r, w1) -> Q r w1 -> wp m Q w.
Proof. intros H HQ. unfold wp. now rewrite H. Qed.

(** An entry that matched goes to the file as its lines. *)
Lemma record_items_wp name content items w :
  file_is name content w ->
  wp (record_items (JObj items))
     (fun r w' => r = Ret tt /\ wrote name (content +:+ entry_lines (JObj items)) w w') w.
Proof.
  intros Hf. unfold record_items. apply wp_bind.
  eapply wp_mono; [apply (write_items_wp name content items true w Hf)|].
  intros r w1 [-> H1]. apply wp_bind.
  apply (wp_emit_wrote name _ _ _ _ (proj1 H1)). intros w2 H2.
  apply (wp_writelines name _ _ _ _ (proj1 H2)). intros w3 H3.
  split; [reflexivity|]. unfold entry_lines.
  rewrite <- app_assoc_s.
  exact (wrote_trans _ _ _ _ _ _ (wrote_trans _ _ _ _ _ _ H1 H2) H3).
Qed.

Lemma dump_entry_wp name content items w :
  file_is name content w ->
  wp (dump_entry (JObj items))
     (fun r w' => r = Ret tt /\ wrote name (content +:+ entry_lines (JObj items)) w w') w.
Proof.
  intros Hf. unfold dump_entry. apply wp_bind.
  apply (wp_emit_wrote name _ _ _ _ Hf). intros w1 H1. apply wp_bind.
  apply (wp_emit_wrote name _ _ _ _ (proj1 H1)). intros w2 H2. apply wp_bind.
  eapply wp_mono; [apply (write_items_wp name content items false w2 (proj1 H2))|].
  intros r w3 [-> H3].
  apply (wp_writelines name _ _ _ _ (proj1 H3)). intros w4 H4.
  split; [reflexivity|]. unfold entry_lines. rewrite <- app_assoc_s.
  exact (wrote_trans _ _ _ _ _ _
           (wrote_trans _ _ _ _ _ _ (wrote_trans _ _ _ _ _ _ H1 H2) H3) H4).
Qed.

Lemma scan_absent key test i its count w :
  ~ List.In key (List.map fst its) ->
  for_in its (scan_item key test i) count w = (Ret count, w).
Proof.
  revert count w. induction its as [|[k v] its IH]; intros count w Hnot.
  - reflexivity.
  - rewrite for_in_cons. unfold scan_item at 1. cbn [fst snd].
    destruct (String.eqb_spec k key) as [->|Hne].
    + exfalso. apply Hnot. now left.
    + rewrite (bind_Ret _ _ w count w) by reflexivity. apply IH.
      intros Hin. apply Hnot. now right.
Qed.

Lemma assoc_absent key its : ~ List.In key (List.map fst its) -> assoc key its = None.
Proof.
  induction its as [|[k v] its IH]; [reflexivity|]. intros Hnot. cbn [assoc].
  destruct (String.eqb_spec key k) as [->|Hne].
  - exfalso. apply Hnot. now left.
  - apply IH. intros Hin. apply Hnot. now right.
Qed.

Lemma scan_items_wp key test holds (pre : globals -> Prop) name items :
  (forall m w, pre (glob w) -> test (JStr m) w = (Ret (holds m), w)) ->
  forall its count content w,
    List.NoDup (List.map fst its) ->
    match assoc key its with
    | Some (JStr _) => True
    | Some _ => False
    | None => True
    end ->
    pre (glob w) -> file_is name content w ->
    wp (for_in its (scan_item key test (JObj items)) count)
       (fun r w' =>
          r = Ret (count + (if field_holds key holds its then 1 else 0))
          /\ wrote name (content +:+ (if field_holds key holds its
                                      then entry_lines (JObj items) else EmptyString))
                   w w') w.
Proof.
  intros Htest its. induction its as [|[k v] its IH]; intros count content w Hnd Hstr Hpre Hf.
  - unfold wp. rewrite for_in_nil. simpl. split; [f_equal; lia|].
    rewrite app_empty_r. now apply wrote_refl.
  - cbn [List.map fst] in Hnd. inversion Hnd as [|? ? Hk Hnd']; subst.
    unfold field_holds. cbn [assoc] in *.
    apply wp_for_in_cons. unfold scan_item at 1. cbn [fst snd].
    rewrite (String.eqb_sym k key).
    destruct (String.eqb_spec key k) as [->|Hne].
    + destruct v as [| | |m| |]; try contradiction.
      apply wp_bind, wp_bind. eapply wp_eq; [apply Htest, Hpre|]. cbv beta iota.
      destruct (holds m).
      * apply wp_bind.
        eapply wp_mono; [apply (record_items_wp name content items w Hf)|].
        intros r w1 [-> H1]. apply wp_ret.
        unfold wp. rewrite scan_absent by exact Hk. simpl. split; [reflexivity | exact H1].
      * apply wp_ret. unfold wp. rewrite scan_absent by exact Hk. simpl.
        split; [f_equal; lia|]. rewrite app_empty_r. now apply wrote_refl.
    + apply wp_bind, wp_ret. apply (IH count content w Hnd' Hstr Hpre Hf).
Qed.

Lemma fail_words_str m w :
  fail_words (JStr m) w
  = (Ret (PyStr.contains "unable" (PyStr.lower m) || PyStr.contains "fail" (PyStr.lower m)
          || PyStr.contains "error" (PyStr.lower m))%bool, w).
Proof.
  unfold fail_words, bind, py_lower, ret. do 2 f_equal.
  destruct (PyStr.contains "unable" (PyStr.lower m)),
    (PyStr.contains "fail" (PyStr.lower m)); reflexivity.
Qed.

Lemma normalize_str ver raw w :
  iDRAC_version (glob w) = Some ver ->
  normalize_message_id (JStr raw) w = (Ret (JStr (kept_message_id ver raw)), w).
Proof.
  intros Hver. unfold normalize_message_id, bind, read_global, kept_message_id.
  rewrite Hver. simpl. destruct (String.eqb ver "new"); [|reflexivity].
  destruct (split_last_spec "." raw) as (t & -> & _). reflexivity.
Qed.

Lemma message_id_matches_str args ver ids raw w :
  iDRAC_version (glob w) = Some ver -> a_get_message_id args = Some ids ->
  message_id_matches args (JStr raw) w
  = (Ret (PyStr.contains (PyStr.lower (kept_message_id ver raw)) (PyStr.lower ids)), w).
Proof.
  intros Hver Hids. unfold message_id_matches.
  rewrite (bind_Ret _ _ _ _ _ (normalize_str ver raw w Hver)).
  unfold bind, py_lower, arg_lower, ret. now rewrite Hids.
Qed.

Lemma is_failure_field items :
  is_failure (JObj items)
  = field_holds "Message"
      (fun m => (PyStr.contains "unable" (PyStr.lower m) || PyStr.contains "fail" (PyStr.lower m)
                 || PyStr.contains "error" (PyStr.lower m))%bool) items.
Proof.
  unfold is_failure, field_holds, str_field.
  destruct (assoc "Message" items) as [[]|]; reflexivity.
Qed.

Lemma has_message_id_field ver ids items :
  has_message_id ver ids (JObj items)
  = field_holds "MessageId"
      (fun raw => PyStr.contains (PyStr.lower (kept_message_id ver raw)) (PyStr.lower ids))
      items.
Proof.
  unfold has_message_id, field_holds, str_field.
  destruct (assoc "MessageId" items) as [[]|]; reflexivity.
Qed.

Lemma dump_page_fold (data : json) (entries : list json) (name content : string) (w : world) :
  members_are data entries ->
  List.Forall is_dict entries ->
  file_is name content w ->
  wp (dump_page data)
     (fun r w' => (exists u, r = Ret u)
                  /\ wrote name (content +:+ PyStr.concat (List.map entry_lines entries)) w w') w.
Proof.
  intros Hm Hok Hf.
  unfold dump_page. apply wp_bind. eapply wp_eq; [apply members_getitem, Hm|].
  apply wp_bind, wp_ret.
  assert (Hbody : forall i (s : unit) c w0,
             is_dict i -> True -> file_is name c w0 ->
             wp (dump_entry i)
                (fun r w' => r = Ret s /\ wrote name (c +:+ entry_lines i) w0 w') w0).
  { intros [| | | | |items] [] c w0 Hi _ Hf0; try contradiction.
    apply dump_entry_wp, Hf0. }
  eapply wp_mono;
    [exact (for_in_entries (fun i _ => dump_entry i) is_dict (fun _ => True)
                           (fun _ s => s) entry_lines name Hbody entries tt content w
                           Hok I Hf)|].
  intros r w' [-> H]. split; [eexists; reflexivity | exact H].
Qed.

(** X1. [dump_page], the loop of the full dump over a page: every entry
    of the page goes to the file, as one line [key: value] for each of its
    items followed by an empty line, in the order of the page. *)
Theorem dump_page_writes_all (data : json) (entries : list json)
        (name content : string) (w : world) :
  members_are data entries ->
  List.Forall is_dict entries ->
  file_is name content w ->
  fst (dump_page data w) = Ret tt
  /\ wrote name (content +:+ PyStr.concat (List.map entry_lines entries)) w
           (snd (dump_page data w)).
Proof.
  intros Hm Hok Hf.
  destruct (dump_page_fold data entries name content w Hm Hok Hf) as [[u Hu] Hw].
  split; [|exact Hw]. rewrite Hu. now destruct u.
Qed.

Lemma dump_page_writes_all_witness :
  members_are (JObj [("Members", JArr [an_entry 1 "Unable to configure NIC" "SYS1003" "Audit"])])
              [an_entry 1 "Unable to configure NIC" "SYS1003" "Audit"]
  /\ List.Forall is_dict [an_entry 1 "Unable to configure NIC" "SYS1003" "Audit"]
  /\ file_is "lc_logs.txt" "head" (writing true "lc_logs.txt" "head")
  /\ fs (snd (dump_page (JObj [("Members",
                                JArr [an_entry 1 "Unable to configure NIC" "SYS1003" "Audit"])])
                        (writing true "lc_logs.txt" "head"))) !! "lc_logs.txt"
     = Some ("head" +:+ "Id: 1" +:+ nl +:+ "Message: Unable to configure NIC" +:+ nl
             +:+ "MessageId: SYS1003" +:+ nl +:+ "Oem: {'Dell': {'Category': 'Audit'}}" +:+ nl
             +:+ nl).
Proof.
  assert (H1 : members_are
                 (JObj [("Members", JArr [an_entry 1 "Unable to configure NIC" "SYS1003" "Audit"])])
                 [an_entry 1 "Unable to configure NIC" "SYS1003" "Audit"])
    by (eexists; split; reflexivity).
  assert (H2 : List.Forall is_dict [an_entry 1 "Unable to configure NIC" "SYS1003" "Audit"])
    by (repeat constructor).
  assert (H3 : file_is "lc_logs.txt" "head" (writing true "lc_logs.txt" "head"))
    by (split; reflexivity).
  split; [exact H1|]. split; [exact H2|]. split; [exact H3|].
  exact (proj2 (proj1 (proj2 (dump_page_writes_all _ _ _ _ _ H1 H2 H3)))).
Defined.

Lemma fail_page_fold (data : json) (entries : list json) (name content : string)
      (count : Z) (w : world) :
  members_are data entries ->
  List.Forall (fun i => keys_unique i /\ field_is_str "Message" i) entries ->
  file_is name content w ->
  wp (fail_page data count)
     (fun r w' =>
        r = Ret (List.fold_left (fun c i => c + (if is_failure i then 1 else 0)) entries count)
        /\ wrote name
                 (content +:+ PyStr.concat
                                (List.map (fun i => if is_failure i then entry_lines i
                                                    else EmptyString) entries)) w w') w.
Proof.
  intros Hm Hok Hf.
  unfold fail_page. apply wp_bind. eapply wp_eq; [apply members_getitem, Hm|].
  apply wp_bind, wp_ret.
  assert (Hbody : forall i c0 c w0,
             keys_unique i /\ field_is_str "Message" i -> True -> file_is name c w0 ->
             wp (fail_entry i c0)
                (fun r w' =>
                   r = Ret (c0 + (if is_failure i then 1 else 0))
                   /\ wrote name (c +:+ (if is_failure i then entry_lines i else EmptyString))
                            w0 w') w0).
  { intros [| | | | |items] c0 c w0 [Hu Hs] _ Hf0; try contradiction.
    rewrite is_failure_field. unfold fail_entry. apply wp_bind, wp_ret.
    exact (scan_items_wp "Message" fail_words _ (fun _ => True) name items
             (fun m w1 _ => fail_words_str m w1) items c0 c w0 Hu Hs I Hf0). }
  exact (for_in_entries fail_entry _ (fun _ => True)
           (fun i c => c + (if is_failure i then 1 else 0))
           (fun i => if is_failure i then entry_lines i else EmptyString)
           name Hbody entries count content w Hok I Hf).
Qed.

(** X2. [fail_page], the loop of [--get-fail] over a page of dicts whose
    [Message], when they have one, is a string: the entries kept are those
    whose [Message], in lower case, has "unable", "fail" or "error"; the
    count grows by their number and their lines go to the file, in the
    order of the page; the other entries leave no trace in the file. *)
Theorem fail_page_keeps_failures (data : json) (entries : list json)
        (name content : string) (count : Z) (w : world) :
  members_are data entries ->
  List.Forall (fun i => keys_unique i /\ field_is_str "Message" i) entries ->
  file_is name content w ->
  fst (fail_page data count w)
  = Ret (count + Z.of_nat (length (kept is_failure entries)))
  /\ wrote name (content +:+ PyStr.concat (List.map entry_lines (kept is_failure entries)))
           w (snd (fail_page data count w)).
Proof.
  intros Hm Hok Hf.
  destruct (fail_page_fold data entries name content count w Hm Hok Hf) as [Hr Hw].
  rewrite fold_count in Hr. rewrite concat_kept in Hw. split; assumption.
Qed.

Lemma fail_page_keeps_failures_witness :
  members_are (JObj [("Members",
                      JArr [an_entry 1 "Unable to configure NIC" "SYS1003" "Audit";
                            an_entry 2 "Configuration applied successfully" "SYS1001" "Audit"])])
              [an_entry 1 "Unable to configure NIC" "SYS1003" "Audit";
               an_entry 2 "Configuration applied successfully" "SYS1001" "Audit"]
  /\ List.Forall (fun i => keys_unique i /\ field_is_str "Message" i)
                 [an_entry 1 "Unable to configure NIC" "SYS1003" "Audit";
                  an_entry 2 "Configuration applied successfully" "SYS1001" "Audit"]
  /\ file_is "lc_log_failures.txt" "head" (writing true "lc_log_failures.txt" "head")
  /\ fst (fail_page (JObj [("Members",
                            JArr [an_entry 1 "Unable to configure NIC" "SYS1003" "Audit";
                                  an_entry 2 "Configuration applied successfully" "SYS1001"
                                           "Audit"])])
                    0 (writing true "lc_log_failures.txt" "head")) = Ret 1.
Proof.
  assert (H1 : members_are
                 (JObj [("Members",
                         JArr [an_entry 1 "Unable to configure NIC" "SYS1003" "Audit";
                               an_entry 2 "Configuration applied successfully" "SYS1001" "Audit"])])
                 [an_entry 1 "Unable to configure NIC" "SYS1003" "Audit";
                  an_entry 2 "Configuration applied successfully" "SYS1001" "Audit"])
    by (eexists; split; reflexivity).
  assert (H2 : List.Forall (fun i => keys_unique i /\ field_is_str "Message" i)
                 [an_entry 1 "Unable to configure NIC" "SYS1003" "Audit";
                  an_entry 2 "Configuration applied successfully" "SYS1001" "Audit"]).
  { repeat constructor; simpl; intuition congruence. }
  assert (H3 : file_is "lc_log_failures.txt" "head" (writing true "lc_log_failures.txt" "head"))
    by (split; reflexivity).
  split; [exact H1|]. split; [exact H2|]. split; [exact H3|].
  exact (proj1 (fail_page_keeps_failures _ _ _ _ 0 _ H1 H2 H3)).
Defined.

Lemma message_id_page_fold (args : Args) (ver ids : string) (data : json)
      (entries : list json) (name content : string) (count : Z) (w : world) :
  iDRAC_version (glob w) = Some ver ->
  a_get_message_id args = Some ids ->
  members_are data entries ->
  List.Forall (fun i => keys_unique i /\ field_is_str "MessageId" i) entries ->
  file_is name content w ->
  wp (message_id_page args data count)
     (fun r w' =>
        r = Ret (List.fold_left (fun c i => c + (if has_message_id ver ids i then 1 else 0))
                                entries count)
        /\ wrote name
                 (content +:+ PyStr.concat
                                (List.map (fun i => if has_message_id ver ids i then entry_lines i
                                                    else EmptyString) entries)) w w') w.
Proof.
  intros Hver Hids Hm Hok Hf.
  unfold message_id_page. apply wp_bind. eapply wp_eq; [apply members_getitem, Hm|].
  apply wp_bind, wp_ret.
  assert (Hbody : forall i c0 c w0,
             keys_unique i /\ field_is_str "MessageId" i ->
             iDRAC_version (glob w0) = Some ver -> file_is name c w0 ->
             wp (message_id_entry args i c0)
                (fun r w' =>
                   r = Ret (c0 + (if has_message_id ver ids i then 1 else 0))
                   /\ wrote name
                            (c +:+ (if has_message_id ver ids i then entry_lines i
                                    else EmptyString)) w0 w') w0).
  { intros [| | | | |items] c0 c w0 [Hu Hs] Hv Hf0; try contradiction.
    rewrite has_message_id_field. unfold message_id_entry. apply wp_bind, wp_ret.
    exact (scan_items_wp "MessageId" (message_id_matches args) _
             (fun g => iDRAC_version g = Some ver) name items
             (fun m w1 Hv1 => message_id_matches_str args ver ids m w1 Hv1 Hids)
             items c0 c w0 Hu Hs Hv Hf0). }
  exact (for_in_entries (message_id_entry args) _ (fun g => iDRAC_version g = Some ver)
           (fun i c => c + (if has_message_id ver ids i then 1 else 0))
           (fun i => if has_message_id ver ids i then entry_lines i else EmptyString)
           name Hbody entries count content w Hok Hver Hf).
Qed.

(** X3. [message_id_page], the loop of [--get-message-id] over a page of
    dicts whose [MessageId], when they have one, is a string, the
    convention detected being [ver] and the argument [ids]: the entries
    kept are those whose identifier (the last piece between dots under
    "new", the whole field otherwise), in lower case, is a substring of
    [ids] in lower case; the count grows by their number and their lines
    go to the file, in the order of the page. *)
Theorem message_id_page_keeps_matches (args : Args) (ver ids : string) (data : json)
        (entries : list json) (name content : string) (count : Z) (w : world) :
  iDRAC_version (glob w) = Some ver ->
  a_get_message_id args = Some ids ->
  members_are data entries ->
  List.Forall (fun i => keys_unique i /\ field_is_str "MessageId" i) entries ->
  file_is name content w ->
  fst (message_id_page args data count w)
  = Ret (count + Z.of_nat (length (kept (has_message_id ver ids) entries)))
  /\ wrote name
           (content +:+ PyStr.concat (List.map entry_lines (kept (has_message_id ver ids) entries)))
           w (snd (message_id_page args data count w)).
Proof.
  intros Hver Hids Hm Hok Hf.
  destruct (message_id_page_fold args ver ids data entries name content count w
              Hver Hids Hm Hok Hf) as [Hr Hw].
  rewrite fold_count in Hr. rewrite concat_kept in Hw. split; assumption.
Qed.

Lemma message_id_page_keeps_matches_witness :
  iDRAC_version (glob (writing true "message_id_entries.txt" "head")) = Some "new"
  /\ a_get_message_id (with_message_id "WRK0001" base_args) = Some "WRK0001"
  /\ members_are (JObj [("Members",
                         JArr [an_entry 1 "Job done" "Update.1.0.WRK0001" "Updates";
                               an_entry 2 "Log cleared" "Update.1.0.LOG007" "Audit"])])
                 [an_entry 1 "Job done" "Update.1.0.WRK0001" "Updates";
                  an_entry 2 "Log cleared" "Update.1.0.LOG007" "Audit"]
  /\ List.Forall (fun i => keys_unique i /\ field_is_str "MessageId" i)
                 [an_entry 1 "Job done" "Update.1.0.WRK0001" "Updates";
                  an_entry 2 "Log cleared" "Update.1.0.LOG007" "Audit"]
  /\ file_is "message_id_entries.txt" "head" (writing true "message_id_entries.txt" "head")
  /\ fst (message_id_page (with_message_id "WRK0001" base_args)
            (JObj [("Members",
                    JArr [an_entry 1 "Job done" "Update.1.0.WRK0001" "Updates";
                          an_entry 2 "Log cleared" "Update.1.0.LOG007" "Audit"])])
            0 (writing true "message_id_entries.txt" "head")) = Ret 1.
Proof.
  assert (H1 : members_are
                 (JObj [("Members",
                         JArr [an_entry 1 "Job done" "Update.1.0.WRK0001" "Updates";
                               an_entry 2 "Log cleared" "Update.1.0.LOG007" "Audit"])])
                 [an_entry 1 "Job done" "Update.1.0.WRK0001" "Updates";
                  an_entry 2 "Log cleared" "Update.1.0.LOG007" "Audit"])
    by (eexists; split; reflexivity).
  assert (H2 : List.Forall (fun i => keys_unique i /\ field_is_str "MessageId" i)
                 [an_entry 1 "Job done" "Update.1.0.WRK0001" "Updates";
                  an_entry 2 "Log cleared" "Update.1.0.LOG007" "Audit"]).
  { repeat constructor; simpl; intuition congruence. }
  assert (H3 : file_is "message_id_entries.txt" "head"
                       (writing true "message_id_entries.txt" "head"))
    by (split; reflexivity).
  split; [reflexivity|]. split; [reflexivity|].
  split; [exact H1|]. split; [exact H2|]. split; [exact H3|].
  exact (proj1 (message_id_page_keeps_matches (with_message_id "WRK0001" base_args)
                  "new" "WRK0001" _ _ _ _ 0 (writing true "message_id_entries.txt" "head")
                  eq_refl eq_refl H1 H2 H3)).
Defined.

Lemma category_matches_of args arg i c w :
  a_get_category args = Some arg -> category_of i = Some c ->
  category_matches args i w = (Ret (in_category arg i), w).
Proof.
  intros Harg Hc. unfold in_category. rewrite Hc.
  unfold category_of, str_field in Hc.
  destruct i as [| | | | |items]; try discriminate.
  destruct (assoc "Oem" items) as [[| | | | |oem]|] eqn:Eoem; try discriminate.
  destruct (assoc "Dell" oem) as [[| | | | |dell]|] eqn:Edell; try discriminate.
  destruct (assoc "Category" dell) as [[| | |s| |]|] eqn:Ecat; try discriminate.
  injection Hc as ->.
  unfold category_matches, bind, getitem, of_option, py_lower, ret.
  rewrite Eoem, Edell, Ecat, Harg. reflexivity.
Qed.

Lemma category_entry_wp args arg name content i count w :
  a_get_category args = Some arg -> is_Some (category_of i) -> file_is name content w ->
  wp (category_entry args i count)
     (fun r w' => r = Ret (count + (if in_category arg i then 1 else 0))
                  /\ wrote name (content +:+ (if in_category arg i then entry_repr i
                                              else EmptyString)) w w') w.
Proof.
  intros Harg [c Hc] Hf. unfold category_entry. apply wp_bind.
  eapply wp_eq; [apply (category_matches_of args arg i c w Harg Hc)|]. cbv beta iota.
  destruct (in_category arg i).
  - apply wp_bind. apply (wp_emit_wrote name _ _ _ _ Hf). intros w1 H1.
    apply wp_bind. apply (wp_emit_wrote name _ _ _ _ (proj1 H1)). intros w2 H2.
    apply wp_bind. apply (wp_writelines name _ _ _ _ (proj1 H2)). intros w3 H3.
    apply wp_bind. apply (wp_writelines name _ _ _ _ (proj1 H3)). intros w4 H4.
    apply wp_ret. split; [reflexivity|]. unfold entry_repr. rewrite <- app_assoc_s.
    exact (wrote_trans _ _ _ _ _ _
             (wrote_trans _ _ _ _ _ _ (wrote_trans _ _ _ _ _ _ H1 H2) H3) H4).
  - apply wp_ret. split; [f_equal; lia|]. rewrite app_empty_r. now apply wrote_refl.
Qed.

Lemma category_page_fold (args : Args) (arg : string) (data : json)
      (entries : list json) (name content : string) (count : Z) (w : world) :
  a_get_category args = Some arg ->
  members_are data entries ->
  List.Forall (fun i => is_Some (category_of i)) entries ->
  file_is name content w ->
  wp (category_page args data count)
     (fun r w' =>
        r = Ret (List.fold_left (fun c i => c + (if in_category arg i then 1 else 0))
                                entries count)
        /\ wrote name
                 (content +:+ PyStr.concat
                                (List.map (fun i => if in_category arg i then entry_repr i
                                                    else EmptyString) entries)) w w') w.
Proof.
  intros Harg Hm Hok Hf.
  unfold category_page. apply wp_bind. eapply wp_eq; [apply members_getitem, Hm|].
  apply wp_bind, wp_ret.
  exact (for_in_entries (category_entry args) _ (fun _ => True)
           (fun i c => c + (if in_category arg i then 1 else 0))
           (fun i => if in_category arg i then entry_repr i else EmptyString)
           name
           (fun i c0 c w0 Hi _ Hf0 => category_entry_wp args arg name c i c0 w0 Harg Hi Hf0)
           entries count content w Hok I Hf).
Qed.

(** X4. [category_page], the loop of [--get-category] over a page whose
    entries all have a string at [Oem.Dell.Category]: the entries kept are
    those whose category, in lower case, equals the argument as it was
    typed; the count grows by their number, and each goes to the file as
    one line, the dict as [str] shows it, followed by an empty line (not
    as [key: value] lines), in the order of the page. *)
Theorem category_page_keeps_category (args : Args) (arg : string) (data : json)
        (entries : list json) (name content : string) (count : Z) (w : world) :
  a_get_category args = Some arg ->
  members_are data entries ->
  List.Forall (fun i => is_Some (category_of i)) entries ->
  file_is name content w ->
  fst (category_page args data count w)
  = Ret (count + Z.of_nat (length (kept (in_category arg) entries)))
  /\ wrote name
           (content +:+ PyStr.concat (List.map entry_repr (kept (in_category arg) entries)))
           w (snd (category_page args data count w)).
Proof.
  intros Harg Hm Hok Hf.
  destruct (category_page_fold args arg data entries name content count w Harg Hm Hok Hf)
    as [Hr Hw].
  rewrite fold_count in Hr. rewrite concat_kept in Hw. split; assumption.
Qed.

Lemma category_page_keeps_category_witness :
  a_get_category (with_category "audit" base_args) = Some "audit"
  /\ members_are (JObj [("Members",
                         JArr [an_entry 1 "Job done" "WRK0001" "Updates";
                               an_entry 2 "Log cleared" "LOG007" "Audit"])])
                 [an_entry 1 "Job done" "WRK0001" "Updates";
                  an_entry 2 "Log cleared" "LOG007" "Audit"]
  /\ List.Forall (fun i => is_Some (category_of i))
                 [an_entry 1 "Job done" "WRK0001" "Updates";
                  an_entry 2 "Log cleared" "LOG007" "Audit"]
  /\ file_is "category_entries.txt" "head" (writing true "category_entries.txt" "head")
  /\ fs (snd (category_page (with_category "audit" base_args)
                (JObj [("Members",
                        JArr [an_entry 1 "Job done" "WRK0001" "Updates";
                              an_entry 2 "Log cleared" "LOG007" "Audit"])])
                0 (writing true "category_entries.txt" "head"))) !! "category_entries.txt"
     = Some ("head"
             +:+ "{'Id': 2, 'Message': 'Log cleared', 'MessageId': 'LOG007', 'Oem': {'Dell': {'Category': 'Audit'}}}"
             +:+ nl +:+ nl).
Proof.
  assert (H1 : members_are
                 (JObj [("Members",
                         JArr [an_entry 1 "Job done" "WRK0001" "Updates";
                               an_entry 2 "Log cleared" "LOG007" "Audit"])])
                 [an_entry 1 "Job done" "WRK0001" "Updates";
                  an_entry 2 "Log cleared" "LOG007" "Audit"])
    by (eexists; split; reflexivity).
  assert (H2 : List.Forall (fun i => is_Some (category_of i))
                 [an_entry 1 "Job done" "WRK0001" "Updates";
                  an_entry 2 "Log cleared" "LOG007" "Audit"]).
  { repeat constructor; eexists; reflexivity. }
  assert (H3 : file_is "category_entries.txt" "head"
                       (writing true "category_entries.txt" "head"))
    by (split; reflexivity).
  split; [reflexivity|]. split; [exact H1|]. split; [exact H2|]. split; [exact H3|].
  exact (proj2 (proj1 (proj2 (category_page_keeps_category
                                (with_category "audit" base_args) "audit" _ _ _ _ 0 _
                                eq_refl H1 H2 H3)))).
Defined.

Lemma lower_ascii_not_upper c : PyStr.is_upper (PyStr.lower_ascii c) = false.
Proof.
  destruct c as [[] [] [] [] [] [] [] []]; reflexivity.
Qed.

Lemma lower_has_no_upper s : has_upper (PyStr.lower s) = false.
Proof.
  induction s as [|c s IH]; [reflexivity|].
  cbn [PyStr.lower has_upper]. now rewrite lower_ascii_not_upper, IH.
Qed.

Lemma in_category_upper arg i : has_upper arg = true -> in_category arg i = false.
Proof.
  intros Hup. unfold in_category. destruct (category_of i) as [c|]; [|reflexivity].
  destruct (String.eqb_spec (PyStr.lower c) arg) as [<-|]; [|reflexivity].
  now rewrite lower_has_no_upper in Hup.
Qed.

Lemma kept_none (sel : json -> bool) entries :
  (forall i, sel i = false) -> kept sel entries = [].
Proof.
  intros H. unfold kept. induction entries as [|i entries IH]; [reflexivity|].
  cbn [List.filter]. now rewrite H.
Qed.

(** X5. The argument of [--get-category] is compared as it was typed with
    categories put in lower case: when it has an upper-case letter (as in
    [Audit]), [category_page] keeps no entry of any page: the count and the
    file stay as they were. *)
Theorem category_page_upper_case_keeps_nothing (args : Args) (arg : string) (data : json)
        (entries : list json) (name content : string) (count : Z) (w : world) :
  a_get_category args = Some arg ->
  has_upper arg = true ->
  members_are data entries ->
  List.Forall (fun i => is_Some (category_of i)) entries ->
  file_is name content w ->
  fst (category_page args data count w) = Ret count
  /\ wrote name content w (snd (category_page args data count w)).
Proof.
  intros Harg Hup Hm Hok Hf.
  destruct (category_page_fold args arg data entries name content count w
              Harg Hm Hok Hf) as [Hr Hw].
  rewrite fold_count in Hr. rewrite concat_kept in Hw.
  rewrite (kept_none (in_category arg) entries (fun i => in_category_upper arg i Hup)) in *.
  cbn [length List.map PyStr.concat] in *. rewrite app_empty_r in Hw.
  split; [rewrite Hr; f_equal; lia | exact Hw].
Qed.

Lemma category_page_upper_case_keeps_nothing_witness :
  a_get_category (with_category "Audit" base_args) = Some "Audit"
  /\ has_upper "Audit" = true
  /\ members_are (JObj [("Members", JArr [an_entry 2 "Log cleared" "LOG007" "Audit"])])
                 [an_entry 2 "Log cleared" "LOG007" "Audit"]
  /\ List.Forall (fun i => is_Some (category_of i)) [an_entry 2 "Log cleared" "LOG007" "Audit"]
  /\ file_is "category_entries.txt" "head" (writing true "category_entries.txt" "head")
  /\ fst (category_page (with_category "Audit" base_args)
            (JObj [("Members", JArr [an_entry 2 "Log cleared" "LOG007" "Audit"])])
            0 (writing true "category_entries.txt" "head")) = Ret 0.
Proof.
  assert (H1 : members_are (JObj [("Members", JArr [an_entry 2 "Log cleared" "LOG007" "Audit"])])
                           [an_entry 2 "Log cleared" "LOG007" "Audit"])
    by (eexists; split; reflexivity).
  assert (H2 : List.Forall (fun i => is_Some (category_of i))
                           [an_entry 2 "Log cleared" "LOG007" "Audit"]).
  { repeat constructor; eexists; reflexivity. }
  assert (H3 : file_is "category_entries.txt" "head"
                       (writing true "category_entries.txt" "head"))
    by (split; reflexivity).
  split; [reflexivity|]. split; [reflexivity|].
  split; [exact H1|]. split; [exact H2|]. split; [exact H3|].
  exact (proj1 (category_page_upper_case_keeps_nothing
                  (with_category "Audit" base_args) "Audit" _ _ _ _ 0 _
                  eq_refl eq_refl H1 H2 H3)).
Defined.

(** *** Pieces that keep a relation between the worlds *)

Section Preserves.

Variable R : world -> world -> Prop.
Hypothesis R_refl : forall w, R w w.
Hypothesis R_trans : forall a b c, R a b -> R b c -> R a c.

Lemma preserves_ret {A} (a : A) : preserves R (ret a).
Proof. intros w. apply R_refl. Qed.

Lemma preserves_raise {A} (e : exn) : preserves R (@raise A e).
Proof. intros w. apply R_refl. Qed.

Lemma preserves_exit {A} (c : Z) : preserves R (@sys_exit A c).
Proof. intros w. apply R_refl. Qed.

Lemma preserves_of_option {A} (e : exn) (o : option A) : preserves R (of_option e o).
Proof. destruct o; intros w; apply R_refl. Qed.

Lemma preserves_read_global {A} (f : globals -> option A) : preserves R (read_global f).
Proof. intros w. unfold read_global. destruct (f (glob w)); apply R_refl. Qed.

Lemma preserves_bind {A B} (m : M A) (k : A -> M B) :
  preserves R m -> (forall a, preserves R (k a)) -> preserves R (bind m k).
Proof.
  intros Hm Hk w. unfold bind. specialize (Hm w).
  destruct (m w) as [[a|c|e] w1]; simpl in *; auto.
  exact (R_trans _ _ _ Hm (Hk a w1)).
Qed.

Lemma preserves_try_except {A} (m h : M A) :
  preserves R m -> preserves R h -> preserves R (try_except m h).
Proof.
  intros Hm Hh w. unfold try_except. specialize (Hm w).
  destruct (m w) as [[a|c|e] w1]; simpl in *; auto; exact (R_trans _ _ _ Hm (Hh w1)).
Qed.

Lemma preserves_for_each {A St} (l : list A) (body : A -> St -> M (ctl * St)) (s : St) :
  (forall x s, preserves R (body x s)) -> preserves R (for_each l body s).
Proof.
  intros Hb. revert s. induction l as [|x l IH]; intros s; cbn [for_each].
  - apply preserves_ret.
  - apply preserves_bind; [apply Hb|]. intros [[|] s']; [apply IH | apply preserves_ret].
Qed.

Lemma preserves_for_in {A St} (l : list A) (body : A -> St -> M St) (s : St) :
  (forall x s, preserves R (body x s)) -> preserves R (for_in l body s).
Proof.
  intros Hb. unfold for_in. apply preserves_for_each. intros x s0.
  apply preserves_bind; [apply Hb | intros; apply preserves_ret].
Qed.

Lemma preserves_emit (e : event) :
  (forall w c, R w (set_console c w)) -> preserves R (emit e).
Proof. intros H w. apply H. Qed.

Lemma preserves_write_global (upd : globals -> globals) :
  (forall w g, R w (set_glob g w)) -> preserves R (write_global upd).
Proof. intros H w. apply H. Qed.

Lemma preserves_requests_get tr (r : request) :
  (forall w n, R w (set_net n w)) -> preserves R (requests_get tr r).
Proof. intros H w. apply H. Qed.

Lemma preserves_close :
  (forall w o, R w (set_open_file o w)) -> preserves R close.
Proof. intros H w. apply H. Qed.

Lemma preserves_writelines (s : string) :
  (forall w name old, open_file w = Some name -> fs w !! name = Some old ->
                      R w (set_fs (<[name := old +:+ s]> (fs w)) w)) ->
  preserves R (writelines s).
Proof.
  intros H w. unfold writelines. destruct (open_file w) as [name|] eqn:Eo; [|apply R_refl].
  destruct (fs w !! name) as [old|] eqn:Ef; [|apply R_refl]. simpl. now apply H.
Qed.

End Preserves.

(** One step of a proof that a piece keeps a relation: [side] proves the
    facts asked of the relation. *)
Ltac pres_rule :=
  lazymatch goal with
  | |- preserves _ (bind _ _) => apply preserves_bind
  | |- preserves _ (try_except _ _) => apply preserves_try_except
  | |- preserves _ (for_each _ _ _) => apply preserves_for_each
  | |- preserves _ (for_in _ _ _) => apply preserves_for_in
  | |- preserves _ (ret _) => apply preserves_ret
  | |- preserves _ (raise _) => apply preserves_raise
  | |- preserves _ (sys_exit _) => apply preserves_exit
  | |- preserves _ (of_option _ _) => apply preserves_of_option
  | |- preserves _ (response_json _) => apply preserves_of_option
  | |- preserves _ (read_global _) => apply preserves_read_global
  | |- preserves _ (emit _) => apply preserves_emit
  | |- preserves _ (logging _ _) => apply preserves_emit
  | |- preserves _ (pprint _) => apply preserves_emit
  | |- preserves _ (pprint_item _) => apply preserves_emit
  | |- preserves _ (print _) => apply preserves_emit
  | |- preserves _ (write_global _) => apply preserves_write_global
  | |- preserves _ (requests_get _ _) => apply preserves_requests_get
  | |- preserves _ close => apply preserves_close
  | |- preserves _ (writelines _) => apply preserves_writelines
  | |- preserves _ (redfish_get _ _ _) => unfold redfish_get
  | |- preserves _ (getitem _ _) => unfold getitem
  | |- preserves _ (getitem0 _) => unfold getitem0
  | |- preserves _ (py_in _ _) => unfold py_in
  | |- preserves _ (iter _) => unfold iter
  | |- preserves _ (items_of _) => unfold items_of
  | |- preserves _ (py_lower _) => unfold py_lower
  | |- preserves _ (arg_lower _) => unfold arg_lower
  | |- preserves _ (error_message _) => unfold error_message
  | |- preserves _ (skip_or_internal _) => unfold skip_or_internal
  | |- preserves _ (if ?b then _ else _) => destruct b
  | |- preserves _ (match ?x with _ => _ end) => destruct x
  end.
Ltac pres_step side :=
  pres_rule; intros;
  lazymatch goal with
  | |- preserves _ _ => idtac
  | _ => solve [side]
  end.
Ltac pres_tac side := repeat (pres_step side).

Ltac same_files_side := unfold same_files in *; simpl in *; intuition congruence.

(** X6. The probe, the detection of the version and the two modes that
    let the server filter never touch a file: whatever the iDRAC answers,
    the files and the handle are after them as they were before. *)
Theorem server_side_modes_touch_no_file (args : Args) (tr : nat -> request -> response)
        (w : world) :
  same_files w (snd (check_supported_idrac_version args tr w))
  /\ same_files w (snd (get_iDRAC_version args tr w))
  /\ same_files w (snd (get_specific_severity_logs args tr w))
  /\ same_files w (snd (get_date_range args tr w)).
Proof.
  split; [|split; [|split]].
  - revert w. change (preserves same_files (check_supported_idrac_version args tr)).
    unfold check_supported_idrac_version. pres_tac same_files_side.
  - revert w. change (preserves same_files (get_iDRAC_version args tr)).
    unfold get_iDRAC_version, firmware_number. pres_tac same_files_side.
  - revert w. change (preserves same_files (get_specific_severity_logs args tr)).
    unfold get_specific_severity_logs, severity_filter_uri, show_filtered.
    pres_tac same_files_side.
  - revert w. change (preserves same_files (get_date_range args tr)).
    unfold get_date_range, show_filtered. pres_tac same_files_side.
Qed.

(** X7. [get_category_entries] with an argument that, put in lower case,
    is none of the five categories: one message, [sys.exit(0)], and nothing
    else: no request, no file touched, no global bound. *)
Theorem category_invalid_argument_exits (args : Args) (arg : string)
        (tr : nat -> request -> response) (clock : datetime) (w : world) :
  a_get_category args = Some arg ->
  existsb (String.eqb (PyStr.lower arg)) categories = false ->
  get_category_entries args tr clock w
  = (Exit 0,
     set_console
       (console w ++ [Log INFO (nl +:+ "- WARNING, invalid value entered for argument --get-category, see help text for supported values")])
       w).
Proof.
  intros Harg Hbad. unfold get_category_entries.
  rewrite (bind_Ret _ _ w (PyStr.lower arg) w) by (now rewrite Harg).
  rewrite Hbad. reflexivity.
Qed.

Lemma category_invalid_argument_exits_witness :
  a_get_category (with_category "System Health" base_args) = Some "System Health"
  /\ existsb (String.eqb (PyStr.lower "System Health")) categories = false
  /\ fst (get_category_entries (with_category "System Health" base_args)
            (answers [] (a_page [])) a_clock (entered true)) = Exit 0
  /\ net (snd (get_category_entries (with_category "System Health" base_args)
                 (answers [] (a_page [])) a_clock (entered true))) = [].
Proof.
  split; [reflexivity|]. split; [reflexivity|].
  rewrite (category_invalid_argument_exits (with_category "System Health" base_args)
             "System Health" (answers [] (a_page [])) a_clock (entered true)
             eq_refl eq_refl).
  split; reflexivity.
Defined.

(** X8. The probe [check_supported_idrac_version], the globals bound and
    the iDRAC answering [resp]: it sends one request and then goes on
    silently exactly when the status is 200; on 401 it warns of the
    credentials, on any other status that the feature is not supported,
    and leaves by [sys.exit(0)]; a body that is not JSON is an uncaught
    exception whatever the status. *)
Theorem probe_passes_only_on_200 (args : Args) (tr : nat -> request -> response)
        (w : world) (resp : response) :
  globals_bound (glob w) ->
  (forall req, tr (length (net w)) req = resp) ->
  exists req,
    url req = https (host (glob w)) lclog_path
    /\ check_supported_idrac_version args tr w
       = match body resp with
         | None => (Raise JSONDecodeError, set_net (net w ++ [req]) w)
         | Some _ =>
             if status_code resp =? 200 then (Ret tt, set_net (net w ++ [req]) w)
             else (Exit 0,
                   set_console
                     (console w ++ [Log WARNING (if status_code resp =? 401
                                                 then wrong_credentials (status_code resp)
                                                 else not_supported)])
                     (set_net (net w ++ [req]) w))
         end.
Proof.
  intros Hb Htr.
  destruct (redfish_get_bound args tr lclog_path w Hb) as (req & Hget & Hurl & _).
  exists req. split; [exact Hurl|].
  unfold check_supported_idrac_version. rewrite (bind_Ret _ _ _ _ _ Hget), Htr.
  unfold response_json. destruct (body resp) as [data|]; [|reflexivity].
  rewrite (bind_Ret _ _ _ data (set_net (net w ++ [req]) w)) by reflexivity.
  destruct (status_code resp =? 401) eqn:E401.
  - apply Z.eqb_eq in E401. rewrite E401. reflexivity.
  - destruct (status_code resp =? 200); reflexivity.
Qed.

Lemma probe_passes_only_on_200_witness :
  globals_bound (glob (entered true))
  /\ (forall req, answers [an_error 404 "not found"] (a_page []) (length (net (entered true))) req
                  = an_error 404 "not found")
  /\ fst (check_supported_idrac_version base_args (answers [an_error 404 "not found"] (a_page []))
            (entered true)) = Exit 0.
Proof.
  assert (H1 : globals_bound (glob (entered true))) by (repeat split; eexists; reflexivity).
  assert (H2 : forall req,
             answers [an_error 404 "not found"] (a_page []) (length (net (entered true))) req
             = an_error 404 "not found") by reflexivity.
  split; [exact H1|]. split; [exact H2|].
  destruct (probe_passes_only_on_200 base_args (answers [an_error 404 "not found"] (a_page []))
              (entered true) (an_error 404 "not found") H1 H2) as (req & _ & ->).
  reflexivity.
Defined.



(** X10. The detection of the firmware answered by 401 (with a JSON
    body): one error message and a normal return; one request was sent and
    no global is bound, so [iDRAC_version] is afterwards what it was before,
    unbound on a first call. *)
Theorem version_401_binds_nothing (args : Args) (tr : nat -> request -> response)
        (w : world) (resp : response) (data : json) :
  globals_bound (glob w) ->
  (forall req, tr (length (net w)) req = resp) ->
  status_code resp = 401 ->
  body resp = Some data ->
  exists req,
    get_iDRAC_version args tr w
    = (Ret tt, set_console (console w ++ [Log ERROR session_expired])
                           (set_net (net w ++ [req]) w)).
Proof.
  intros ([ip Hip] & [u Hu] & [p Hp] & [v Hv]) Htr Hst Hbody.
  unfold get_iDRAC_version. destruct (truthy (a_x args)).
  - eexists.
    erewrite bind_Ret
      by (unfold bind, read_global, requests_get; rewrite Hip; simpl; rewrite Hv; reflexivity).
    rewrite Htr. unfold response_json. rewrite Hbody.
    erewrite bind_Ret by reflexivity. rewrite Hst. reflexivity.
  - eexists.
    erewrite bind_Ret
      by (unfold bind, read_global, requests_get; rewrite Hip; simpl; rewrite Hu; simpl;
          rewrite Hp; reflexivity).
    rewrite Htr. unfold response_json. rewrite Hbody.
    erewrite bind_Ret by reflexivity. rewrite Hst. reflexivity.
Qed.

Lemma version_401_binds_nothing_witness :
  globals_bound (glob (set_glob (set_verify_cert false
                                   (set_idrac_password "calvin"
                                      (set_idrac_username (Some "root")
                                         (set_idrac_ip (Some "192.168.0.120") no_globals))))
                                start))
  /\ (forall req, answers [an_error 401 "unauthorized"] (a_page []) (length (net start)) req
                  = an_error 401 "unauthorized")
  /\ status_code (an_error 401 "unauthorized") = 401
  /\ is_Some (body (an_error 401 "unauthorized"))
  /\ iDRAC_version
       (glob (snd (get_iDRAC_version base_args (answers [an_error 401 "unauthorized"] (a_page []))
                     (set_glob (set_verify_cert false
                                  (set_idrac_password "calvin"
                                     (set_idrac_username (Some "root")
                                        (set_idrac_ip (Some "192.168.0.120") no_globals))))
                               start)))) = None.
Proof.
  assert (H1 : globals_bound
                 (glob (set_glob (set_verify_cert false
                                    (set_idrac_password "calvin"
                                       (set_idrac_username (Some "root")
                                          (set_idrac_ip (Some "192.168.0.120") no_globals))))
                                 start)))
    by (repeat split; eexists; reflexivity).
  split; [exact H1|]. split; [reflexivity|]. split; [reflexivity|].
  split; [eexists; reflexivity|].
  destruct (version_401_binds_nothing base_args (answers [an_error 401 "unauthorized"] (a_page []))
              _ (an_error 401 "unauthorized") _ H1 (fun _ => eq_refl) eq_refl eq_refl)
    as (req & ->).
  reflexivity.
Defined.

Ltac same_net_side := unfold same_net in *; simpl in *; congruence.

(** X11. The flag [verify] of the requests, the globals bound with
    [verify_cert] being [v]: every fetch made through the common idiom
    carries [v]; the fetch of the firmware version carries [v] only with
    an X-Auth token, and [False] with a user name and a password,
    whatever [v] is.  In both cases it is the only request the function
    sends. *)
Theorem version_fetch_verify_flag (args : Args) (tr : nat -> request -> response)
        (w : world) (v : bool) (path : string) :
  globals_bound (glob w) ->
  verify_cert (glob w) = Some v ->
  (exists req, net (snd (redfish_get args tr path w)) = net w ++ [req] /\ verify req = v)
  /\ (exists req, net (snd (get_iDRAC_version args tr w)) = net w ++ [req]
                  /\ verify req = (if truthy (a_x args) then v else false)).
Proof.
  intros Hb Hv. split.
  - destruct (redfish_get_bound args tr path w Hb) as (req & -> & _ & Hver).
    exists req. split; [reflexivity|]. congruence.
  - destruct Hb as ([ip Hip] & [u Hu] & [p Hp] & _).
    unfold get_iDRAC_version. destruct (truthy (a_x args)).
    + exists {| url := https ip version_path; verify := v;
                auth := XAuthToken (str_of_arg (a_x args)) |}.
      split; [|reflexivity].
      erewrite bind_Ret
        by (unfold bind, read_global, requests_get; rewrite Hip; simpl; rewrite Hv; reflexivity).
      generalize (tr (length (net w))
                     {| url := https ip version_path; verify := v;
                        auth := XAuthToken (str_of_arg (a_x args)) |}).
      intros resp.
      lazymatch goal with
      | |- net (snd (?m ?w1)) = _ => change (same_net w1 (snd (m w1))); generalize w1
      end.
      lazymatch goal with
      | |- forall w0, same_net w0 (snd (?m w0)) => change (preserves same_net m)
      end.
      unfold firmware_number. pres_tac same_net_side.
    + exists {| url := https ip version_path; verify := false; auth := BasicAuth u p |}.
      split; [|reflexivity].
      erewrite bind_Ret
        by (unfold bind, read_global, requests_get; rewrite Hip; simpl; rewrite Hu; simpl;
            rewrite Hp; reflexivity).
      generalize (tr (length (net w))
                     {| url := https ip version_path; verify := false; auth := BasicAuth u p |}).
      intros resp.
      lazymatch goal with
      | |- net (snd (?m ?w1)) = _ => change (same_net w1 (snd (m w1))); generalize w1
      end.
      lazymatch goal with
      | |- forall w0, same_net w0 (snd (?m w0)) => change (preserves same_net m)
      end.
      unfold firmware_number. pres_tac same_net_side.
Qed.

Lemma version_fetch_verify_flag_witness :
  globals_bound (glob (set_glob (set_verify_cert true (glob (entered true))) start))
  /\ verify_cert (glob (set_glob (set_verify_cert true (glob (entered true))) start)) = Some true
  /\ List.map verify
       (net (snd (get_iDRAC_version base_args (answers [] (a_firmware "7.00.00.00"))
                    (set_glob (set_verify_cert true (glob (entered true))) start))))
     = [false].
Proof.
  assert (H1 : globals_bound
                 (glob (set_glob (set_verify_cert true (glob (entered true))) start)))
    by (repeat split; eexists; reflexivity).
  split; [exact H1|]. split; [reflexivity|].
  destruct (proj2 (version_fetch_verify_flag base_args (answers [] (a_firmware "7.00.00.00"))
                     _ true lclog_path H1 eq_refl)) as (req & -> & Hreq).
  simpl in *. now rewrite Hreq.
Defined.

(** *** The opening of a scan *)

(** After [fresh_file] the file is new and holds the two lines of the
    head, whatever was there before; nothing else changed. *)
Lemma fresh_file_wp clock name announce w :
  (forall w0, exists c, announce w0 = (Ret tt, set_console c w0)) ->
  wp (fresh_file clock name announce)
     (fun r w' => r = Ret tt /\ wrote name (file_head clock) w w') w.
Proof.
  intros Hann. unfold fresh_file.
  assert (Hrm : wp (try_except (os_remove name)
                      (logging DEBUG ("- INFO, unable to locate file " +:+ name
                                      +:+ ", skipping step to delete")))
                   (fun r w' => r = Ret tt /\ net w' = net w /\ glob w' = glob w
                                /\ forall other, other <> name -> fs w' !! other = fs w !! other)
                   w).
  { unfold wp, try_except, os_remove. destruct (fs w !! name) eqn:E; simpl.
    - repeat split; auto. intros other Hne. now apply lookup_delete_ne.
    - repeat split; auto. }
  apply wp_bind. eapply wp_mono; [exact Hrm|]. intros r w1 (-> & Hn1 & Hg1 & Ho1).
  apply wp_bind. destruct (Hann w1) as [c Hc]. eapply wp_eq; [exact Hc|].
  apply wp_bind. unfold wp at 1. cbn [open_w fst snd].
  set (w2 := set_open_file (Some name)
               (set_fs (<[name:=EmptyString]> (fs (set_console c w1))) (set_console c w1))).
  assert (H2 : wrote name EmptyString w w2).
  { split; [split; [reflexivity | apply lookup_insert_eq]|].
    split; [exact Hn1|]. split; [exact Hg1|].
    intros other Hne. unfold w2. simpl. rewrite lookup_insert_ne by congruence. now apply Ho1. }
  apply wp_bind. apply (wp_writelines name _ _ _ _ (proj1 H2)). intros w3 H3.
  apply (wp_writelines name _ _ _ _ (proj1 H3)). intros w4 H4.
  split; [reflexivity|]. unfold file_head.
  rewrite app_nil_s in H4.
  exact (wrote_trans _ _ _ _ _ _ (wrote_trans _ _ _ _ _ _ H2 H3) H4).
Qed.

Lemma logging_announces l msg w0 : exists c, logging l msg w0 = (Ret tt, set_console c w0).
Proof. eexists. reflexivity. Qed.

Lemma ret_announces w0 : exists c, @ret unit tt w0 = (Ret tt, set_console c w0).
Proof. exists (console w0). now destruct w0. Qed.

Lemma scan_unbound args i its count w :
  iDRAC_version (glob w) = None ->
  List.In "MessageId" (List.map fst its) ->
  for_in its (scan_item "MessageId" (message_id_matches args) i) count w
  = (Raise NameError, w).
Proof.
  intros Hver. revert count. induction its as [|[k v] its IH]; intros count Hin; [contradiction|].
  rewrite for_in_cons. unfold scan_item at 1. cbn [fst snd].
  destruct (String.eqb_spec k "MessageId") as [->|Hne].
  - apply bind_Raise. apply bind_Raise. unfold message_id_matches.
    apply bind_Raise. unfold normalize_message_id. apply bind_Raise.
    unfold read_global. now rewrite Hver.
  - rewrite (bind_Ret _ _ w count w) by reflexivity. apply IH.
    destruct Hin as [Hk|Hin]; [simpl in Hk; congruence | exact Hin].
Qed.

Lemma message_id_entry_unbound args items count w :
  iDRAC_version (glob w) = None ->
  List.In "MessageId" (List.map fst items) ->
  message_id_entry args (JObj items) count w = (Raise NameError, w).
Proof.
  intros Hver Hin. unfold message_id_entry.
  rewrite (bind_Ret _ _ w items w) by reflexivity.
  exact (scan_unbound args (JObj items) items count w Hver Hin).
Qed.

(** X12. [get_message_id] entered with [iDRAC_version] unbound (as the
    401 of the detection leaves it), the other globals bound, the iDRAC
    answering the first fetch with a page whose first entry is a dict with
    a [MessageId]: the run ends in an uncaught NameError, at that entry; it
    has sent one request and leaves the output file with its head only. *)
Theorem message_id_scan_needs_version (args : Args) (tr : nat -> request -> response)
        (clock : datetime) (w : world) (resp : response) (data : json)
        (items : list (string * json)) (rest : list json) :
  iDRAC_version (glob w) = None ->
  globals_bound (glob w) ->
  (forall req, tr (length (net w)) req = resp) ->
  body resp = Some data ->
  members_are data (JObj items :: rest) ->
  List.In "MessageId" (List.map fst items) ->
  fst (get_message_id args tr clock w) = Raise NameError
  /\ fs (snd (get_message_id args tr clock w)) !! "message_id_entries.txt"
     = Some (file_head clock)
  /\ length (net (snd (get_message_id args tr clock w))) = S (length (net w)).
Proof.
  intros Hver Hb Htr Hbody Hm Hin.
  change (wp (get_message_id args tr clock)
             (fun r w' => r = Raise NameError
                          /\ fs w' !! "message_id_entries.txt" = Some (file_head clock)
                          /\ length (net w') = S (length (net w))) w).
  unfold get_message_id. apply wp_bind.
  eapply wp_mono; [apply fresh_file_wp; intros; apply logging_announces|].
  intros r w1 [-> ((Ho1 & Hf1) & Hn1 & Hg1 & _)].
  assert (Hb1 : globals_bound (glob w1)) by (now rewrite Hg1).
  destruct (redfish_get_bound args tr lclog_path w1 Hb1) as (req & Hget & _).
  apply wp_bind. eapply wp_eq; [exact Hget|]. rewrite Hn1, Htr.
  apply wp_bind. eapply wp_eq; [unfold response_json; rewrite Hbody; reflexivity|].
  apply wp_bind. eapply wp_eq.
  { unfold message_id_page. rewrite (bind_Ret _ _ _ _ _ (members_getitem _ _ _ Hm)).
    erewrite bind_Ret by reflexivity. rewrite for_in_cons.
    apply bind_Raise. apply message_id_entry_unbound; [simpl; now rewrite Hg1 | exact Hin]. }
  simpl. split; [reflexivity|]. split; [exact Hf1|].
  rewrite <- Hn1, List.length_app. simpl. lia.
Qed.

Lemma message_id_scan_needs_version_witness :
  iDRAC_version (glob (set_glob (set_verify_cert false
                                   (set_idrac_password "calvin"
                                      (set_idrac_username (Some "root")
                                         (set_idrac_ip (Some "192.168.0.120") no_globals))))
                                start)) = None
  /\ fst (get_message_id (with_message_id "WRK0001" base_args)
            (answers [] (a_page [an_entry 1 "Job done" "Update.1.0.WRK0001" "Updates"]))
            a_clock
            (set_glob (set_verify_cert false
                         (set_idrac_password "calvin"
                            (set_idrac_username (Some "root")
                               (set_idrac_ip (Some "192.168.0.120") no_globals))))
                      start)) = Raise NameError.
Proof.
  split; [reflexivity|].
  apply (message_id_scan_needs_version (with_message_id "WRK0001" base_args)
           (answers [] (a_page [an_entry 1 "Job done" "Update.1.0.WRK0001" "Updates"]))
           a_clock _ (a_page [an_entry 1 "Job done" "Update.1.0.WRK0001" "Updates"])
           (JObj [("Members", JArr [an_entry 1 "Job done" "Update.1.0.WRK0001" "Updates"])])
           [("Id", JInt 1); ("Message", JStr "Job done");
            ("MessageId", JStr "Update.1.0.WRK0001");
            ("Oem", JObj [("Dell", JObj [("Category", JStr "Updates")])])] []).
  - reflexivity.
  - repeat split; eexists; reflexivity.
  - reflexivity.
  - reflexivity.
  - eexists; split; reflexivity.
  - simpl. auto.
Defined.

(** *** How a paged fetch is classified *)

(** The two lines every page begins with: the fetch and the decoding of
    the answer, here the answer [resp] with the JSON body [data]. *)
Lemma fetch_json args tr path w resp data :
  globals_bound (glob w) ->
  (forall req, tr (length (net w)) req = resp) ->
  body resp = Some data ->
  exists req,
    url req = https (host (glob w)) path
    /\ forall B (k : response -> json -> M B),
        bind (redfish_get args tr path)
             (fun response => bind (response_json response) (fun data => k response data)) w
        = k resp data (set_net (net w ++ [req]) w).
Proof.
  intros Hb Htr Hbody.
  destruct (redfish_get_bound args tr path w Hb) as (req & Hget & Hurl & _).
  exists req. split; [exact Hurl|]. intros B k.
  rewrite (bind_Ret _ _ _ _ _ Hget), Htr.
  unfold response_json. rewrite Hbody. now erewrite bind_Ret by reflexivity.
Qed.

(** X13. A paged fetch of [--get-fail] or of [--get-message-id] answered
    by HTTP 500: the handle is closed, the run leaves by [sys.exit(0)],
    and the output file is left as it is, whatever the count, also when
    nothing matched. *)
Theorem http_500_leaves_the_scan_file (args : Args) (tr : nat -> request -> response)
        (seq count : Z) (w : world) (resp : response) (data : json) :
  globals_bound (glob w) ->
  (forall req, tr (length (net w)) req = resp) ->
  status_code resp = 500 ->
  body resp = Some data ->
  (fst (get_LC_log_failures_page args tr seq count w) = Exit 0
   /\ fs (snd (get_LC_log_failures_page args tr seq count w)) = fs w
   /\ open_file (snd (get_LC_log_failures_page args tr seq count w)) = None)
  /\ (fst (get_message_id_page args tr seq count w) = Exit 0
      /\ fs (snd (get_message_id_page args tr seq count w)) = fs w
      /\ open_file (snd (get_message_id_page args tr seq count w)) = None).
Proof.
  intros Hb Htr Hst Hbody.
  destruct (fetch_json args tr (skip_path seq) w resp data Hb Htr Hbody) as (req & _ & Heq).
  split.
  - unfold get_LC_log_failures_page. rewrite Heq, Hst. repeat split.
  - unfold get_message_id_page. rewrite Heq, Hst. repeat split.
Qed.

Lemma http_500_leaves_the_scan_file_witness :
  globals_bound (glob (writing true "lc_log_failures.txt" "head"))
  /\ status_code (an_error 500 "server error") = 500
  /\ fst (get_LC_log_failures_page base_args (answers [] (an_error 500 "server error")) 50 0
            (writing true "lc_log_failures.txt" "head")) = Exit 0
  /\ fs (snd (get_LC_log_failures_page base_args (answers [] (an_error 500 "server error")) 50 0
                (writing true "lc_log_failures.txt" "head"))) !! "lc_log_failures.txt"
     = Some "head".
Proof.
  assert (H1 : globals_bound (glob (writing true "lc_log_failures.txt" "head")))
    by (repeat split; eexists; reflexivity).
  split; [exact H1|]. split; [reflexivity|].
  destruct (proj1 (http_500_leaves_the_scan_file base_args
                     (answers [] (an_error 500 "server error")) 50 0
                     (writing true "lc_log_failures.txt" "head")
                     (an_error 500 "server error") _ H1 (fun _ => eq_refl) eq_refl eq_refl))
    as (Hr & Hfs & _).
  split; [exact Hr|]. rewrite Hfs. reflexivity.
Defined.

(** X14. A paged fetch of [--get-category] answered by HTTP 500: the run
    leaves by [sys.exit(0)] with the handle closed; when nothing matched so
    far the output file is removed, otherwise it is left as it is.  (With a
    count of zero and no file to remove, [os.remove] is not guarded here and
    its exception is not caught.) *)
Theorem http_500_category_cleanup (args : Args) (tr : nat -> request -> response)
        (seq count : Z) (w : world) (resp : response) (data : json) :
  globals_bound (glob w) ->
  (forall req, tr (length (net w)) req = resp) ->
  status_code resp = 500 ->
  body resp = Some data ->
  open_file (snd (get_category_entries_page args tr seq count w)) = None
  /\ (count <> 0 ->
      fst (get_category_entries_page args tr seq count w) = Exit 0
      /\ fs (snd (get_category_entries_page args tr seq count w)) = fs w)
  /\ (count = 0 -> is_Some (fs w !! "category_entries.txt") ->
      fst (get_category_entries_page args tr seq count w) = Exit 0
      /\ fs (snd (get_category_entries_page args tr seq count w))
         = delete "category_entries.txt" (fs w))
  /\ (count = 0 -> fs w !! "category_entries.txt" = None ->
      fst (get_category_entries_page args tr seq count w) = Raise FileNotFoundError).
Proof.
  intros Hb Htr Hst Hbody.
  destruct (fetch_json args tr (skip_path seq) w resp data Hb Htr Hbody) as (req & _ & Heq).
  unfold get_category_entries_page. rewrite Heq, Hst. cbn [Z.eqb Pos.eqb].
  destruct (Z.eqb_spec count 0) as [->|Hne].
  - unfold bind, logging, emit, close, os_remove, sys_exit. cbn [fst snd fs set_console
      set_open_file set_net open_file].
    destruct (fs w !! "category_entries.txt") as [old|] eqn:E; cbn.
    + split; [reflexivity|]. split; [congruence|]. split; [auto|]. discriminate.
    + split; [reflexivity|]. split; [congruence|]. split; [|auto].
      intros _ [x Hx]. discriminate.
  - split; [reflexivity|]. split; [intros _; split; reflexivity|].
    split; intros; congruence.
Qed.

Lemma http_500_category_cleanup_witness :
  globals_bound (glob (writing true "category_entries.txt" "head"))
  /\ status_code (an_error 500 "server error") = 500
  /\ fs (snd (get_category_entries_page (with_category "audit" base_args)
                (answers [] (an_error 500 "server error")) 50 0
                (writing true "category_entries.txt" "head"))) !! "category_entries.txt"
     = None.
Proof.
  assert (H1 : globals_bound (glob (writing true "category_entries.txt" "head")))
    by (repeat split; eexists; reflexivity).
  split; [exact H1|]. split; [reflexivity|].
  destruct (proj1 (proj2 (proj2 (http_500_category_cleanup (with_category "audit" base_args)
                     (answers [] (an_error 500 "server error")) 50 0
                     (writing true "category_entries.txt" "head")
                     (an_error 500 "server error") _ H1 (fun _ => eq_refl) eq_refl eq_refl)))
              eq_refl (ex_intro _ "head" eq_refl))
    as (_ & ->).
  reflexivity.
Defined.

Lemma error_message_text data m w :
  error_text data = Some m -> error_message data w = (Ret (JStr m), w).
Proof.
  unfold error_text, str_field. intros H.
  destruct data as [| | | | |fields]; try discriminate.
  destruct (assoc "error" fields) as [[| | | | |err]|] eqn:E1; try discriminate.
  destruct (assoc "@Message.ExtendedInfo" err) as [[| | | |[|info l]|]|] eqn:E2; try discriminate.
  destruct info as [| | | | |x]; try discriminate.
  destruct (assoc "Message" x) as [[| | |s| |]|] eqn:E3; try discriminate.
  injection H as ->.
  unfold error_message, bind, getitem, of_option, getitem0, ret.
  now rewrite E1, E2, E3.
Qed.

Lemma skip_or_internal_text data m w :
  error_text data = Some m ->
  skip_or_internal data w
  = (Ret (PyStr.contains skip_out_of_range m || PyStr.contains internal_error m)%bool, w).
Proof.
  intros H. unfold skip_or_internal.
  rewrite (bind_Ret _ _ _ _ _ (error_message_text data m w H)).
  unfold py_in at 1. rewrite (bind_Ret _ _ w (PyStr.contains skip_out_of_range m) w)
    by reflexivity.
  fold skip_out_of_range.
  destruct (PyStr.contains skip_out_of_range m); [reflexivity|].
  rewrite (bind_Ret _ _ _ _ _ (error_message_text data m w H)). reflexivity.
Qed.

(** X15. A paged fetch of the full dump answered by a status other than
    200 and 500, with an error text [m]: only the text "query parameter
    $skip is out of range" ends the dump quietly (handle closed, the
    closing message, [sys.exit(0)]); any other text, "internal error"
    included, is reported as a failure with the status code and the body,
    and the run leaves by [sys.exit(0)] without closing the handle. *)
Theorem full_dump_error_classification (args : Args) (tr : nat -> request -> response)
        (seq : Z) (w : world) (resp : response) (data : json) (m : string) :
  globals_bound (glob w) ->
  (forall req, tr (length (net w)) req = resp) ->
  status_code resp <> 200 ->
  status_code resp <> 500 ->
  body resp = Some data ->
  error_text data = Some m ->
  exists req,
    get_LC_logs_page args tr seq tt w
    = (Exit 0,
       if PyStr.contains skip_out_of_range m
       then set_console (console w ++ [Log INFO (captured "Lifecycle logs" "lc_logs.txt" " file")])
                        (set_open_file None (set_net (net w ++ [req]) w))
       else set_console (console w ++ [Log ERROR (skip_failed resp data)])
                        (set_net (net w ++ [req]) w)).
Proof.
  intros Hb Htr H200 H500 Hbody Hm.
  destruct (fetch_json args tr (skip_path seq) w resp data Hb Htr Hbody) as (req & _ & Heq).
  exists req. unfold get_LC_logs_page. rewrite Heq.
  destruct (Z.eqb_spec (status_code resp) 500) as [|_]; [contradiction|].
  destruct (Z.eqb_spec (status_code resp) 200) as [|_]; [contradiction|].
  cbn [negb].
  rewrite (bind_Ret _ _ _ _ _ (error_message_text data m _ Hm)).
  unfold py_in at 1. erewrite bind_Ret by reflexivity. fold skip_out_of_range.
  destruct (PyStr.contains skip_out_of_range m); reflexivity.
Qed.

Lemma full_dump_error_classification_witness :
  globals_bound (glob (writing true "lc_logs.txt" "head"))
  /\ status_code (an_error 400 "An internal error occurred") <> 200
  /\ status_code (an_error 400 "An internal error occurred") <> 500
  /\ error_text (JObj [("error",
                        JObj [("@Message.ExtendedInfo",
                               JArr [JObj [("Message", JStr "An internal error occurred")]])])])
     = Some "An internal error occurred"
  /\ open_file (snd (get_LC_logs_page base_args
                       (answers [] (an_error 400 "An internal error occurred")) 50 tt
                       (writing true "lc_logs.txt" "head"))) = Some "lc_logs.txt".
Proof.
  assert (H1 : globals_bound (glob (writing true "lc_logs.txt" "head")))
    by (repeat split; eexists; reflexivity).
  split; [exact H1|]. split; [discriminate|]. split; [discriminate|]. split; [reflexivity|].
  destruct (full_dump_error_classification base_args
              (answers [] (an_error 400 "An internal error occurred")) 50
              (writing true "lc_logs.txt" "head")
              (an_error 400 "An internal error occurred") _ "An internal error occurred"
              H1 (fun _ => eq_refl) ltac:(discriminate) ltac:(discriminate) eq_refl eq_refl)
    as (req & ->).
  reflexivity.
Defined.

Lemma nothing_found_ends name count msg w :
  count = 0 ->
  ends_scan name count w (@nothing_found (ctl * Z) msg name (set_open_file None w)).
Proof.
  intros ->. unfold ends_scan, nothing_found, bind, logging, emit, try_except, os_remove, sys_exit.
  cbn [fst snd fs set_console set_open_file Z.eqb].
  destruct (fs w !! name) eqn:E; cbn.
  - repeat split.
  - repeat split. symmetry. now apply delete_id.
Qed.

Lemma scan_pages_end (args : Args) (tr : nat -> request -> response)
      (seq count : Z) (w : world) (resp : response) (data : json) (m : string) :
  globals_bound (glob w) ->
  (forall req, tr (length (net w)) req = resp) ->
  status_code resp <> 200 ->
  status_code resp <> 500 ->
  body resp = Some data ->
  error_text data = Some m ->
  (PyStr.contains skip_out_of_range m || PyStr.contains internal_error m)%bool = true ->
  ends_scan "lc_log_failures.txt" count w (get_LC_log_failures_page args tr seq count w)
  /\ ends_scan "message_id_entries.txt" count w (get_message_id_page args tr seq count w)
  /\ ends_scan "category_entries.txt" count w (get_category_entries_page args tr seq count w).
Proof.
  intros Hb Htr H200 H500 Hbody Hm Hc.
  destruct (fetch_json args tr (skip_path seq) w resp data Hb Htr Hbody) as (req & _ & Heq).
  unfold get_LC_log_failures_page, get_message_id_page, get_category_entries_page.
  rewrite !Heq.
  destruct (Z.eqb_spec (status_code resp) 500) as [|_]; [contradiction|].
  destruct (Z.eqb_spec (status_code resp) 200) as [|_]; [contradiction|].
  cbn [negb].
  rewrite !(bind_Ret _ _ _ _ _ (skip_or_internal_text data m _ Hm)), Hc.
  assert (Hend : forall name msg msg',
             ends_scan name count w
               (bind close
                  (fun _ => if count =? 0 then @nothing_found (ctl * Z) msg name
                            else bind (logging INFO msg')
                                      (fun _ => bind close (fun _ => sys_exit 0)))
                  (set_net (net w ++ [req]) w))).
  { intros name msg msg'. erewrite bind_Ret by reflexivity.
    destruct (Z.eqb_spec count 0) as [Hc0|Hc0].
    - pose proof (nothing_found_ends name count msg (set_net (net w ++ [req]) w) Hc0) as H.
      unfold ends_scan in *. destruct (count =? 0); exact H.
    - unfold ends_scan. destruct (Z.eqb_spec count 0); [contradiction|]. repeat split. }
  repeat split; apply Hend.
Qed.

(** X16. A paged fetch of one of the three scans answered by a status
    other than 200 and 500, with an error text [m]: when [m] has "query
    parameter $skip is out of range" or "internal error" the scan ends
    ([sys.exit(0)], handle closed) and its file is removed exactly when the
    count is zero; for any other text the run stops on a reported failure
    and leaves file and handle as they were. *)
Theorem scan_error_classification (args : Args) (tr : nat -> request -> response)
        (seq count : Z) (w : world) (resp : response) (data : json) (m : string) :
  globals_bound (glob w) ->
  (forall req, tr (length (net w)) req = resp) ->
  status_code resp <> 200 ->
  status_code resp <> 500 ->
  body resp = Some data ->
  error_text data = Some m ->
  if (PyStr.contains skip_out_of_range m || PyStr.contains internal_error m)%bool
  then ends_scan "lc_log_failures.txt" count w (get_LC_log_failures_page args tr seq count w)
       /\ ends_scan "message_id_entries.txt" count w (get_message_id_page args tr seq count w)
       /\ ends_scan "category_entries.txt" count w (get_category_entries_page args tr seq count w)
  else fatal_stop resp data w (get_LC_log_failures_page args tr seq count w)
       /\ fatal_stop resp data w (get_message_id_page args tr seq count w)
       /\ fatal_stop resp data w (get_category_entries_page args tr seq count w).
Proof.
  intros Hb Htr H200 H500 Hbody Hm.
  destruct (PyStr.contains skip_out_of_range m || PyStr.contains internal_error m)%bool eqn:Hc.
  - exact (scan_pages_end args tr seq count w resp data m Hb Htr H200 H500 Hbody Hm Hc).
  - destruct (fetch_json args tr (skip_path seq) w resp data Hb Htr Hbody) as (req & _ & Heq).
    unfold get_LC_log_failures_page, get_message_id_page, get_category_entries_page.
    rewrite !Heq.
    destruct (Z.eqb_spec (status_code resp) 500) as [|_]; [contradiction|].
    destruct (Z.eqb_spec (status_code resp) 200) as [|_]; [contradiction|].
    cbn [negb].
    rewrite !(bind_Ret _ _ _ _ _ (skip_or_internal_text data m _ Hm)), Hc.
    repeat split; try reflexivity; eexists; reflexivity.
Qed.

Lemma scan_error_classification_witness :
  globals_bound (glob (writing true "lc_log_failures.txt" "head"))
  /\ status_code (an_error 400 "An internal error occurred") <> 200
  /\ status_code (an_error 400 "An internal error occurred") <> 500
  /\ fs (snd (get_LC_log_failures_page base_args
                (answers [] (an_error 400 "An internal error occurred")) 50 0
                (writing true "lc_log_failures.txt" "head"))) !! "lc_log_failures.txt" = None.
Proof.
  assert (H1 : globals_bound (glob (writing true "lc_log_failures.txt" "head")))
    by (repeat split; eexists; reflexivity).
  split; [exact H1|]. split; [discriminate|]. split; [discriminate|].
  pose proof (scan_error_classification base_args
                (answers [] (an_error 400 "An internal error occurred")) 50 0
                (writing true "lc_log_failures.txt" "head")
                (an_error 400 "An internal error occurred") _ "An internal error occurred"
                H1 (fun _ => eq_refl) ltac:(discriminate) ltac:(discriminate) eq_refl eq_refl)
    as H.
  change (PyStr.contains skip_out_of_range "An internal error occurred"
          || PyStr.contains internal_error "An internal error occurred")%bool with true in H.
  destruct H as ((_ & _ & ->) & _). reflexivity.
Defined.

(** X17. A paged fetch of the full dump, of [--get-fail] or of
    [--get-message-id] answered by 200 with a dict whose [Members] is
    missing or is the empty list: the loop is left by [break], the count as
    it was; but for the request sent the world is unchanged (nothing
    written, nothing printed, the handle still open). *)
Theorem empty_page_breaks_the_walk (args : Args) (tr : nat -> request -> response)
        (seq count : Z) (w : world) (resp : response) (fields : list (string * json)) :
  globals_bound (glob w) ->
  (forall req, tr (length (net w)) req = resp) ->
  status_code resp = 200 ->
  body resp = Some (JObj fields) ->
  assoc "Members" fields = None \/ assoc "Members" fields = Some (JArr []) ->
  exists req,
    get_LC_logs_page args tr seq tt w = (Ret (Break, tt), set_net (net w ++ [req]) w)
    /\ get_LC_log_failures_page args tr seq count w
       = (Ret (Break, count), set_net (net w ++ [req]) w)
    /\ get_message_id_page args tr seq count w
       = (Ret (Break, count), set_net (net w ++ [req]) w).
Proof.
  intros Hb Htr Hst Hbody Hmem.
  destruct (fetch_json args tr (skip_path seq) w resp (JObj fields) Hb Htr Hbody)
    as (req & _ & Heq).
  exists req.
  unfold get_LC_logs_page, get_LC_log_failures_page, get_message_id_page.
  rewrite !Heq, Hst. cbn [Z.eqb Pos.eqb negb].
  unfold py_in, getitem, bind, ret, of_option.
  destruct Hmem as [-> | ->]; repeat split.
Qed.

Lemma empty_page_breaks_the_walk_witness :
  globals_bound (glob (writing true "lc_logs.txt" "head"))
  /\ status_code (a_page []) = 200
  /\ fst (get_LC_log_failures_page base_args (answers [] (a_page [])) 50 3
            (writing true "lc_logs.txt" "head")) = Ret (Break, 3).
Proof.
  assert (H1 : globals_bound (glob (writing true "lc_logs.txt" "head")))
    by (repeat split; eexists; reflexivity).
  split; [exact H1|]. split; [reflexivity|].
  destruct (empty_page_breaks_the_walk base_args (answers [] (a_page [])) 50 3
              (writing true "lc_logs.txt" "head") (a_page []) _
              H1 (fun _ => eq_refl) eq_refl eq_refl (or_intror eq_refl))
    as (req & _ & -> & _).
  reflexivity.
Defined.

(** X18. The same answers in [--get-category], whose loop has no test of
    the members: on an empty [Members] the page does nothing and the walk
    goes on to the next offset ([Continue], the count as it was); on a dict
    without [Members] the run ends in an uncaught KeyError. *)
Theorem category_empty_page_goes_on (args : Args) (tr : nat -> request -> response)
        (seq count : Z) (w : world) (resp : response) (fields : list (string * json)) :
  globals_bound (glob w) ->
  (forall req, tr (length (net w)) req = resp) ->
  status_code resp = 200 ->
  body resp = Some (JObj fields) ->
  exists req,
    (assoc "Members" fields = Some (JArr []) ->
     get_category_entries_page args tr seq count w
     = (Ret (Continue, count), set_net (net w ++ [req]) w))
    /\ (assoc "Members" fields = None ->
        get_category_entries_page args tr seq count w
        = (Raise KeyError, set_net (net w ++ [req]) w)).
Proof.
  intros Hb Htr Hst Hbody.
  destruct (fetch_json args tr (skip_path seq) w resp (JObj fields) Hb Htr Hbody)
    as (req & _ & Heq).
  exists req.
  unfold get_category_entries_page. rewrite !Heq, Hst. cbn [Z.eqb Pos.eqb negb].
  unfold category_page, getitem, bind, of_option.
  split; intros ->; reflexivity.
Qed.

Lemma category_empty_page_goes_on_witness :
  globals_bound (glob (writing true "category_entries.txt" "head"))
  /\ status_code (a_page []) = 200
  /\ fst (get_category_entries_page (with_category "audit" base_args) (answers [] (a_page []))
            50 0 (writing true "category_entries.txt" "head")) = Ret (Continue, 0).
Proof.
  assert (H1 : globals_bound (glob (writing true "category_entries.txt" "head")))
    by (repeat split; eexists; reflexivity).
  split; [exact H1|]. split; [reflexivity|].
  destruct (category_empty_page_goes_on (with_category "audit" base_args)
              (answers [] (a_page [])) 50 0
              (writing true "category_entries.txt" "head") (a_page []) _
              H1 (fun _ => eq_refl) eq_refl eq_refl)
    as (req & H & _).
  rewrite (H eq_refl). reflexivity.
Defined.

(** *** A log of finitely many pages *)

(** The paged loop on a log of finitely many pages followed by the answer
    that stops it: the pages are dealt with in order, then the run exits. *)
Lemma finite_log_loop {St} (page : Z -> St -> M (ctl * St)) tr pre ok fit name step text
      stop final :
  page_goes_on page tr pre ok fit name step text ->
  page_stops page tr stop name final ->
  forall resps ess l s content w,
    List.Forall2 (good_page ok) resps ess -> List.Forall fit ess ->
    (length resps < length l)%nat ->
    globals_bound (glob w) -> pre (glob w) ->
    served tr (length (net w)) resps stop ->
    file_is name content w ->
    fst (for_each l page s w) = Exit 0
    /\ fs (snd (for_each l page s w)) !! name
       = final (List.fold_left (fun s es => step es s) ess s)
               (content +:+ PyStr.concat (List.map text ess))
    /\ length (net (snd (for_each l page s w))) = S (length (net w) + length resps).
Proof.
  intros Hgo Hstop resps. induction resps as [|resp resps IH];
    intros ess l s content w Hpages Hfit Hlen Hb Hpre Hsrv Hf.
  - inversion Hpages; subst. destruct l as [|seq l]; [simpl in Hlen; lia|].
    cbn [for_each List.fold_left List.map PyStr.concat]. rewrite app_empty_r.
    assert (Hs : forall req, tr (length (net w)) req = stop).
    { intros req. specialize (Hsrv 0%nat req). now rewrite Nat.add_0_r in Hsrv. }
    destruct (Hstop seq s content w Hb Hs Hf) as (Hr & Hfs & Hn).
    destruct (page seq s w) as [r w1] eqn:Epage. simpl in Hr, Hfs, Hn. subst r.
    rewrite !(bind_Exit _ _ _ _ _ Epage). simpl.
    split; [reflexivity|]. split; [exact Hfs|]. rewrite Hn. lia.
  - inversion Hpages as [|? es ? ess' Hpage Hrest]; subst.
    inversion Hfit as [|? ? Hfit1 Hfit']; subst.
    destruct l as [|seq l]; [simpl in Hlen; lia|].
    assert (Hs : forall req, tr (length (net w)) req = resp).
    { intros req. specialize (Hsrv 0%nat req). now rewrite Nat.add_0_r in Hsrv. }
    destruct (Hgo seq s content w resp es Hb Hpre Hs Hpage Hfit1 Hf) as (Hr & Hf1 & Hg1 & Hn1).
    destruct (page seq s w) as [r w1] eqn:Epage. simpl in Hr, Hf1, Hg1, Hn1. subst r.
    cbn [for_each]. rewrite !(bind_Ret _ _ _ _ _ Epage).
    assert (Hsrv1 : served tr (length (net w1)) resps stop).
    { intros i req. rewrite Hn1. specialize (Hsrv (S i) req).
      now rewrite Nat.add_succ_r in Hsrv. }
    assert (Hb1 : globals_bound (glob w1)) by (now rewrite Hg1).
    assert (Hpre1 : pre (glob w1)) by (now rewrite Hg1).
    simpl in Hlen.
    destruct (IH ess' l (step es s) _ w1 Hrest Hfit' ltac:(lia) Hb1 Hpre1 Hsrv1 Hf1)
      as (Hr2 & Hfs2 & Hn2).
    split; [exact Hr2|]. split.
    + rewrite Hfs2. cbn [List.fold_left List.map PyStr.concat]. now rewrite app_assoc_s.
    + rewrite Hn2, Hn1. simpl. lia.
Qed.

Lemma page_one_request {St} (body : Z -> St -> M (ctl * St)) args tr
      (rest : Z -> St -> response -> M (ctl * St)) :
  (forall seq s, body seq s = bind (redfish_get args tr (skip_path seq)) (rest seq s)) ->
  (forall seq s resp, quiet (rest seq s resp)) ->
  forall seq s w,
    globals_bound (glob w) ->
    length (net (snd (body seq s w))) = S (length (net w))
    /\ glob (snd (body seq s w)) = glob w.
Proof.
  intros Hbody Hrest seq s w Hb. rewrite Hbody.
  destruct (redfish_get_bound args tr (skip_path seq) w Hb) as (req & Hget & _).
  rewrite (bind_Ret _ _ _ _ _ Hget).
  destruct (Hrest seq s (tr (length (net w)) req) (set_net (net w ++ [req]) w)) as [Hn Hg].
  rewrite Hn, Hg. simpl. rewrite List.length_app. simpl. split; [lia | reflexivity].
Qed.

Lemma get_LC_logs_page_one_request args tr seq s w :
  globals_bound (glob w) ->
  length (net (snd (get_LC_logs_page args tr seq s w))) = S (length (net w))
  /\ glob (snd (get_LC_logs_page args tr seq s w)) = glob w.
Proof.
  eapply page_one_request; [intros; unfold get_LC_logs_page; reflexivity|].
  intros. cbv beta. quiet_tac.
Qed.

Lemma get_LC_log_failures_page_one_request args tr seq s w :
  globals_bound (glob w) ->
  length (net (snd (get_LC_log_failures_page args tr seq s w))) = S (length (net w))
  /\ glob (snd (get_LC_log_failures_page args tr seq s w)) = glob w.
Proof.
  eapply page_one_request; [intros; unfold get_LC_log_failures_page; reflexivity|].
  intros. cbv beta. quiet_tac.
Qed.

Lemma get_message_id_page_one_request args tr seq s w :
  globals_bound (glob w) ->
  length (net (snd (get_message_id_page args tr seq s w))) = S (length (net w))
  /\ glob (snd (get_message_id_page args tr seq s w)) = glob w.
Proof.
  eapply page_one_request; [intros; unfold get_message_id_page; reflexivity|].
  intros. cbv beta. quiet_tac.
Qed.

Lemma get_category_entries_page_one_request args tr seq s w :
  globals_bound (glob w) ->
  length (net (snd (get_category_entries_page args tr seq s w))) = S (length (net w))
  /\ glob (snd (get_category_entries_page args tr seq s w)) = glob w.
Proof.
  eapply page_one_request; [intros; unfold get_category_entries_page; reflexivity|].
  intros. cbv beta. quiet_tac.
Qed.

Lemma file_is_net name content n w : file_is name content w -> file_is name content (set_net n w).
Proof. exact (fun H => H). Qed.

Lemma members_nonempty data es w :
  members_are data es -> es <> [] ->
  py_in "Members" data w = (Ret true, w)
  /\ getitem data "Members" w = (Ret (JArr es), w)
  /\ is_empty_list (JArr es) = false.
Proof.
  intros (fields & -> & H) Hne. unfold py_in, getitem. rewrite H.
  repeat split. destruct es; [congruence | reflexivity].
Qed.

(** The pages of [--get-fail] that go on. *)
Lemma fail_page_goes_on args tr :
  page_goes_on (get_LC_log_failures_page args tr) tr (fun _ => True)
               (fun i => keys_unique i /\ field_is_str "Message" i) (fun es => es <> [])
               "lc_log_failures.txt"
               (fun es c => c + Z.of_nat (length (kept is_failure es)))
               (fun es => PyStr.concat (List.map entry_lines (kept is_failure es))).
Proof.
  intros seq count content w resp es Hb _ Htr (Hst & data & Hbody & Hm & Hok) Hne Hf.
  destruct (get_LC_log_failures_page_one_request args tr seq count w Hb) as [Hn Hg].
  destruct (fetch_json args tr (skip_path seq) w resp data Hb Htr Hbody) as (req & _ & Heq).
  revert Hn Hg. unfold get_LC_log_failures_page. rewrite Heq, Hst. cbn [Z.eqb Pos.eqb negb].
  destruct (members_nonempty data es (set_net (net w ++ [req]) w) Hm Hne) as (H1 & H2 & H3).
  rewrite (bind_Ret _ _ _ _ _ H1). cbn [negb].
  rewrite (bind_Ret _ _ _ _ _ H2). rewrite H3. cbn [orb].
  destruct (fail_page_fold data es "lc_log_failures.txt" content count
              (set_net (net w ++ [req]) w) Hm Hok (file_is_net _ _ _ _ Hf)) as [Hr Hw].
  rewrite fold_count in Hr. rewrite concat_kept in Hw.
  destruct (fail_page data count (set_net (net w ++ [req]) w)) as [r w2] eqn:Epage.
  simpl in Hr, Hw. subst r. rewrite (bind_Ret _ _ _ _ _ Epage). simpl.
  intros Hn Hg. split; [reflexivity|]. split; [exact (proj1 Hw)|]. split; assumption.
Qed.

(** The pages of [--get-message-id] that go on. *)
Lemma message_id_page_goes_on args tr ver ids :
  a_get_message_id args = Some ids ->
  page_goes_on (get_message_id_page args tr) tr (fun g => iDRAC_version g = Some ver)
               (fun i => keys_unique i /\ field_is_str "MessageId" i) (fun es => es <> [])
               "message_id_entries.txt"
               (fun es c => c + Z.of_nat (length (kept (has_message_id ver ids) es)))
               (fun es => PyStr.concat (List.map entry_lines (kept (has_message_id ver ids) es))).
Proof.
  intros Hids seq count content w resp es Hb Hver Htr (Hst & data & Hbody & Hm & Hok) Hne Hf.
  destruct (get_message_id_page_one_request args tr seq count w Hb) as [Hn Hg].
  destruct (fetch_json args tr (skip_path seq) w resp data Hb Htr Hbody) as (req & _ & Heq).
  revert Hn Hg. unfold get_message_id_page. rewrite Heq, Hst. cbn [Z.eqb Pos.eqb negb].
  destruct (members_nonempty data es (set_net (net w ++ [req]) w) Hm Hne) as (H1 & H2 & H3).
  rewrite (bind_Ret _ _ _ _ _ H1). cbn [negb].
  rewrite (bind_Ret _ _ _ _ _ H2). rewrite H3. cbn [orb].
  destruct (message_id_page_fold args ver ids data es "message_id_entries.txt" content count
              (set_net (net w ++ [req]) w) Hver Hids Hm Hok (file_is_net _ _ _ _ Hf))
    as [Hr Hw].
  rewrite fold_count in Hr. rewrite concat_kept in Hw.
  destruct (message_id_page args data count (set_net (net w ++ [req]) w)) as [r w2] eqn:Epage.
  simpl in Hr, Hw. subst r. rewrite (bind_Ret _ _ _ _ _ Epage). simpl.
  intros Hn Hg. split; [reflexivity|]. split; [exact (proj1 Hw)|]. split; assumption.
Qed.

(** The pages of [--get-category] that go on: all the pages 200. *)
Lemma category_page_goes_on args tr arg :
  a_get_category args = Some arg ->
  page_goes_on (get_category_entries_page args tr) tr (fun _ => True)
               (fun i => is_Some (category_of i)) (fun _ => True)
               "category_entries.txt"
               (fun es c => c + Z.of_nat (length (kept (in_category arg) es)))
               (fun es => PyStr.concat (List.map entry_repr (kept (in_category arg) es))).
Proof.
  intros Harg seq count content w resp es Hb _ Htr (Hst & data & Hbody & Hm & Hok) _ Hf.
  destruct (get_category_entries_page_one_request args tr seq count w Hb) as [Hn Hg].
  destruct (fetch_json args tr (skip_path seq) w resp data Hb Htr Hbody) as (req & _ & Heq).
  revert Hn Hg. unfold get_category_entries_page. rewrite Heq, Hst. cbn [Z.eqb Pos.eqb negb].
  destruct (category_page_fold args arg data es "category_entries.txt" content count
              (set_net (net w ++ [req]) w) Harg Hm Hok (file_is_net _ _ _ _ Hf)) as [Hr Hw].
  rewrite fold_count in Hr. rewrite concat_kept in Hw.
  destruct (category_page args data count (set_net (net w ++ [req]) w)) as [r w2] eqn:Epage.
  simpl in Hr, Hw. subst r. rewrite (bind_Ret _ _ _ _ _ Epage). simpl.
  intros Hn Hg. split; [reflexivity|]. split; [exact (proj1 Hw)|]. split; assumption.
Qed.

(** The pages of the full dump that go on. *)
Lemma dump_page_goes_on args tr :
  page_goes_on (get_LC_logs_page args tr) tr (fun _ => True) is_dict (fun es => es <> [])
               "lc_logs.txt" (fun _ s => s)
               (fun es => PyStr.concat (List.map entry_lines es)).
Proof.
  intros seq s content w resp es Hb _ Htr (Hst & data & Hbody & Hm & Hok) Hne Hf.
  destruct (get_LC_logs_page_one_request args tr seq s w Hb) as [Hn Hg].
  destruct (fetch_json args tr (skip_path seq) w resp data Hb Htr Hbody) as (req & _ & Heq).
  revert Hn Hg. unfold get_LC_logs_page. rewrite Heq, Hst. cbn [Z.eqb Pos.eqb negb].
  destruct (members_nonempty data es (set_net (net w ++ [req]) w) Hm Hne) as (H1 & H2 & H3).
  rewrite (bind_Ret _ _ _ _ _ H1). cbn [negb].
  rewrite (bind_Ret _ _ _ _ _ H2). rewrite H3. cbn [orb].
  destruct (dump_page_fold data es "lc_logs.txt" content
              (set_net (net w ++ [req]) w) Hm Hok (file_is_net _ _ _ _ Hf)) as [[u Hr] Hw].
  destruct (dump_page data (set_net (net w ++ [req]) w)) as [r w2] eqn:Epage.
  simpl in Hr, Hw. subst r. rewrite (bind_Ret _ _ _ _ _ Epage). simpl.
  intros Hn Hg. destruct s. split; [reflexivity|]. split; [exact (proj1 Hw)|]. split; assumption.
Qed.

Lemma scan_file_lookup name count content w :
  fs w !! name = Some content ->
  (if count =? 0 then delete name (fs w) else fs w) !! name = scan_file count content.
Proof.
  intros H. unfold scan_file. destruct (count =? 0); [apply lookup_delete_eq | exact H].
Qed.

Lemma end_of_log_either stop :
  end_of_log [skip_out_of_range; internal_error] stop ->
  status_code stop <> 200 /\ status_code stop <> 500
  /\ exists data m, body stop = Some data /\ error_text data = Some m
                    /\ (PyStr.contains skip_out_of_range m
                        || PyStr.contains internal_error m)%bool = true.
Proof.
  intros (H1 & H2 & data & m & Hb & Hm & Hc). split; [exact H1|]. split; [exact H2|].
  exists data, m. split; [exact Hb|]. split; [exact Hm|].
  simpl in Hc. now rewrite orb_false_r in Hc.
Qed.

Lemma ends_scan_final name count content w w1 out :
  ends_scan name count w1 out -> fs w1 = fs w -> file_is name content w ->
  fst out = Exit 0 /\ fs (snd out) !! name = scan_file count content.
Proof.
  intros (Hr & _ & Hfs) Hsame [_ Hf]. split; [exact Hr|].
  rewrite Hfs, Hsame. now apply scan_file_lookup.
Qed.

(** The answer that stops the three scans. *)
Lemma scan_pages_stop args tr stop :
  end_of_log [skip_out_of_range; internal_error] stop ->
  page_stops (get_LC_log_failures_page args tr) tr stop "lc_log_failures.txt" scan_file
  /\ page_stops (get_message_id_page args tr) tr stop "message_id_entries.txt" scan_file
  /\ page_stops (get_category_entries_page args tr) tr stop "category_entries.txt" scan_file.
Proof.
  intros Hend.
  destruct (end_of_log_either stop Hend) as (H200 & H500 & data & m & Hbody & Hm & Hc).
  split; [|split]; intros seq count content w Hb Htr Hf;
    destruct (scan_pages_end args tr seq count w stop data m Hb Htr H200 H500 Hbody Hm Hc)
      as (E1 & E2 & E3).
  - destruct (ends_scan_final _ _ content w w _ E1 eq_refl Hf) as [Hr Hfs].
    split; [exact Hr|]. split; [exact Hfs|].
    apply get_LC_log_failures_page_one_request, Hb.
  - destruct (ends_scan_final _ _ content w w _ E2 eq_refl Hf) as [Hr Hfs].
    split; [exact Hr|]. split; [exact Hfs|].
    apply get_message_id_page_one_request, Hb.
  - destruct (ends_scan_final _ _ content w w _ E3 eq_refl Hf) as [Hr Hfs].
    split; [exact Hr|]. split; [exact Hfs|].
    apply get_category_entries_page_one_request, Hb.
Qed.

(** The answer that stops the full dump. *)
Lemma dump_pages_stop args tr stop :
  end_of_log [skip_out_of_range] stop ->
  page_stops (get_LC_logs_page args tr) tr stop "lc_logs.txt" (fun _ content => Some content).
Proof.
  intros (H200 & H500 & data & m & Hbody & Hm & Hc) seq s content w Hb Htr Hf.
  simpl in Hc. rewrite orb_false_r in Hc.
  destruct (get_LC_logs_page_one_request args tr seq s w Hb) as [Hn _].
  destruct (fetch_json args tr (skip_path seq) w stop data Hb Htr Hbody) as (req & _ & Heq).
  assert (E : get_LC_logs_page args tr seq s w
              = (Exit 0,
                 set_console
                   (console w ++ [Log INFO (captured "Lifecycle logs" "lc_logs.txt" " file")])
                   (set_open_file None (set_net (net w ++ [req]) w)))).
  { unfold get_LC_logs_page. rewrite Heq.
    destruct (Z.eqb_spec (status_code stop) 500) as [|_]; [contradiction|].
    destruct (Z.eqb_spec (status_code stop) 200) as [|_]; [contradiction|].
    cbn [negb].
    rewrite (bind_Ret _ _ _ _ _ (error_message_text data m _ Hm)).
    unfold py_in at 1. erewrite bind_Ret by reflexivity. fold skip_out_of_range.
    now rewrite Hc. }
  rewrite E in *. split; [reflexivity|]. split; [exact (proj2 Hf) | exact Hn].
Qed.

Lemma kept_app sel (l1 l2 : list json) : kept sel (l1 ++ l2) = kept sel l1 ++ kept sel l2.
Proof. apply List.filter_app. Qed.

Lemma fold_kept_pages sel (ess : list (list json)) (count : Z) :
  List.fold_left (fun c es => c + Z.of_nat (length (kept sel es))) ess count
  = count + Z.of_nat (length (kept sel (List.concat ess))).
Proof.
  revert count. induction ess as [|es ess IH]; intros count; simpl.
  - lia.
  - rewrite IH, kept_app, List.length_app. lia.
Qed.

Lemma concat_kept_pages sel (render : json -> string) (ess : list (list json)) :
  PyStr.concat (List.map (fun es => PyStr.concat (List.map render (kept sel es))) ess)
  = PyStr.concat (List.map render (kept sel (List.concat ess))).
Proof.
  induction ess as [|es ess IH]; [reflexivity|].
  cbn [List.map PyStr.concat List.concat].
  now rewrite kept_app, List.map_app, concat_app, IH.
Qed.

(** A scan on a log of finitely many pages, from the opening of the file
    to the answer that stops the walk. *)
Lemma finite_log_scan {B} (name : string) clock announce args tr
      (first : json -> Z -> M Z) (page : Z -> Z -> M (ctl * Z)) (post : Z -> M B)
      (sel : json -> bool) (render : json -> string) (ok : json -> Prop)
      (fit : list json -> Prop) (pre : globals -> Prop)
      (w : world) (resp0 : response) (es0 : list json) (resps : list response)
      (ess : list (list json)) (stop : response) :
  (forall w0, exists c, announce w0 = (Ret tt, set_console c w0)) ->
  (forall data es content count w0,
      members_are data es -> List.Forall ok es -> pre (glob w0) -> file_is name content w0 ->
      wp (first data count)
         (fun r w' => r = Ret (count + Z.of_nat (length (kept sel es)))
                      /\ wrote name (content +:+ PyStr.concat (List.map render (kept sel es)))
                               w0 w') w0) ->
  page_goes_on page tr pre ok fit name
               (fun es c => c + Z.of_nat (length (kept sel es)))
               (fun es => PyStr.concat (List.map render (kept sel es))) ->
  page_stops page tr stop name scan_file ->
  globals_bound (glob w) -> pre (glob w) ->
  (forall req, tr (length (net w)) req = resp0) ->
  first_page ok resp0 es0 ->
  List.Forall2 (good_page ok) resps ess -> List.Forall fit ess ->
  (length resps < 2000)%nat ->
  served tr (S (length (net w))) resps stop ->
  let run :=
    bind (fresh_file clock name announce)
         (fun _ => bind (redfish_get args tr lclog_path)
                        (fun response =>
                           bind (response_json response)
                                (fun data =>
                                   bind (first data 0)
                                        (fun count =>
                                           bind (for_each number_list page count) post)))) w in
  fst run = Exit 0
  /\ fs (snd run) !! name
     = scan_file (Z.of_nat (length (kept sel (all_entries es0 ess))))
                 (file_head clock +:+ PyStr.concat (List.map render (kept sel (all_entries es0 ess))))
  /\ length (net (snd run)) = (length (net w) + length resps + 2)%nat.
Proof.
  intros Hann Hfirst Hgo Hstop Hb Hpre Htr (data & Hbody & Hm & Hok0) Hpages Hfit Hlen Hsrv run.
  subst run.
  pose proof (fresh_file_wp clock name announce w Hann) as H1. unfold wp in H1.
  destruct (fresh_file clock name announce w) as [r1 w1] eqn:E1.
  destruct H1 as [Hr1 (Hf1 & Hn1 & Hg1 & _)]. simpl in Hr1, Hf1, Hn1, Hg1. subst r1.
  rewrite (bind_Ret _ _ _ _ _ E1).
  assert (Hb1 : globals_bound (glob w1)) by (now rewrite Hg1).
  assert (Htr1 : forall req, tr (length (net w1)) req = resp0) by (now rewrite Hn1).
  destruct (fetch_json args tr lclog_path w1 resp0 data Hb1 Htr1 Hbody) as (req & _ & Heq).
  rewrite Heq.
  pose proof (Hfirst data es0 (file_head clock) 0 (set_net (net w1 ++ [req]) w1) Hm Hok0
                     ltac:(simpl; now rewrite Hg1) Hf1) as H3. unfold wp in H3.
  destruct (first data 0 (set_net (net w1 ++ [req]) w1)) as [r3 w3] eqn:E3.
  destruct H3 as [Hr3 (Hf3 & Hn3 & Hg3 & _)]. simpl in Hr3, Hf3, Hn3, Hg3. subst r3.
  rewrite (bind_Ret _ _ _ _ _ E3).
  assert (Hlen3 : length (net w3) = S (length (net w))).
  { rewrite Hn3, List.length_app, Hn1. simpl. lia. }
  assert (Hb3 : globals_bound (glob w3)) by (now rewrite Hg3; simpl; rewrite Hg1).
  assert (Hpre3 : pre (glob w3)) by (now rewrite Hg3; simpl; rewrite Hg1).
  assert (Hsrv3 : served tr (length (net w3)) resps stop) by (now rewrite Hlen3).
  destruct (finite_log_loop page tr pre ok fit name _ _ stop scan_file Hgo Hstop
              resps ess number_list (0 + Z.of_nat (length (kept sel es0))) _ w3
              Hpages Hfit ltac:(now rewrite number_list_length) Hb3 Hpre3 Hsrv3 Hf3)
    as (Hr & Hfs & Hn).
  destruct (for_each number_list page (0 + Z.of_nat (length (kept sel es0))) w3)
    as [r4 w4] eqn:E4.
  simpl in Hr, Hfs, Hn. subst r4. rewrite (bind_Exit _ _ _ _ _ E4). simpl.
  split; [reflexivity|]. split.
  - rewrite Hfs, fold_kept_pages, concat_kept_pages. unfold all_entries.
    rewrite kept_app, List.map_app, concat_app, List.length_app, app_assoc_s.
    f_equal. lia.
  - rewrite Hn, Hlen3. lia.
Qed.

(** X19. [get_LC_log_failures] on a log of finitely many pages: the
    first answer gives the entries [es0], the paged answers are 200 with
    the non-empty pages [ess] (fewer than 2000), and then the iDRAC
    answers with an error that tells the end of the log ("$skip out of
    range" or "internal error").  The run ends by [sys.exit(0)] after one
    request for each answer; when no entry of the log has one of the words
    the file is gone, otherwise it holds the head and the lines of the
    entries kept, in the order of the log across the pages, each once. *)
Theorem fail_scan_of_finite_log (args : Args) (tr : nat -> request -> response)
        (clock : datetime) (w : world) (resp0 : response) (es0 : list json)
        (resps : list response) (ess : list (list json)) (stop : response) :
  globals_bound (glob w) ->
  (forall req, tr (length (net w)) req = resp0) ->
  first_page (fun i => keys_unique i /\ field_is_str "Message" i) resp0 es0 ->
  List.Forall2 (good_page (fun i => keys_unique i /\ field_is_str "Message" i)) resps ess ->
  List.Forall (fun es => es <> []) ess ->
  (length resps < 2000)%nat ->
  served tr (S (length (net w))) resps stop ->
  end_of_log [skip_out_of_range; internal_error] stop ->
  fst (get_LC_log_failures args tr clock w) = Exit 0
  /\ fs (snd (get_LC_log_failures args tr clock w)) !! "lc_log_failures.txt"
     = scan_file (Z.of_nat (length (kept is_failure (all_entries es0 ess))))
                 (file_head clock
                  +:+ PyStr.concat (List.map entry_lines (kept is_failure (all_entries es0 ess))))
  /\ length (net (snd (get_LC_log_failures args tr clock w)))
     = (length (net w) + length resps + 2)%nat.
Proof.
  intros Hb Htr H0 Hpages Hfit Hlen Hsrv Hend.
  unfold get_LC_log_failures.
  apply (finite_log_scan "lc_log_failures.txt" clock _ args tr fail_page
           (get_LC_log_failures_page args tr) _ is_failure entry_lines
           (fun i => keys_unique i /\ field_is_str "Message" i) (fun es => es <> [])
           (fun _ => True) w resp0 es0 resps ess stop); auto.
  - intros w0. apply logging_announces.
  - intros data es content count w0 Hm Hok _ Hf.
    eapply wp_mono; [apply (fail_page_fold data es _ content count w0 Hm Hok Hf)|].
    intros r w' [-> H]. rewrite fold_count, concat_kept in *. auto.
  - apply fail_page_goes_on.
  - apply scan_pages_stop, Hend.
Qed.

Lemma an_entry_message id message message_id category :
  keys_unique (an_entry id message message_id category)
  /\ field_is_str "Message" (an_entry id message message_id category).
Proof. split; [|exact I]. repeat constructor; simpl; intuition congruence. Qed.

Lemma an_entry_message_id id message message_id category :
  keys_unique (an_entry id message message_id category)
  /\ field_is_str "MessageId" (an_entry id message message_id category).
Proof. split; [|exact I]. repeat constructor; simpl; intuition congruence. Qed.

Lemma small_log_pages (ok : json -> Prop) (last : response) :
  ok entry1 -> ok entry2 -> ok entry3 ->
  first_page ok (a_page [entry1; entry2]) [entry1; entry2]
  /\ List.Forall2 (good_page ok) [a_page [entry3]] [[entry3]]
  /\ List.Forall (fun es : list json => es <> []) [[entry3]]
  /\ served (answers [a_page [entry1; entry2]; a_page [entry3]] last) 1 [a_page [entry3]] last.
Proof.
  intros H1 H2 H3. split; [|split; [|split]].
  - eexists. split; [reflexivity|]. split; [eexists; split; reflexivity|].
    repeat constructor; assumption.
  - constructor; [|constructor]. split; [reflexivity|].
    eexists. split; [reflexivity|]. split; [eexists; split; reflexivity|].
    repeat constructor; assumption.
  - repeat constructor. discriminate.
  - intros i req. reflexivity.
Qed.

Lemma out_of_range_ends :
  end_of_log [skip_out_of_range; internal_error] out_of_range
  /\ end_of_log [skip_out_of_range] out_of_range.
Proof.
  split; (split; [discriminate|]; split; [discriminate|]; do 2 eexists;
          split; [reflexivity|]; split; [reflexivity|]; vm_compute; reflexivity).
Qed.

Lemma entered_bound new : globals_bound (glob (entered new)).
Proof. repeat split; eexists; reflexivity. Qed.

Lemma fail_scan_of_finite_log_witness :
  fst (get_LC_log_failures base_args small_log a_clock (entered true)) = Exit 0
  /\ fs (snd (get_LC_log_failures base_args small_log a_clock (entered true)))
       !! "lc_log_failures.txt"
     = scan_file (Z.of_nat (length (kept is_failure
                                         (all_entries [entry1; entry2] [[entry3]]))))
                 (file_head a_clock
                  +:+ PyStr.concat (List.map entry_lines
                                             (kept is_failure
                                                   (all_entries [entry1; entry2] [[entry3]]))))
  /\ length (net (snd (get_LC_log_failures base_args small_log a_clock (entered true))))
     = (length (net (entered true)) + length [a_page [entry3]] + 2)%nat.
Proof.
  destruct (small_log_pages (fun i => keys_unique i /\ field_is_str "Message" i) out_of_range
              (an_entry_message _ _ _ _) (an_entry_message _ _ _ _) (an_entry_message _ _ _ _))
    as (H0 & Hp & Hfit & Hsrv).
  exact (fail_scan_of_finite_log base_args small_log a_clock (entered true) _ _ _ _ _
           (entered_bound true) (fun _ => eq_refl) H0 Hp Hfit ltac:(simpl; lia) Hsrv
           (proj1 out_of_range_ends)).
Defined.

(** X20. [get_message_id] on a log of finitely many pages, after the
    version was bound to [ver] and with the argument [--get-message-id ids]:
    the run ends by [sys.exit(0)] after one request for each answer; the
    file is gone when no entry matched, and otherwise holds the head and
    the lines of the entries whose message id, cut to its last item on a
    "new" iDRAC, is in [ids], in the order of the log, each once. *)
Theorem message_id_scan_of_finite_log (args : Args) (tr : nat -> request -> response)
        (clock : datetime) (ver ids : string) (w : world) (resp0 : response)
        (es0 : list json) (resps : list response) (ess : list (list json))
        (stop : response) :
  a_get_message_id args = Some ids ->
  iDRAC_version (glob w) = Some ver ->
  globals_bound (glob w) ->
  (forall req, tr (length (net w)) req = resp0) ->
  first_page (fun i => keys_unique i /\ field_is_str "MessageId" i) resp0 es0 ->
  List.Forall2 (good_page (fun i => keys_unique i /\ field_is_str "MessageId" i)) resps ess ->
  List.Forall (fun es => es <> []) ess ->
  (length resps < 2000)%nat ->
  served tr (S (length (net w))) resps stop ->
  end_of_log [skip_out_of_range; internal_error] stop ->
  fst (get_message_id args tr clock w) = Exit 0
  /\ fs (snd (get_message_id args tr clock w)) !! "message_id_entries.txt"
     = scan_file (Z.of_nat (length (kept (has_message_id ver ids) (all_entries es0 ess))))
                 (file_head clock
                  +:+ PyStr.concat (List.map entry_lines
                                             (kept (has_message_id ver ids)
                                                   (all_entries es0 ess))))
  /\ length (net (snd (get_message_id args tr clock w)))
     = (length (net w) + length resps + 2)%nat.
Proof.
  intros Hids Hver Hb Htr H0 Hpages Hfit Hlen Hsrv Hend.
  unfold get_message_id.
  apply (finite_log_scan "message_id_entries.txt" clock _ args tr (message_id_page args)
           (get_message_id_page args tr) _ (has_message_id ver ids) entry_lines
           (fun i => keys_unique i /\ field_is_str "MessageId" i) (fun es => es <> [])
           (fun g => iDRAC_version g = Some ver) w resp0 es0 resps ess stop); auto.
  - intros w0. apply logging_announces.
  - intros data es content count w0 Hm Hok Hv Hf.
    eapply wp_mono;
      [apply (message_id_page_fold args ver ids data es _ content count w0 Hv Hids Hm Hok Hf)|].
    intros r w' [-> H]. rewrite fold_count, concat_kept in *. auto.
  - apply message_id_page_goes_on, Hids.
  - apply (scan_pages_stop args tr stop Hend).
Qed.

Lemma message_id_scan_of_finite_log_witness :
  fst (get_message_id (with_message_id "WRK0001,STOR7" base_args) small_log a_clock
                      (entered true)) = Exit 0
  /\ fs (snd (get_message_id (with_message_id "WRK0001,STOR7" base_args) small_log a_clock
                             (entered true))) !! "message_id_entries.txt"
     = scan_file (Z.of_nat (length (kept (has_message_id "new" "WRK0001,STOR7")
                                         (all_entries [entry1; entry2] [[entry3]]))))
                 (file_head a_clock
                  +:+ PyStr.concat (List.map entry_lines
                                             (kept (has_message_id "new" "WRK0001,STOR7")
                                                   (all_entries [entry1; entry2] [[entry3]]))))
  /\ length (net (snd (get_message_id (with_message_id "WRK0001,STOR7" base_args) small_log
                                      a_clock (entered true))))
     = (length (net (entered true)) + length [a_page [entry3]] + 2)%nat.
Proof.
  destruct (small_log_pages (fun i => keys_unique i /\ field_is_str "MessageId" i) out_of_range
              (an_entry_message_id _ _ _ _) (an_entry_message_id _ _ _ _)
              (an_entry_message_id _ _ _ _))
    as (H0 & Hp & Hfit & Hsrv).
  exact (message_id_scan_of_finite_log (with_message_id "WRK0001,STOR7" base_args) small_log
           a_clock "new" "WRK0001,STOR7" (entered true) _ _ _ _ _ eq_refl eq_refl
           (entered_bound true) (fun _ => eq_refl) H0 Hp Hfit ltac:(simpl; lia) Hsrv
           (proj1 out_of_range_ends)).
Defined.

(** X21. [get_category_entries] on a log of finitely many pages, with
    an argument [--get-category arg] whose lower-case form is one of the
    five categories, every entry having a string at [Oem.Dell.Category]:
    the run ends by [sys.exit(0)] after one request for each answer (the
    pages may be empty: this walk has no test of an empty [Members]); the
    file is gone when no entry was kept, and otherwise holds the head and
    [str(i)] of each entry whose category in lower case equals the argument
    as typed, in the order of the log, each once. *)
Theorem category_scan_of_finite_log (args : Args) (tr : nat -> request -> response)
        (clock : datetime) (arg : string) (w : world) (resp0 : response)
        (es0 : list json) (resps : list response) (ess : list (list json))
        (stop : response) :
  a_get_category args = Some arg ->
  existsb (String.eqb (PyStr.lower arg)) categories = true ->
  globals_bound (glob w) ->
  (forall req, tr (length (net w)) req = resp0) ->
  first_page (fun i => is_Some (category_of i)) resp0 es0 ->
  List.Forall2 (good_page (fun i => is_Some (category_of i))) resps ess ->
  (length resps < 2000)%nat ->
  served tr (S (length (net w))) resps stop ->
  end_of_log [skip_out_of_range; internal_error] stop ->
  fst (get_category_entries args tr clock w) = Exit 0
  /\ fs (snd (get_category_entries args tr clock w)) !! "category_entries.txt"
     = scan_file (Z.of_nat (length (kept (in_category arg) (all_entries es0 ess))))
                 (file_head clock
                  +:+ PyStr.concat (List.map entry_repr
                                             (kept (in_category arg) (all_entries es0 ess))))
  /\ length (net (snd (get_category_entries args tr clock w)))
     = (length (net w) + length resps + 2)%nat.
Proof.
  intros Harg Hvalid Hb Htr H0 Hpages Hlen Hsrv Hend.
  unfold get_category_entries.
  assert (E : arg_lower (a_get_category args) w = (Ret (PyStr.lower arg), w))
    by (now rewrite Harg).
  rewrite (bind_Ret _ _ _ _ _ E), Hvalid. cbn [negb].
  apply (finite_log_scan "category_entries.txt" clock _ args tr (category_page args)
           (get_category_entries_page args tr) _ (in_category arg) entry_repr
           (fun i => is_Some (category_of i)) (fun _ => True)
           (fun _ => True) w resp0 es0 resps ess stop); auto.
  - intros w0. apply logging_announces.
  - intros data es content count w0 Hm Hok _ Hf.
    eapply wp_mono;
      [apply (category_page_fold args arg data es _ content count w0 Harg Hm Hok Hf)|].
    intros r w' [-> H]. rewrite fold_count, concat_kept in *. auto.
  - apply category_page_goes_on, Harg.
  - apply (scan_pages_stop args tr stop Hend).
  - clear. induction ess; constructor; auto.
Qed.

Lemma an_entry_category id message message_id category :
  is_Some (category_of (an_entry id message message_id category)).
Proof. eexists. reflexivity. Qed.

Lemma category_scan_of_finite_log_witness :
  fst (get_category_entries (with_category "storage" base_args) small_log a_clock
                            (entered true)) = Exit 0
  /\ fs (snd (get_category_entries (with_category "storage" base_args) small_log a_clock
                                   (entered true))) !! "category_entries.txt"
     = scan_file (Z.of_nat (length (kept (in_category "storage")
                                         (all_entries [entry1; entry2] [[entry3]]))))
                 (file_head a_clock
                  +:+ PyStr.concat (List.map entry_repr
                                             (kept (in_category "storage")
                                                   (all_entries [entry1; entry2] [[entry3]]))))
  /\ length (net (snd (get_category_entries (with_category "storage" base_args) small_log
                                            a_clock (entered true))))
     = (length (net (entered true)) + length [a_page [entry3]] + 2)%nat.
Proof.
  destruct (small_log_pages (fun i => is_Some (category_of i)) out_of_range
              (an_entry_category _ _ _ _) (an_entry_category _ _ _ _)
              (an_entry_category _ _ _ _))
    as (H0 & Hp & _ & Hsrv).
  exact (category_scan_of_finite_log (with_category "storage" base_args) small_log
           a_clock "storage" (entered true) _ _ _ _ _ eq_refl eq_refl
           (entered_bound true) (fun _ => eq_refl) H0 Hp ltac:(simpl; lia) Hsrv
           (proj1 out_of_range_ends)).
Defined.

Lemma concat_pages (render : json -> string) (ess : list (list json)) :
  PyStr.concat (List.map (fun es => PyStr.concat (List.map render es)) ess)
  = PyStr.concat (List.map render (List.concat ess)).
Proof.
  induction ess as [|es ess IH]; [reflexivity|].
  cbn [List.map PyStr.concat List.concat].
  now rewrite List.map_app, concat_app, IH.
Qed.

(** X22. [get_LC_logs] on a log of finitely many pages: the first
    answer is 200 with the entries [es0], the paged answers are 200 with
    the non-empty pages [ess] (fewer than 2000), then the iDRAC answers
    with the error "$skip out of range".  The run ends by [sys.exit(0)]
    inside the walk, after one request for each answer, and
    [lc_logs.txt] holds the head and then the lines of every entry of the
    log, in the order of the log across the pages, each once. *)
Theorem full_dump_of_finite_log (args : Args) (tr : nat -> request -> response)
        (clock : datetime) (w : world) (resp0 : response) (es0 : list json)
        (resps : list response) (ess : list (list json)) (stop : response) :
  globals_bound (glob w) ->
  (forall req, tr (length (net w)) req = resp0) ->
  status_code resp0 = 200 ->
  first_page is_dict resp0 es0 ->
  List.Forall2 (good_page is_dict) resps ess ->
  List.Forall (fun es => es <> []) ess ->
  (length resps < 2000)%nat ->
  served tr (S (length (net w))) resps stop ->
  end_of_log [skip_out_of_range] stop ->
  fst (get_LC_logs args tr clock w) = Exit 0
  /\ fs (snd (get_LC_logs args tr clock w)) !! "lc_logs.txt"
     = Some (file_head clock
             +:+ PyStr.concat (List.map entry_lines (all_entries es0 ess)))
  /\ length (net (snd (get_LC_logs args tr clock w)))
     = (length (net w) + length resps + 2)%nat.
Proof.
  intros Hb Htr H200 (data & Hbody & Hm & Hok0) Hpages Hfit Hlen Hsrv Hend.
  unfold get_LC_logs.
  pose proof (fresh_file_wp clock "lc_logs.txt" (ret tt) w ret_announces) as H1.
  unfold wp in H1.
  destruct (fresh_file clock "lc_logs.txt" (ret tt) w) as [r1 w1] eqn:E1.
  destruct H1 as [Hr1 (Hf1 & Hn1 & Hg1 & _)]. simpl in Hr1, Hf1, Hn1, Hg1. subst r1.
  rewrite (bind_Ret _ _ _ _ _ E1).
  assert (Hb1 : globals_bound (glob w1)) by (now rewrite Hg1).
  assert (Htr1 : forall req, tr (length (net w1)) req = resp0) by (now rewrite Hn1).
  destruct (fetch_json args tr lclog_path w1 resp0 data Hb1 Htr1 Hbody) as (req & _ & Heq).
  rewrite (Heq _ (fun response data =>
                    if negb (status_code response =? 200) then _ else _)).
  rewrite H200. cbn [Z.eqb Pos.eqb negb].
  pose proof (dump_page_fold data es0 "lc_logs.txt" (file_head clock)
                (set_net (net w1 ++ [req]) w1) Hm Hok0 Hf1) as H3. unfold wp in H3.
  destruct (dump_page data (set_net (net w1 ++ [req]) w1)) as [r3 w3] eqn:E3.
  destruct H3 as [[u Hr3] (Hf3 & Hn3 & Hg3 & _)]. simpl in Hr3, Hf3, Hn3, Hg3. subst r3.
  rewrite (bind_Ret _ _ _ _ _ E3).
  assert (Hlen3 : length (net w3) = S (length (net w))).
  { rewrite Hn3, List.length_app, Hn1. simpl. lia. }
  assert (Hb3 : globals_bound (glob w3)) by (now rewrite Hg3; simpl; rewrite Hg1).
  assert (Hsrv3 : served tr (length (net w3)) resps stop) by (now rewrite Hlen3).
  destruct (finite_log_loop (get_LC_logs_page args tr) tr (fun _ => True) is_dict
              (fun es => es <> []) "lc_logs.txt" _ _ stop _
              (dump_page_goes_on args tr) (dump_pages_stop args tr stop Hend)
              resps ess number_list tt _ w3
              Hpages Hfit ltac:(now rewrite number_list_length) Hb3 I Hsrv3 Hf3)
    as (Hr & Hfs & Hn).
  destruct (for_each number_list (get_LC_logs_page args tr) tt w3) as [r4 w4] eqn:E4.
  simpl in Hr, Hfs, Hn. subst r4. rewrite (bind_Exit _ _ _ _ _ E4). simpl.
  split; [reflexivity|]. split.
  - rewrite Hfs, concat_pages. unfold all_entries.
    now rewrite List.map_app, concat_app, app_assoc_s.
  - rewrite Hn, Hlen3. lia.
Qed.

Lemma an_entry_dict id message message_id category :
  is_dict (an_entry id message message_id category).
Proof. exact I. Qed.

Lemma full_dump_of_finite_log_witness :
  fst (get_LC_logs (with_get_all base_args) small_log a_clock (entered true)) = Exit 0
  /\ fs (snd (get_LC_logs (with_get_all base_args) small_log a_clock (entered true)))
       !! "lc_logs.txt"
     = Some (file_head a_clock
             +:+ PyStr.concat (List.map entry_lines
                                        (all_entries [entry1; entry2] [[entry3]])))
  /\ length (net (snd (get_LC_logs (with_get_all base_args) small_log a_clock
                                   (entered true))))
     = (length (net (entered true)) + length [a_page [entry3]] + 2)%nat.
Proof.
  destruct (small_log_pages is_dict out_of_range
              (an_entry_dict _ _ _ _) (an_entry_dict _ _ _ _) (an_entry_dict _ _ _ _))
    as (H0 & Hp & Hfit & Hsrv).
  exact (full_dump_of_finite_log (with_get_all base_args) small_log a_clock (entered true)
           _ _ _ _ _ (entered_bound true) (fun _ => eq_refl) eq_refl H0 Hp Hfit
           ltac:(simpl; lia) Hsrv (proj2 out_of_range_ends)).
Defined.

(** ** The flag [verify] over a whole run *)

Lemma sends_refl args v w : sends_with args v w w.
Proof. intros Hv. split; [exact Hv|]. exists []. now rewrite List.app_nil_r. Qed.

Lemma sends_trans args v a b c :
  sends_with args v a b -> sends_with args v b c -> sends_with args v a c.
Proof.
  intros Hab Hbc Hv. destruct (Hab Hv) as (Hvb & n1 & E1 & F1).
  destruct (Hbc Hvb) as (Hvc & n2 & E2 & F2). split; [exact Hvc|].
  exists (n1 ++ n2). split.
  - now rewrite E2, E1, List.app_assoc.
  - apply List.Forall_app. now split.
Qed.

Lemma flag_read args v {A} (k : bool -> M A) :
  preserves (sends_with args v) (k v) ->
  preserves (sends_with args v) (bind (read_global verify_cert) k).
Proof.
  intros H w Hv. unfold bind, read_global. rewrite Hv. simpl. now apply H.
Qed.

Lemma flag_request args v tr (r : request) :
  flag_kept args v r -> preserves (sends_with args v) (requests_get tr r).
Proof.
  intros H w Hv. split; [exact Hv|]. exists [r]. split; [reflexivity|].
  constructor; [exact H|constructor].
Qed.

Lemma flag_local args v {A} (m : M A) :
  (forall w, net (snd (m w)) = net w /\ verify_cert (glob (snd (m w))) = verify_cert (glob w)) ->
  preserves (sends_with args v) m.
Proof.
  intros H w Hv. destruct (H w) as [Hn Hg]. split; [congruence|].
  exists []. now rewrite List.app_nil_r.
Qed.

Ltac local_side :=
  intros; unfold write_global, os_remove, open_w, emit, logging, pprint, pprint_item, print,
             close, writelines;
  repeat match goal with
         | |- context [match ?x with _ => _ end] => destruct x
         end;
  simpl; auto.

Ltac flag_side :=
  solve [ apply sends_refl
        | eapply sends_trans; eassumption
        | left; reflexivity
        | right; split; [assumption|];
          split; [eexists; reflexivity|]; split; [reflexivity|]; do 2 eexists; reflexivity
        | local_side ].

Ltac flag_rule :=
  lazymatch goal with
  | |- preserves _ (bind (read_global verify_cert) _) => apply flag_read
  | |- preserves _ (requests_get _ _) => apply flag_request
  | |- preserves _ (write_global _) => apply flag_local
  | |- preserves _ (os_remove _) => apply flag_local
  | |- preserves _ (open_w _) => apply flag_local
  | |- preserves _ (emit _) => apply flag_local
  | |- preserves _ (logging _ _) => apply flag_local
  | |- preserves _ (pprint _) => apply flag_local
  | |- preserves _ (pprint_item _) => apply flag_local
  | |- preserves _ (print _) => apply flag_local
  | |- preserves _ close => apply flag_local
  | |- preserves _ (writelines _) => apply flag_local
  | |- preserves _ (if ?b then _ else _) => destruct b eqn:?
  | _ => pres_rule
  end.
Ltac flag_step :=
  flag_rule; intros; cbv beta;
  lazymatch goal with
  | |- preserves _ _ => idtac
  | _ => flag_side
  end.
Ltac flag_tac := repeat flag_step.

Lemma probe_flag args tr v :
  preserves (sends_with args v) (check_supported_idrac_version args tr).
Proof. unfold check_supported_idrac_version. flag_tac. Qed.

Lemma version_flag args tr v :
  preserves (sends_with args v) (get_iDRAC_version args tr).
Proof. unfold get_iDRAC_version, firmware_number. flag_tac. Qed.

Lemma severity_flag args tr v :
  preserves (sends_with args v) (get_specific_severity_logs args tr).
Proof.
  unfold get_specific_severity_logs, severity_filter_uri, show_filtered. flag_tac.
Qed.

Lemma date_range_flag args tr v :
  preserves (sends_with args v) (get_date_range args tr).
Proof. unfold get_date_range, show_filtered. flag_tac. Qed.

Lemma full_dump_flag args tr clock v :
  preserves (sends_with args v) (get_LC_logs args tr clock).
Proof.
  unfold get_LC_logs, get_LC_logs_page, dump_page, dump_entry, write_items, fresh_file.
  flag_tac.
Qed.

Lemma fail_scan_flag args tr clock v :
  preserves (sends_with args v) (get_LC_log_failures args tr clock).
Proof.
  unfold get_LC_log_failures, get_LC_log_failures_page, fail_page, fail_entry, fail_words,
    record_items, write_items, fresh_file, nothing_found.
  flag_tac.
Qed.

Lemma message_id_scan_flag args tr clock v :
  preserves (sends_with args v) (get_message_id args tr clock).
Proof.
  unfold get_message_id, get_message_id_page, message_id_page, message_id_entry,
    message_id_matches, normalize_message_id, record_items, write_items, fresh_file,
    nothing_found.
  flag_tac.
Qed.

Lemma category_scan_flag args tr clock v :
  preserves (sends_with args v) (get_category_entries args tr clock).
Proof.
  unfold get_category_entries, get_category_entries_page, category_page, category_entry,
    category_matches, fresh_file, nothing_found.
  flag_tac.
Qed.

Lemma modes_flag args tr clock v :
  preserves (sends_with args v)
    (if a_get_fail args then get_LC_log_failures args tr clock
     else if (a_get_date_range args && truthy (a_start_date args)
              && truthy (a_end_date args))%bool then get_date_range args tr
     else if truthy (a_get_severity args) then get_specific_severity_logs args tr
     else if a_get_all args then get_LC_logs args tr clock
     else if truthy (a_get_message_id args) then get_message_id args tr clock
     else if truthy (a_get_category args) then get_category_entries args tr clock
     else logging ERROR invalid_arguments).
Proof.
  destruct (a_get_fail args); [apply fail_scan_flag|].
  destruct (_ && _ && _)%bool; [apply date_range_flag|].
  destruct (truthy (a_get_severity args)); [apply severity_flag|].
  destruct (a_get_all args); [apply full_dump_flag|].
  destruct (truthy (a_get_message_id args)); [apply message_id_scan_flag|].
  destruct (truthy (a_get_category args)); [apply category_scan_flag|].
  flag_tac.
Qed.

(** What [__main__] does with the credentials before the first request:
    the globals are bound, [verify_cert] from [--ssl], nothing is sent. *)
Lemma credentials_bound args pw w {B} (k : M B) :
  bind (write_global (set_idrac_ip (a_ip args)))
    (fun _ => bind (write_global (set_idrac_username (a_u args)))
    (fun _ => bind (if truthy (a_p args)
                    then write_global (set_idrac_password (str_of_arg (a_p args)))
                    else ret tt)
    (fun _ => bind (if (negb (truthy (a_p args)) && negb (truthy (a_x args))
                        && truthy (a_u args))%bool
                    then bind (emit (Getpass (nl +:+ "- Argument -p not detected, pass in iDRAC user "
                                              +:+ str_of_arg (a_u args) +:+ " password: ")))
                              (fun _ => write_global (set_idrac_password pw))
                    else ret tt)
    (fun _ => bind (write_global (set_verify_cert (verify_cert_of (a_ssl args))))
    (fun _ => k))))) w
  = k (with_credentials args pw w).
Proof.
  unfold with_credentials.
  destruct (truthy (a_p args)), (truthy (a_x args)), (truthy (a_u args)); reflexivity.
Qed.

Lemma with_credentials_world args pw w :
  net (with_credentials args pw w) = net w
  /\ fs (with_credentials args pw w) = fs w
  /\ open_file (with_credentials args pw w) = open_file w
  /\ verify_cert (glob (with_credentials args pw w)) = Some (verify_cert_of (a_ssl args))
  /\ idrac_ip (glob (with_credentials args pw w)) = Some (a_ip args)
  /\ idrac_username (glob (with_credentials args pw w)) = Some (a_u args)
  /\ idrac_password (glob (with_credentials args pw w))
     = (if truthy (a_p args) then Some (str_of_arg (a_p args))
        else if (negb (truthy (a_x args)) && truthy (a_u args))%bool then Some pw
             else idrac_password (glob w))
  /\ iDRAC_version (glob (with_credentials args pw w)) = iDRAC_version (glob w).
Proof.
  unfold with_credentials.
  destruct (truthy (a_p args)), (truthy (a_x args)), (truthy (a_u args));
    repeat split; reflexivity.
Qed.

(** X23. The flag [verify] over a whole run of [__main__], whatever the
    arguments and whatever the iDRAC answers: every request of the run
    carries the value that [--ssl] gives ([True] only for "true" in any
    case of letters, [False] otherwise and without [--ssl]), but for one:
    in a run without X-Auth token the fetch of the firmware version goes
    out with [verify=False] whatever [--ssl] says. *)
Theorem run_verify_flag (args : Args) (tr : nat -> request -> response)
        (clock : datetime) (pw : string) (w : world) :
  exists new,
    net (snd (main args tr clock pw w)) = net w ++ new
    /\ List.Forall (fun r => verify r = verify_cert_of (a_ssl args)
                             \/ (truthy (a_x args) = false /\ version_fetch r)) new.
Proof.
  assert (Hnone : forall w' : world, net w' = net w ->
            exists new, net w' = net w ++ new
                        /\ List.Forall (flag_kept args (verify_cert_of (a_ssl args))) new).
  { intros w' E. exists []. rewrite List.app_nil_r. split; [exact E|constructor]. }
  unfold main. destruct (a_script_examples args).
  { apply Hnone. reflexivity. }
  rewrite (bind_Ret (ret tt) _ w tt w eq_refl).
  destruct (_ || _ || _ || _)%bool.
  2: { apply Hnone. reflexivity. }
  destruct (with_credentials_world args pw w) as (Hn & _ & _ & Hv & _).
  pose proof (preserves_bind _ (sends_trans args _) _ _
                (probe_flag args tr _) (fun _ => version_flag args tr _)
                (with_credentials args pw w) Hv) as H.
  rewrite <- (credentials_bound args pw w) in H.
  destruct H as (Hv3 & n1 & E1 & F1). rewrite Hn in E1.
  match goal with
  | |- context [bind ?blk ?k w] => destruct (blk w) as [[u|c|e] w3] eqn:EB
  end; simpl in Hv3, E1.
  - rewrite (bind_Ret _ _ _ _ _ EB).
    destruct (modes_flag args tr clock _ w3 Hv3) as (_ & n2 & E2 & F2).
    exists (n1 ++ n2). split.
    + now rewrite E2, E1, List.app_assoc.
    + apply List.Forall_app. now split.
  - rewrite (bind_Exit _ _ _ _ _ EB). now exists n1.
  - rewrite (bind_Raise _ _ _ _ _ EB). now exists n1.
Qed.

(** X24. [-ip] and [--ssl] alone pass the test of the arguments of
    [__main__], though no user name, password or token is given: the
    password is then bound nowhere, and the run ends in the probe with a
    NameError nobody catches, before any request is sent, with no file
    touched and nothing on the console. *)
Theorem ip_and_ssl_alone_raise (args : Args) (tr : nat -> request -> response)
        (clock : datetime) (pw : string) (w : world) :
  a_script_examples args = false ->
  truthy (a_ip args) = true -> truthy (a_ssl args) = true ->
  truthy (a_u args) = false -> truthy (a_p args) = false -> truthy (a_x args) = false ->
  idrac_password (glob w) = None ->
  fst (main args tr clock pw w) = Raise NameError
  /\ net (snd (main args tr clock pw w)) = net w
  /\ fs (snd (main args tr clock pw w)) = fs w
  /\ console (snd (main args tr clock pw w)) = console w.
Proof.
  intros Hex Hip Hssl Hu Hp Hx Hpw.
  assert (E : main args tr clock pw w
              = (Raise NameError,
                 set_glob (set_verify_cert (verify_cert_of (a_ssl args))
                             (set_idrac_username (a_u args)
                                (set_idrac_ip (a_ip args) (glob w)))) w)).
  { unfold main. rewrite Hex, Hip, Hssl. cbn [andb orb].
    rewrite (bind_Ret (ret tt) _ w tt w eq_refl).
    erewrite bind_Raise; [reflexivity|].
    rewrite credentials_bound. unfold with_credentials. rewrite Hp, Hx, Hu. cbn [negb andb].
    unfold check_supported_idrac_version, redfish_get. rewrite Hx.
    unfold bind, read_global. simpl. rewrite Hpw. reflexivity. }
  rewrite E. repeat split.
Qed.

Lemma ip_and_ssl_alone_raise_witness :
  fst (main ip_ssl_args small_log a_clock "calvin" start) = Raise NameError
  /\ net (snd (main ip_ssl_args small_log a_clock "calvin" start)) = [].
Proof.
  pose proof (ip_and_ssl_alone_raise ip_ssl_args small_log a_clock "calvin" start
                eq_refl eq_refl eq_refl eq_refl eq_refl eq_refl eq_refl) as (H1 & H2 & _).
  split; [exact H1 | exact H2].
Defined.

(** ** The file of the full dump stays *)

Lemma keeps_refl name pre w : keeps_file name pre w w.
Proof. intros Ho Hf. now split. Qed.

Lemma keeps_trans name pre a b c :
  keeps_file name pre a b -> keeps_file name pre b c -> keeps_file name pre a c.
Proof. intros Hab Hbc Ho Hf. destruct (Hab Ho Hf) as [Ho' Hf']. now apply Hbc. Qed.

Lemma keeps_console name pre w c : keeps_file name pre w (set_console c w).
Proof. intros Ho Hf. now split. Qed.

Lemma keeps_net name pre w n : keeps_file name pre w (set_net n w).
Proof. intros Ho Hf. now split. Qed.

Lemma keeps_close name pre : preserves (keeps_file name pre) close.
Proof. intros w Ho Hf. split; [now right | exact Hf]. Qed.

Lemma keeps_append name pre s w name0 old :
  open_file w = Some name0 -> fs w !! name0 = Some old ->
  keeps_file name pre w (set_fs (<[name0 := old +:+ s]> (fs w)) w).
Proof.
  intros Hopen Hold Ho [body Hf]. split; [exact Ho|].
  destruct Ho as [Ho|Ho]; [|congruence].
  assert (name0 = name) by congruence. subst name0.
  exists (body +:+ s). simpl. rewrite lookup_insert_eq.
  rewrite Hf in Hold. injection Hold as <-. now rewrite app_assoc_s.
Qed.

Ltac keeps_side :=
  solve [ apply keeps_refl
        | eapply keeps_trans; eassumption
        | apply keeps_console
        | apply keeps_net
        | eapply keeps_append; eassumption ].
Ltac keeps_rule :=
  lazymatch goal with
  | |- preserves _ close => apply keeps_close
  | _ => pres_rule
  end.
Ltac keeps_step :=
  keeps_rule; intros;
  lazymatch goal with
  | |- preserves _ _ => idtac
  | _ => keeps_side
  end.

(** X25. [get_LC_logs] never takes its file away: whatever the
    arguments, whatever the iDRAC answers at each request (any status, a
    body that is no JSON, entries that are no dicts) and however the run
    ends, [lc_logs.txt] is there after it and starts with the line of the
    date of this run and the blank line. *)
Theorem full_dump_keeps_its_file (args : Args) (tr : nat -> request -> response)
        (clock : datetime) (w : world) :
  exists body,
    fs (snd (get_LC_logs args tr clock w)) !! "lc_logs.txt" = Some (file_head clock +:+ body).
Proof.
  unfold get_LC_logs.
  pose proof (fresh_file_wp clock "lc_logs.txt" (ret tt) w ret_announces) as H1.
  unfold wp in H1.
  destruct (fresh_file clock "lc_logs.txt" (ret tt) w) as [r1 w1] eqn:E1.
  destruct H1 as [Hr1 ([Hopen Hfile] & _)]. simpl in Hr1, Hopen, Hfile. subst r1.
  rewrite (bind_Ret _ _ _ _ _ E1).
  lazymatch goal with
  | |- context [snd (?m w1)] =>
      assert (Hp : preserves (keeps_file "lc_logs.txt" (file_head clock)) m)
  end.
  { unfold get_LC_logs_page, dump_page, dump_entry, write_items. repeat keeps_step. }
  apply (Hp w1); [now left|]. exists EmptyString. now rewrite app_empty_r.
Qed.

(** ** A log that ends with an empty page *)

Lemma finite_log_break {St} (page : Z -> St -> M (ctl * St)) tr pre ok fit name step text
      stop :
  page_goes_on page tr pre ok fit name step text ->
  page_breaks page tr stop name ->
  forall resps ess l s content w,
    List.Forall2 (good_page ok) resps ess -> List.Forall fit ess ->
    (length resps < length l)%nat ->
    globals_bound (glob w) -> pre (glob w) ->
    served tr (length (net w)) resps stop ->
    file_is name content w ->
    fst (for_each l page s w) = Ret (List.fold_left (fun s es => step es s) ess s)
    /\ file_is name (content +:+ PyStr.concat (List.map text ess)) (snd (for_each l page s w))
    /\ length (net (snd (for_each l page s w))) = S (length (net w) + length resps).
Proof.
  intros Hgo Hstop resps. induction resps as [|resp resps IH];
    intros ess l s content w Hpages Hfit Hlen Hb Hpre Hsrv Hf.
  - inversion Hpages; subst. destruct l as [|seq l]; [simpl in Hlen; lia|].
    cbn [for_each List.fold_left List.map PyStr.concat]. rewrite app_empty_r.
    assert (Hs : forall req, tr (length (net w)) req = stop).
    { intros req. specialize (Hsrv 0%nat req). now rewrite Nat.add_0_r in Hsrv. }
    destruct (Hstop seq s content w Hb Hs Hf) as (Hr & Hf1 & _ & Hn).
    destruct (page seq s w) as [r w1] eqn:Epage. simpl in Hr, Hf1, Hn. subst r.
    rewrite !(bind_Ret _ _ _ _ _ Epage). simpl.
    split; [reflexivity|]. split; [exact Hf1|]. rewrite Hn. lia.
  - inversion Hpages as [|? es ? ess' Hpage Hrest]; subst.
    inversion Hfit as [|? ? Hfit1 Hfit']; subst.
    destruct l as [|seq l]; [simpl in Hlen; lia|].
    assert (Hs : forall req, tr (length (net w)) req = resp).
    { intros req. specialize (Hsrv 0%nat req). now rewrite Nat.add_0_r in Hsrv. }
    destruct (Hgo seq s content w resp es Hb Hpre Hs Hpage Hfit1 Hf) as (Hr & Hf1 & Hg1 & Hn1).
    destruct (page seq s w) as [r w1] eqn:Epage. simpl in Hr, Hf1, Hg1, Hn1. subst r.
    cbn [for_each]. rewrite !(bind_Ret _ _ _ _ _ Epage).
    assert (Hsrv1 : served tr (length (net w1)) resps stop).
    { intros i req. rewrite Hn1. specialize (Hsrv (S i) req).
      now rewrite Nat.add_succ_r in Hsrv. }
    assert (Hb1 : globals_bound (glob w1)) by (now rewrite Hg1).
    assert (Hpre1 : pre (glob w1)) by (now rewrite Hg1).
    simpl in Hlen.
    destruct (IH ess' l (step es s) _ w1 Hrest Hfit' ltac:(lia) Hb1 Hpre1 Hsrv1 Hf1)
      as (Hr2 & Hfs2 & Hn2).
    split; [exact Hr2|]. split.
    + cbn [List.fold_left List.map PyStr.concat]. now rewrite <- app_assoc_s.
    + rewrite Hn2, Hn1. simpl. lia.
Qed.

Lemma empty_pages_break args tr stop :
  empty_page stop ->
  page_breaks (get_LC_logs_page args tr) tr stop "lc_logs.txt"
  /\ page_breaks (get_LC_log_failures_page args tr) tr stop "lc_log_failures.txt"
  /\ page_breaks (get_message_id_page args tr) tr stop "message_id_entries.txt".
Proof.
  intros (Hst & fields & Hbody & Hmem).
  assert (H : forall seq count w,
             globals_bound (glob w) -> (forall req, tr (length (net w)) req = stop) ->
             exists req,
               get_LC_logs_page args tr seq tt w = (Ret (Break, tt), set_net (net w ++ [req]) w)
               /\ get_LC_log_failures_page args tr seq count w
                  = (Ret (Break, count), set_net (net w ++ [req]) w)
               /\ get_message_id_page args tr seq count w
                  = (Ret (Break, count), set_net (net w ++ [req]) w)).
  { intros seq count w Hb Htr.
    destruct (fetch_json args tr (skip_path seq) w stop (JObj fields) Hb Htr Hbody)
      as (req & _ & Heq).
    exists req.
    unfold get_LC_logs_page, get_LC_log_failures_page, get_message_id_page.
    rewrite !Heq, Hst. cbn [Z.eqb Pos.eqb negb].
    unfold py_in, getitem, bind, ret, of_option.
    destruct Hmem as [-> | ->]; repeat split. }
  split; [|split]; intros seq s content w Hb Htr Hf.
  - destruct s. destruct (H seq 0 w Hb Htr) as (req & -> & _).
    split; [reflexivity|]. split; [exact Hf|]. split; [reflexivity|].
    simpl. rewrite List.length_app. simpl. lia.
  - destruct (H seq s w Hb Htr) as (req & _ & -> & _).
    split; [reflexivity|]. split; [exact Hf|]. split; [reflexivity|].
    simpl. rewrite List.length_app. simpl. lia.
  - destruct (H seq s w Hb Htr) as (req & _ & _ & ->).
    split; [reflexivity|]. split; [exact Hf|]. split; [reflexivity|].
    simpl. rewrite List.length_app. simpl. lia.
Qed.

(** The end of a scan after its loop: nothing found and the file removed,
    or the closing message and the handle closed. *)
Lemma scan_post_ends (name msg msg' content : string) (count : Z) (w : world) :
  file_is name content w ->
  let out := (if count =? 0 then @nothing_found unit msg name
              else bind (logging INFO msg') (fun _ => close)) w in
  fst out = (if count =? 0 then Exit 0 else Ret tt)
  /\ fs (snd out) !! name = scan_file count content
  /\ net (snd out) = net w.
Proof.
  intros [_ Hf]. unfold scan_file. destruct (count =? 0); cbv zeta.
  - unfold nothing_found, bind, logging, emit, try_except, os_remove, sys_exit.
    cbn [fst snd fs set_console]. rewrite Hf. cbn.
    split; [reflexivity|]. split; [apply lookup_delete_eq | reflexivity].
  - split; [reflexivity|]. split; [exact Hf | reflexivity].
Qed.

Lemma finite_log_scan_break {B} (name : string) clock announce args tr
      (first : json -> Z -> M Z) (page : Z -> Z -> M (ctl * Z)) (post : Z -> M B)
      (sel : json -> bool) (render : json -> string) (ok : json -> Prop)
      (fit : list json -> Prop) (pre : globals -> Prop)
      (w : world) (resp0 : response) (es0 : list json) (resps : list response)
      (ess : list (list json)) (stop : response) :
  (forall w0, exists c, announce w0 = (Ret tt, set_console c w0)) ->
  (forall data es content count w0,
      members_are data es -> List.Forall ok es -> pre (glob w0) -> file_is name content w0 ->
      wp (first data count)
         (fun r w' => r = Ret (count + Z.of_nat (length (kept sel es)))
                      /\ wrote name (content +:+ PyStr.concat (List.map render (kept sel es)))
                               w0 w') w0) ->
  page_goes_on page tr pre ok fit name
               (fun es c => c + Z.of_nat (length (kept sel es)))
               (fun es => PyStr.concat (List.map render (kept sel es))) ->
  page_breaks page tr stop name ->
  globals_bound (glob w) -> pre (glob w) ->
  (forall req, tr (length (net w)) req = resp0) ->
  first_page ok resp0 es0 ->
  List.Forall2 (good_page ok) resps ess -> List.Forall fit ess ->
  (length resps < 2000)%nat ->
  served tr (S (length (net w))) resps stop ->
  exists w4,
    file_is name (file_head clock
                  +:+ PyStr.concat (List.map render (kept sel (all_entries es0 ess)))) w4
    /\ length (net w4) = (length (net w) + length resps + 2)%nat
    /\ bind (fresh_file clock name announce)
         (fun _ => bind (redfish_get args tr lclog_path)
            (fun response => bind (response_json response)
               (fun data => bind (first data 0)
                  (fun count => bind (for_each number_list page count) post)))) w
       = post (Z.of_nat (length (kept sel (all_entries es0 ess)))) w4.
Proof.
  intros Hann Hfirst Hgo Hstop Hb Hpre Htr (data & Hbody & Hm & Hok0) Hpages Hfit Hlen Hsrv.
  pose proof (fresh_file_wp clock name announce w Hann) as H1. unfold wp in H1.
  destruct (fresh_file clock name announce w) as [r1 w1] eqn:E1.
  destruct H1 as [Hr1 (Hf1 & Hn1 & Hg1 & _)]. simpl in Hr1, Hf1, Hn1, Hg1. subst r1.
  rewrite (bind_Ret _ _ _ _ _ E1).
  assert (Hb1 : globals_bound (glob w1)) by (now rewrite Hg1).
  assert (Htr1 : forall req, tr (length (net w1)) req = resp0) by (now rewrite Hn1).
  destruct (fetch_json args tr lclog_path w1 resp0 data Hb1 Htr1 Hbody) as (req & _ & Heq).
  rewrite Heq.
  pose proof (Hfirst data es0 (file_head clock) 0 (set_net (net w1 ++ [req]) w1) Hm Hok0
                     ltac:(simpl; now rewrite Hg1) Hf1) as H3. unfold wp in H3.
  destruct (first data 0 (set_net (net w1 ++ [req]) w1)) as [r3 w3] eqn:E3.
  destruct H3 as [Hr3 (Hf3 & Hn3 & Hg3 & _)]. simpl in Hr3, Hf3, Hn3, Hg3. subst r3.
  rewrite (bind_Ret _ _ _ _ _ E3).
  assert (Hlen3 : length (net w3) = S (length (net w))).
  { rewrite Hn3, List.length_app, Hn1. simpl. lia. }
  assert (Hb3 : globals_bound (glob w3)) by (now rewrite Hg3; simpl; rewrite Hg1).
  assert (Hpre3 : pre (glob w3)) by (now rewrite Hg3; simpl; rewrite Hg1).
  assert (Hsrv3 : served tr (length (net w3)) resps stop) by (now rewrite Hlen3).
  destruct (finite_log_break page tr pre ok fit name _ _ stop Hgo Hstop
              resps ess number_list (0 + Z.of_nat (length (kept sel es0))) _ w3
              Hpages Hfit ltac:(now rewrite number_list_length) Hb3 Hpre3 Hsrv3 Hf3)
    as (Hr & Hfs & Hn).
  destruct (for_each number_list page (0 + Z.of_nat (length (kept sel es0))) w3)
    as [r4 w4] eqn:E4.
  simpl in Hr, Hfs, Hn. subst r4. rewrite (bind_Ret _ _ _ _ _ E4).
  exists w4. split; [|split].
  - rewrite concat_kept_pages in Hfs. unfold all_entries.
    now rewrite kept_app, List.map_app, concat_app, <- app_assoc_s.
  - rewrite Hn, Hlen3. lia.
  - f_equal. rewrite fold_kept_pages. unfold all_entries.
    rewrite kept_app, List.length_app. lia.
Qed.

Lemma a_page_empty : empty_page (a_page []).
Proof. split; [reflexivity|]. eexists. split; [reflexivity|]. now right. Qed.

(** X26. [get_LC_logs] on a log that ends with an empty page: the first
    answer is 200 with the entries [es0], the paged answers are 200 with
    the non-empty pages [ess] (fewer than 2000), then comes a 200 whose
    [Members] is empty or missing.  The loop is left by [break], the run
    returns after the closing message with the handle closed, one request
    sent for each answer, and [lc_logs.txt] holds the head and the lines of
    every entry, in the order of the log across the pages, each once. *)
Theorem full_dump_ends_on_empty_page (args : Args) (tr : nat -> request -> response)
        (clock : datetime) (w : world) (resp0 : response) (es0 : list json)
        (resps : list response) (ess : list (list json)) (stop : response) :
  globals_bound (glob w) ->
  (forall req, tr (length (net w)) req = resp0) ->
  status_code resp0 = 200 ->
  first_page is_dict resp0 es0 ->
  List.Forall2 (good_page is_dict) resps ess ->
  List.Forall (fun es => es <> []) ess ->
  (length resps < 2000)%nat ->
  served tr (S (length (net w))) resps stop ->
  empty_page stop ->
  fst (get_LC_logs args tr clock w) = Ret tt
  /\ fs (snd (get_LC_logs args tr clock w)) !! "lc_logs.txt"
     = Some (file_head clock
             +:+ PyStr.concat (List.map entry_lines (all_entries es0 ess)))
  /\ open_file (snd (get_LC_logs args tr clock w)) = None
  /\ length (net (snd (get_LC_logs args tr clock w)))
     = (length (net w) + length resps + 2)%nat.
Proof.
  intros Hb Htr H200 (data & Hbody & Hm & Hok0) Hpages Hfit Hlen Hsrv Hend.
  unfold get_LC_logs.
  pose proof (fresh_file_wp clock "lc_logs.txt" (ret tt) w ret_announces) as H1.
  unfold wp in H1.
  destruct (fresh_file clock "lc_logs.txt" (ret tt) w) as [r1 w1] eqn:E1.
  destruct H1 as [Hr1 (Hf1 & Hn1 & Hg1 & _)]. simpl in Hr1, Hf1, Hn1, Hg1. subst r1.
  rewrite (bind_Ret _ _ _ _ _ E1).
  assert (Hb1 : globals_bound (glob w1)) by (now rewrite Hg1).
  assert (Htr1 : forall req, tr (length (net w1)) req = resp0) by (now rewrite Hn1).
  destruct (fetch_json args tr lclog_path w1 resp0 data Hb1 Htr1 Hbody) as (req & _ & Heq).
  rewrite (Heq _ (fun response data =>
                    if negb (status_code response =? 200) then _ else _)).
  rewrite H200. cbn [Z.eqb Pos.eqb negb].
  pose proof (dump_page_fold data es0 "lc_logs.txt" (file_head clock)
                (set_net (net w1 ++ [req]) w1) Hm Hok0 Hf1) as H3. unfold wp in H3.
  destruct (dump_page data (set_net (net w1 ++ [req]) w1)) as [r3 w3] eqn:E3.
  destruct H3 as [[u Hr3] (Hf3 & Hn3 & Hg3 & _)]. simpl in Hr3, Hf3, Hn3, Hg3. subst r3.
  rewrite (bind_Ret _ _ _ _ _ E3).
  assert (Hlen3 : length (net w3) = S (length (net w))).
  { rewrite Hn3, List.length_app, Hn1. simpl. lia. }
  assert (Hb3 : globals_bound (glob w3)) by (now rewrite Hg3; simpl; rewrite Hg1).
  assert (Hsrv3 : served tr (length (net w3)) resps stop) by (now rewrite Hlen3).
  destruct (finite_log_break (get_LC_logs_page args tr) tr (fun _ => True) is_dict
              (fun es => es <> []) "lc_logs.txt" _ _ stop
              (dump_page_goes_on args tr) (proj1 (empty_pages_break args tr stop Hend))
              resps ess number_list tt _ w3
              Hpages Hfit ltac:(now rewrite number_list_length) Hb3 I Hsrv3 Hf3)
    as (Hr & [_ Hfs] & Hn).
  destruct (for_each number_list (get_LC_logs_page args tr) tt w3) as [r4 w4] eqn:E4.
  simpl in Hr, Hfs, Hn. subst r4. rewrite (bind_Ret _ _ _ _ _ E4).
  cbn. split; [reflexivity|]. split; [|split; [reflexivity|]].
  - rewrite Hfs, concat_pages. unfold all_entries.
    now rewrite List.map_app, concat_app, app_assoc_s.
  - rewrite Hn, Hlen3. lia.
Qed.

Lemma full_dump_ends_on_empty_page_witness :
  fst (get_LC_logs (with_get_all base_args) small_log_then_empty a_clock (entered true))
  = Ret tt
  /\ fs (snd (get_LC_logs (with_get_all base_args) small_log_then_empty a_clock
                          (entered true))) !! "lc_logs.txt"
     = Some (file_head a_clock
             +:+ PyStr.concat (List.map entry_lines
                                        (all_entries [entry1; entry2] [[entry3]])))
  /\ open_file (snd (get_LC_logs (with_get_all base_args) small_log_then_empty a_clock
                                 (entered true))) = None
  /\ length (net (snd (get_LC_logs (with_get_all base_args) small_log_then_empty a_clock
                                   (entered true))))
     = (length (net (entered true)) + length [a_page [entry3]] + 2)%nat.
Proof.
  destruct (small_log_pages is_dict (a_page [])
              (an_entry_dict _ _ _ _) (an_entry_dict _ _ _ _) (an_entry_dict _ _ _ _))
    as (H0 & Hp & Hfit & Hsrv).
  exact (full_dump_ends_on_empty_page (with_get_all base_args) small_log_then_empty a_clock
           (entered true) _ _ _ _ _ (entered_bound true) (fun _ => eq_refl) eq_refl H0 Hp Hfit
           ltac:(simpl; lia) Hsrv a_page_empty).
Defined.

(** X27. [get_LC_log_failures] on a log that ends with an empty page
    (a 200 whose [Members] is empty or missing, after fewer than 2000
    non-empty pages): one request for each answer; when no entry of the
    log has one of the words the run reports it, removes the file and
    leaves by [sys.exit(0)]; otherwise it returns and the file holds the
    head and the lines of the entries kept, in the order of the log, each
    once. *)
Theorem fail_scan_ends_on_empty_page (args : Args) (tr : nat -> request -> response)
        (clock : datetime) (w : world) (resp0 : response) (es0 : list json)
        (resps : list response) (ess : list (list json)) (stop : response) :
  globals_bound (glob w) ->
  (forall req, tr (length (net w)) req = resp0) ->
  first_page (fun i => keys_unique i /\ field_is_str "Message" i) resp0 es0 ->
  List.Forall2 (good_page (fun i => keys_unique i /\ field_is_str "Message" i)) resps ess ->
  List.Forall (fun es => es <> []) ess ->
  (length resps < 2000)%nat ->
  served tr (S (length (net w))) resps stop ->
  empty_page stop ->
  fst (get_LC_log_failures args tr clock w)
  = (if Z.of_nat (length (kept is_failure (all_entries es0 ess))) =? 0
     then Exit 0 else Ret tt)
  /\ fs (snd (get_LC_log_failures args tr clock w)) !! "lc_log_failures.txt"
     = scan_file (Z.of_nat (length (kept is_failure (all_entries es0 ess))))
                 (file_head clock
                  +:+ PyStr.concat (List.map entry_lines (kept is_failure (all_entries es0 ess))))
  /\ length (net (snd (get_LC_log_failures args tr clock w)))
     = (length (net w) + length resps + 2)%nat.
Proof.
  intros Hb Htr H0 Hpages Hfit Hlen Hsrv Hend.
  unfold get_LC_log_failures.
  lazymatch goal with
  | |- context [fresh_file clock _ ?ann] => set (announce := ann)
  end.
  destruct (finite_log_scan_break "lc_log_failures.txt" clock announce args tr fail_page
              (get_LC_log_failures_page args tr)
              (fun count => if count =? 0
                            then nothing_found "- WARNING, no failed entries detected in LC logs"
                                               "lc_log_failures.txt"
                            else bind (logging INFO (captured "Lifecycle log entries"
                                                       "lc_log_failures.txt" " file"))
                                      (fun _ => close))
              is_failure entry_lines
              (fun i => keys_unique i /\ field_is_str "Message" i) (fun es => es <> [])
              (fun _ => True) w resp0 es0 resps ess stop) as (w4 & Hf4 & Hn4 & ->); auto.
  - intros w0. apply logging_announces.
  - intros data es content count w0 Hm Hok _ Hf.
    eapply wp_mono; [apply (fail_page_fold data es _ content count w0 Hm Hok Hf)|].
    intros r w' [-> H]. rewrite fold_count, concat_kept in *. auto.
  - apply fail_page_goes_on.
  - apply (empty_pages_break args tr stop Hend).
  - destruct (scan_post_ends "lc_log_failures.txt"
                "- WARNING, no failed entries detected in LC logs"
                (captured "Lifecycle log entries" "lc_log_failures.txt" " file") _
                (Z.of_nat (length (kept is_failure (all_entries es0 ess)))) w4 Hf4)
      as (H1 & H2 & H3).
    cbv zeta in H1, H2, H3. split; [exact H1|]. split; [exact H2|]. now rewrite H3.
Qed.

Lemma fail_scan_ends_on_empty_page_witness :
  fst (get_LC_log_failures base_args small_log_then_empty a_clock (entered true))
  = (if Z.of_nat (length (kept is_failure (all_entries [entry1; entry2] [[entry3]]))) =? 0
     then Exit 0 else Ret tt)
  /\ fs (snd (get_LC_log_failures base_args small_log_then_empty a_clock (entered true)))
       !! "lc_log_failures.txt"
     = scan_file (Z.of_nat (length (kept is_failure
                                         (all_entries [entry1; entry2] [[entry3]]))))
                 (file_head a_clock
                  +:+ PyStr.concat (List.map entry_lines
                                             (kept is_failure
                                                   (all_entries [entry1; entry2] [[entry3]]))))
  /\ length (net (snd (get_LC_log_failures base_args small_log_then_empty a_clock
                                           (entered true))))
     = (length (net (entered true)) + length [a_page [entry3]] + 2)%nat.
Proof.
  destruct (small_log_pages (fun i => keys_unique i /\ field_is_str "Message" i) (a_page [])
              (an_entry_message _ _ _ _) (an_entry_message _ _ _ _) (an_entry_message _ _ _ _))
    as (H0 & Hp & Hfit & Hsrv).
  exact (fail_scan_ends_on_empty_page base_args small_log_then_empty a_clock (entered true)
           _ _ _ _ _ (entered_bound true) (fun _ => eq_refl) H0 Hp Hfit ltac:(simpl; lia) Hsrv
           a_page_empty).
Defined.

(** X28. [get_message_id] on a log that ends with an empty page, after
    the version was bound to [ver] and with [--get-message-id ids]: one
    request for each answer; when no entry matched, the file is removed and
    the run leaves by [sys.exit(0)]; otherwise it returns and the file
    holds the head and the lines of the entries whose message id (its last
    item on a "new" iDRAC) is in [ids], in the order of the log, each
    once. *)
Theorem message_id_scan_ends_on_empty_page (args : Args) (tr : nat -> request -> response)
        (clock : datetime) (ver ids : string) (w : world) (resp0 : response)
        (es0 : list json) (resps : list response) (ess : list (list json))
        (stop : response) :
  a_get_message_id args = Some ids ->
  iDRAC_version (glob w) = Some ver ->
  globals_bound (glob w) ->
  (forall req, tr (length (net w)) req = resp0) ->
  first_page (fun i => keys_unique i /\ field_is_str "MessageId" i) resp0 es0 ->
  List.Forall2 (good_page (fun i => keys_unique i /\ field_is_str "MessageId" i)) resps ess ->
  List.Forall (fun es => es <> []) ess ->
  (length resps < 2000)%nat ->
  served tr (S (length (net w))) resps stop ->
  empty_page stop ->
  fst (get_message_id args tr clock w)
  = (if Z.of_nat (length (kept (has_message_id ver ids) (all_entries es0 ess))) =? 0
     then Exit 0 else Ret tt)
  /\ fs (snd (get_message_id args tr clock w)) !! "message_id_entries.txt"
     = scan_file (Z.of_nat (length (kept (has_message_id ver ids) (all_entries es0 ess))))
                 (file_head clock
                  +:+ PyStr.concat (List.map entry_lines
                                             (kept (has_message_id ver ids)
                                                   (all_entries es0 ess))))
  /\ length (net (snd (get_message_id args tr clock w)))
     = (length (net w) + length resps + 2)%nat.
Proof.
  intros Hids Hver Hb Htr H0 Hpages Hfit Hlen Hsrv Hend.
  unfold get_message_id.
  lazymatch goal with
  | |- context [fresh_file clock _ ?ann] => set (announce := ann)
  end.
  destruct (finite_log_scan_break "message_id_entries.txt" clock announce args tr
              (message_id_page args) (get_message_id_page args tr)
              (fun count => if count =? 0
                            then nothing_found "- WARNING, no failed entries detected in LC logs"
                                               "message_id_entries.txt"
                            else bind (logging INFO (captured "Lifecycle log entries"
                                                       "message_id_entries.txt" " file"))
                                      (fun _ => close))
              (has_message_id ver ids) entry_lines
              (fun i => keys_unique i /\ field_is_str "MessageId" i) (fun es => es <> [])
              (fun g => iDRAC_version g = Some ver) w resp0 es0 resps ess stop)
    as (w4 & Hf4 & Hn4 & ->); auto.
  - intros w0. apply logging_announces.
  - intros data es content count w0 Hm Hok Hv Hf.
    eapply wp_mono;
      [apply (message_id_page_fold args ver ids data es _ content count w0 Hv Hids Hm Hok Hf)|].
    intros r w' [-> H]. rewrite fold_count, concat_kept in *. auto.
  - apply message_id_page_goes_on, Hids.
  - apply (empty_pages_break args tr stop Hend).
  - destruct (scan_post_ends "message_id_entries.txt"
                "- WARNING, no failed entries detected in LC logs"
                (captured "Lifecycle log entries" "message_id_entries.txt" " file") _
                (Z.of_nat (length (kept (has_message_id ver ids) (all_entries es0 ess))))
                w4 Hf4)
      as (H1 & H2 & H3).
    cbv zeta in H1, H2, H3. split; [exact H1|]. split; [exact H2|]. now rewrite H3.
Qed.

Lemma message_id_scan_ends_on_empty_page_witness :
  fst (get_message_id (with_message_id "PSU0001" base_args) small_log_then_empty a_clock
                      (entered false))
  = (if Z.of_nat (length (kept (has_message_id "old" "PSU0001")
                               (all_entries [entry1; entry2] [[entry3]]))) =? 0
     then Exit 0 else Ret tt)
  /\ fs (snd (get_message_id (with_message_id "PSU0001" base_args) small_log_then_empty
                             a_clock (entered false))) !! "message_id_entries.txt"
     = scan_file (Z.of_nat (length (kept (has_message_id "old" "PSU0001")
                                         (all_entries [entry1; entry2] [[entry3]]))))
                 (file_head a_clock
                  +:+ PyStr.concat (List.map entry_lines
                                             (kept (has_message_id "old" "PSU0001")
                                                   (all_entries [entry1; entry2] [[entry3]]))))
  /\ length (net (snd (get_message_id (with_message_id "PSU0001" base_args)
                                      small_log_then_empty a_clock (entered false))))
     = (length (net (entered false)) + length [a_page [entry3]] + 2)%nat.
Proof.
  destruct (small_log_pages (fun i => keys_unique i /\ field_is_str "MessageId" i) (a_page [])
              (an_entry_message_id _ _ _ _) (an_entry_message_id _ _ _ _)
              (an_entry_message_id _ _ _ _))
    as (H0 & Hp & Hfit & Hsrv).
  exact (message_id_scan_ends_on_empty_page (with_message_id "PSU0001" base_args)
           small_log_then_empty a_clock "old" "PSU0001" (entered false) _ _ _ _ _
           eq_refl eq_refl (entered_bound false) (fun _ => eq_refl) H0 Hp Hfit
           ltac:(simpl; lia) Hsrv a_page_empty).
Defined.

(** ** A whole run *)


Lemma firmware_number_reads data s n w :
  str_field "FirmwareVersion" data = Some s ->
  PyStr.to_int (PyStr.remove_char "." s) = Some n ->
  firmware_number data w = (Ret n, w).
Proof.
  intros Hfw Hn. unfold firmware_number, str_field in *.
  destruct data as [| | | | |fields]; try discriminate.
  unfold bind, getitem, of_option.
  destruct (assoc "FirmwareVersion" fields) as [[| | |s0| |]|]; try discriminate.
  injection Hfw as ->. simpl. now rewrite Hn.
Qed.




(** ** The first answer of a scan *)

Lemma first_answer_raises {B} (name : string) clock announce args tr
      (first : json -> Z -> M Z) (rest : Z -> M B) (w : world) (resp : response)
      (data : json) :
  (forall w0, exists c, announce w0 = (Ret tt, set_console c w0)) ->
  globals_bound (glob w) ->
  (forall req, tr (length (net w)) req = resp) ->
  body resp = Some data ->
  (forall w', first data 0 w' = (Raise KeyError, w')) ->
  let run := bind (fresh_file clock name announce)
               (fun _ => bind (redfish_get args tr lclog_path)
                  (fun response => bind (response_json response)
                     (fun data => bind (first data 0) rest))) w in
  fst run = Raise KeyError
  /\ fs (snd run) !! name = Some (file_head clock)
  /\ length (net (snd run)) = S (length (net w)).
Proof.
  intros Hann Hb Htr Hbody Hfirst run. subst run.
  pose proof (fresh_file_wp clock name announce w Hann) as H1. unfold wp in H1.
  destruct (fresh_file clock name announce w) as [r1 w1] eqn:E1.
  destruct H1 as [Hr1 ([_ Hf1] & Hn1 & Hg1 & _)]. simpl in Hr1, Hf1, Hn1, Hg1. subst r1.
  rewrite (bind_Ret _ _ _ _ _ E1).
  assert (Hb1 : globals_bound (glob w1)) by (now rewrite Hg1).
  assert (Htr1 : forall req, tr (length (net w1)) req = resp) by (now rewrite Hn1).
  destruct (fetch_json args tr lclog_path w1 resp data Hb1 Htr1 Hbody) as (req & _ & Heq).
  rewrite Heq, (bind_Raise _ _ _ _ _ (Hfirst _)). simpl.
  split; [reflexivity|]. split; [exact Hf1|].
  rewrite List.length_app, Hn1. simpl. lia.
Qed.

(** X30. The three scans never look at the status of their first
    answer (the full dump does): when its body is a dict without
    [Members], as an error body is, whatever the status, the run ends in an
    uncaught KeyError after that one request, and the output file, just
    created, is left behind with its head only. *)
Theorem scan_first_answer_unchecked (args : Args) (tr : nat -> request -> response)
        (clock : datetime) (w : world) (resp : response) (fields : list (string * json)) :
  globals_bound (glob w) ->
  (forall req, tr (length (net w)) req = resp) ->
  body resp = Some (JObj fields) ->
  assoc "Members" fields = None ->
  (fst (get_LC_log_failures args tr clock w) = Raise KeyError
   /\ fs (snd (get_LC_log_failures args tr clock w)) !! "lc_log_failures.txt"
      = Some (file_head clock)
   /\ length (net (snd (get_LC_log_failures args tr clock w))) = S (length (net w)))
  /\ (fst (get_message_id args tr clock w) = Raise KeyError
      /\ fs (snd (get_message_id args tr clock w)) !! "message_id_entries.txt"
         = Some (file_head clock)
      /\ length (net (snd (get_message_id args tr clock w))) = S (length (net w)))
  /\ (forall arg, a_get_category args = Some arg ->
                  existsb (String.eqb (PyStr.lower arg)) categories = true ->
                  fst (get_category_entries args tr clock w) = Raise KeyError
                  /\ fs (snd (get_category_entries args tr clock w)) !! "category_entries.txt"
                     = Some (file_head clock)
                  /\ length (net (snd (get_category_entries args tr clock w)))
                     = S (length (net w))).
Proof.
  intros Hb Htr Hbody Hmem.
  assert (Hget : forall w', getitem (JObj fields) "Members" w' = (Raise KeyError, w'))
    by (intros w'; unfold getitem; now rewrite Hmem).
  split; [|split].
  - unfold get_LC_log_failures.
    apply (first_answer_raises "lc_log_failures.txt" clock _ args tr fail_page _ w resp
             (JObj fields)); auto.
    + intros w0. apply logging_announces.
    + intros w'. unfold fail_page. now rewrite (bind_Raise _ _ _ _ _ (Hget w')).
  - unfold get_message_id.
    apply (first_answer_raises "message_id_entries.txt" clock _ args tr (message_id_page args)
             _ w resp (JObj fields)); auto.
    + intros w0. apply logging_announces.
    + intros w'. unfold message_id_page. now rewrite (bind_Raise _ _ _ _ _ (Hget w')).
  - intros arg Harg Hvalid. unfold get_category_entries.
    assert (E : arg_lower (a_get_category args) w = (Ret (PyStr.lower arg), w))
      by (now rewrite Harg).
    rewrite (bind_Ret _ _ _ _ _ E), Hvalid. cbn [negb].
    apply (first_answer_raises "category_entries.txt" clock _ args tr (category_page args)
             _ w resp (JObj fields)); auto.
    + intros w0. apply logging_announces.
    + intros w'. unfold category_page. now rewrite (bind_Raise _ _ _ _ _ (Hget w')).
Qed.

Lemma scan_first_answer_unchecked_witness :
  fst (get_LC_log_failures base_args (answers [] (an_error 401 "Unauthorized")) a_clock
                           (entered true)) = Raise KeyError
  /\ fs (snd (get_LC_log_failures base_args (answers [] (an_error 401 "Unauthorized")) a_clock
                                  (entered true))) !! "lc_log_failures.txt"
     = Some (file_head a_clock).
Proof.
  destruct (scan_first_answer_unchecked base_args (answers [] (an_error 401 "Unauthorized"))
              a_clock (entered true) (an_error 401 "Unauthorized") _
              (entered_bound true) (fun _ => eq_refl) eq_refl eq_refl)
    as ((H1 & H2 & _) & _).
  split; [exact H1 | exact H2].
Defined.

(** ** The claims that need a whole run *)

(** The probe on a 200: the request it sent. *)
Lemma probe_request args tr w resp data :
  globals_bound (glob w) ->
  (forall req, tr (length (net w)) req = resp) ->
  status_code resp = 200 -> body resp = Some data ->
  exists req,
    url req = https (host (glob w)) lclog_path
    /\ verify_cert (glob w) = Some (verify req)
    /\ check_supported_idrac_version args tr w = (Ret tt, set_net (net w ++ [req]) w).
Proof.
  intros Hb Htr Hst Hbody.
  destruct (redfish_get_bound args tr lclog_path w Hb) as (req & Hget & Hurl & Hver).
  exists req. split; [exact Hurl|]. split; [exact Hver|].
  unfold check_supported_idrac_version. rewrite (bind_Ret _ _ _ _ _ Hget), Htr.
  unfold response_json. rewrite Hbody.
  erewrite bind_Ret by reflexivity. now rewrite Hst.
Qed.

(** The detection of the version on a 200: the request it sent. *)
Lemma version_request args tr w resp data s n v :
  globals_bound (glob w) ->
  verify_cert (glob w) = Some v ->
  (forall req, tr (length (net w)) req = resp) ->
  status_code resp = 200 -> body resp = Some data ->
  str_field "FirmwareVersion" data = Some s ->
  PyStr.to_int (PyStr.remove_char "." s) = Some n ->
  exists req,
    url req = https (host (glob w)) version_path
    /\ verify req = (if truthy (a_x args) then v else false)
    /\ get_iDRAC_version args tr w
       = (Ret tt,
          set_glob (set_iDRAC_version (if 6000000 <=? n then "new" else "old") (glob w))
                   (set_net (net w ++ [req]) w)).
Proof.
  intros ([ip Hip] & [u Hu] & [p Hp] & _) Hv Htr Hst Hbody Hfw Hn.
  unfold get_iDRAC_version, host. rewrite Hip.
  destruct (truthy (a_x args)).
  - exists {| url := https ip version_path; verify := v;
              auth := XAuthToken (str_of_arg (a_x args)) |}.
    split; [reflexivity|]. split; [reflexivity|].
    erewrite bind_Ret
      by (unfold bind, read_global, requests_get; rewrite Hip; simpl; rewrite Hv; reflexivity).
    rewrite Htr. unfold response_json. rewrite Hbody.
    erewrite bind_Ret by reflexivity.
    rewrite Hst. cbn [Z.eqb Pos.eqb negb].
    rewrite (bind_Ret _ _ _ _ _ (firmware_number_reads data s n _ Hfw Hn)).
    destruct (6000000 <=? n); reflexivity.
  - exists {| url := https ip version_path; verify := false; auth := BasicAuth u p |}.
    split; [reflexivity|]. split; [reflexivity|].
    erewrite bind_Ret
      by (unfold bind, read_global, requests_get; rewrite Hip; simpl; rewrite Hu; simpl;
          rewrite Hp; reflexivity).
    rewrite Htr. unfold response_json. rewrite Hbody.
    erewrite bind_Ret by reflexivity.
    rewrite Hst. cbn [Z.eqb Pos.eqb negb].
    rewrite (bind_Ret _ _ _ _ _ (firmware_number_reads data s n _ Hfw Hn)).
    destruct (6000000 <=? n); reflexivity.
Qed.

(** A run up to the choice of the mode, with [-p] on the command line and
    the probe and the firmware both answered by 200: two requests are out
    when the mode is entered, the probe with the flag of [--ssl] and the
    fetch of the version, and nothing was printed or written. *)
Lemma run_reaches_the_mode (args : Args) (tr : nat -> request -> response)
      (clock : datetime) (pw s : string) (n : Z) (w : world) (probe version : response)
      (anything vdata : json) :
  a_script_examples args = false ->
  truthy (a_p args) = true ->
  (forall req, tr (length (net w)) req = probe) ->
  status_code probe = 200 -> body probe = Some anything ->
  (forall req, tr (S (length (net w))) req = version) ->
  status_code version = 200 -> body version = Some vdata ->
  str_field "FirmwareVersion" vdata = Some s ->
  PyStr.to_int (PyStr.remove_char "." s) = Some n ->
  exists req0 req1 w4,
    url req0 = https (a_ip args) lclog_path
    /\ verify req0 = verify_cert_of (a_ssl args)
    /\ url req1 = https (a_ip args) version_path
    /\ verify req1 = (if truthy (a_x args) then verify_cert_of (a_ssl args) else false)
    /\ net w4 = net w ++ [req0; req1]
    /\ fs w4 = fs w /\ open_file w4 = open_file w /\ console w4 = console w
    /\ globals_bound (glob w4)
    /\ verify_cert (glob w4) = Some (verify_cert_of (a_ssl args))
    /\ iDRAC_version (glob w4) = Some (if 6000000 <=? n then "new" else "old")
    /\ main args tr clock pw w
       = (if a_get_fail args then get_LC_log_failures args tr clock
          else if (a_get_date_range args && truthy (a_start_date args)
                   && truthy (a_end_date args))%bool then get_date_range args tr
          else if truthy (a_get_severity args) then get_specific_severity_logs args tr
          else if a_get_all args then get_LC_logs args tr clock
          else if truthy (a_get_message_id args) then get_message_id args tr clock
          else if truthy (a_get_category args) then get_category_entries args tr clock
          else logging ERROR invalid_arguments) w4.
Proof.
  intros Hex Hp Htr0 Hst0 Hbody0 Htr1 Hst1 Hbody1 Hfw Hn.
  assert (Hw2 : exists w2, w2 = with_credentials args pw w
                           /\ net w2 = net w /\ fs w2 = fs w /\ open_file w2 = open_file w
                           /\ console w2 = console w
                           /\ verify_cert (glob w2) = Some (verify_cert_of (a_ssl args))
                           /\ host (glob w2) = a_ip args
                           /\ globals_bound (glob w2)).
  { exists (with_credentials args pw w). unfold with_credentials, host. rewrite Hp. cbn [negb andb].
    repeat split; try reflexivity; eexists; reflexivity. }
  destruct Hw2 as (w2 & Ew2 & Hn2 & Hfs2 & Ho2 & Hc2 & Hv2 & Hh2 & Hb2).
  destruct (probe_request args tr w2 probe anything Hb2 ltac:(now rewrite Hn2) Hst0 Hbody0)
    as (req0 & Hurl0 & Hver0 & Eprobe).
  set (w3 := set_net (net w2 ++ [req0]) w2) in Eprobe.
  assert (Hn3 : length (net w3) = S (length (net w))).
  { unfold w3. simpl. rewrite List.length_app, Hn2. simpl. lia. }
  destruct (version_request args tr w3 version vdata s n _ Hb2 Hv2 ltac:(now rewrite Hn3)
              Hst1 Hbody1 Hfw Hn) as (req1 & Hurl1 & Hver1 & Eversion).
  exists req0, req1. eexists.
  split; [now rewrite Hurl0, Hh2|].
  split; [rewrite Hv2 in Hver0; congruence|].
  split; [rewrite Hurl1; unfold w3; simpl; now rewrite Hh2|].
  split; [exact Hver1|].
  assert (Hcond : ((truthy (a_ip args) && truthy (a_ssl args)) || truthy (a_u args)
                   || truthy (a_p args) || truthy (a_x args))%bool = true)
    by (rewrite Hp; now rewrite Bool.orb_true_r).
  repeat (split; [shelve|]).
  unfold main. rewrite Hex, Hcond.
  rewrite (bind_Ret (ret tt) _ w tt w eq_refl).
  erewrite bind_Ret
    by (rewrite credentials_bound, <- Ew2, (bind_Ret _ _ _ _ _ Eprobe); exact Eversion).
  reflexivity.
  Unshelve.
  - simpl. now rewrite Hn2, <- List.app_assoc.
  - simpl. exact Hfs2.
  - simpl. exact Ho2.
  - simpl. exact Hc2.
  - exact Hb2.
  - exact Hv2.
  - reflexivity.
Qed.




(** C9. The flag [verify] of a run with a user name and a password and
    [--ssl true]: the probe goes out with [verify=True], as the toggle
    says, and the fetch of the firmware version right after it with
    [verify=False], which [get_iDRAC_version] writes in its text for this
    branch; its branch for an X-Auth token passes [verify_cert] as every
    other request does. *)
Theorem version_fetch_ignores_the_toggle (args : Args) (tr : nat -> request -> response)
        (clock : datetime) (pw s : string) (n : Z) (w : world) (probe version : response)
        (anything vdata : json) :
  a_script_examples args = false ->
  truthy (a_p args) = true -> truthy (a_x args) = false ->
  verify_cert_of (a_ssl args) = true ->
  (forall req, tr (length (net w)) req = probe) ->
  status_code probe = 200 -> body probe = Some anything ->
  (forall req, tr (S (length (net w))) req = version) ->
  status_code version = 200 -> body version = Some vdata ->
  str_field "FirmwareVersion" vdata = Some s ->
  PyStr.to_int (PyStr.remove_char "." s) = Some n ->
  exists req0 req1 later,
    net (snd (main args tr clock pw w)) = net w ++ req0 :: req1 :: later
    /\ url req0 = https (a_ip args) lclog_path /\ verify req0 = true
    /\ url req1 = https (a_ip args) version_path /\ verify req1 = false.
Proof.
  intros Hex Hp Hx Hssl Htr0 Hst0 Hbody0 Htr1 Hst1 Hbody1 Hfw Hn.
  destruct (run_reaches_the_mode args tr clock pw s n w probe version anything vdata
              Hex Hp Htr0 Hst0 Hbody0 Htr1 Hst1 Hbody1 Hfw Hn)
    as (req0 & req1 & w4 & Hu0 & Hv0 & Hu1 & Hv1 & Hn4 & _ & _ & _ & _ & Hv4 & _ & Emain).
  destruct (modes_flag args tr clock _ w4 Hv4) as (_ & later & Hnet & Hall).
  exists req0, req1, later. rewrite Emain, Hnet, Hn4, <- List.app_assoc.
  split; [reflexivity|]. rewrite Hx in Hv1. rewrite Hssl in Hv0.
  split; [exact Hu0|]. split; [exact Hv0|]. split; [exact Hu1 | exact Hv1].
Qed.

(** A run of C9: [-u root -p calvin --ssl true --get-severity critical]. *)
Lemma version_fetch_ignores_the_toggle_witness :
  verify_cert_of (a_ssl (with_severity "critical" (with_ssl "true" base_args))) = true
  /\ exists req0 req1 later,
       net (snd (main (with_severity "critical" (with_ssl "true" base_args))
                      (whole_run "7.00.00.00") a_clock "calvin" start))
       = net start ++ req0 :: req1 :: later
       /\ verify req0 = true /\ verify req1 = false.
Proof.
  split; [reflexivity|].
  destruct (version_fetch_ignores_the_toggle
              (with_severity "critical" (with_ssl "true" base_args))
              (whole_run "7.00.00.00") a_clock "calvin" "7.00.00.00" 7000000 start
              (a_page []) (a_firmware "7.00.00.00") (JObj [("Members", JArr [])])
              (JObj [("FirmwareVersion", JStr "7.00.00.00")])
              eq_refl eq_refl eq_refl eq_refl (fun _ => eq_refl) eq_refl eq_refl
              (fun _ => eq_refl) eq_refl eq_refl eq_refl eq_refl)
    as (req0 & req1 & later & Hnet & _ & Hv0 & _ & Hv1).
  exists req0, req1, later. split; [exact Hnet|]. split; [exact Hv0 | exact Hv1].
Defined.




(** C2. A paged fetch answered by a status other than 200 and 500 whose
    error text has "internal error" and not the text on [$skip]: the three
    scans take it for the end of the log (handle closed, [sys.exit(0)],
    the file removed exactly when nothing matched), but the full dump,
    which tests the text on [$skip] only, reports a failure with the status
    code and the body and leaves with the handle still open. *)
Theorem internal_error_ends_scans_not_the_dump (args : Args)
        (tr : nat -> request -> response) (seq count : Z) (w : world)
        (resp : response) (data : json) (m : string) :
  globals_bound (glob w) ->
  (forall req, tr (length (net w)) req = resp) ->
  status_code resp <> 200 ->
  status_code resp <> 500 ->
  body resp = Some data ->
  error_text data = Some m ->
  PyStr.contains internal_error m = true ->
  PyStr.contains skip_out_of_range m = false ->
  fatal_stop resp data w (get_LC_logs_page args tr seq tt w)
  /\ ends_scan "lc_log_failures.txt" count w (get_LC_log_failures_page args tr seq count w)
  /\ ends_scan "message_id_entries.txt" count w (get_message_id_page args tr seq count w)
  /\ ends_scan "category_entries.txt" count w (get_category_entries_page args tr seq count w).
Proof.
  intros Hb Htr H200 H500 Hbody Hm Hint Hskip. split.
  - destruct (fetch_json args tr (skip_path seq) w resp data Hb Htr Hbody) as (req & _ & Heq).
    unfold get_LC_logs_page. rewrite Heq.
    destruct (Z.eqb_spec (status_code resp) 500) as [|_]; [contradiction|].
    destruct (Z.eqb_spec (status_code resp) 200) as [|_]; [contradiction|].
    cbn [negb].
    rewrite (bind_Ret _ _ _ _ _ (error_message_text data m _ Hm)).
    unfold py_in at 1. erewrite bind_Ret by reflexivity. fold skip_out_of_range.
    rewrite Hskip. split; [reflexivity|]. split; [reflexivity|]. split; [reflexivity|].
    exists (console w). reflexivity.
  - apply (scan_pages_end args tr seq count w resp data m Hb Htr H200 H500 Hbody Hm).
    rewrite Hint. apply Bool.orb_true_r.
Qed.

(** A run of C2: the answer 400 "... internal error." to a paged fetch of
    the full dump. *)
Lemma internal_error_ends_scans_not_the_dump_witness :
  PyStr.contains internal_error
    "Unable to complete the operation because of an internal error." = true
  /\ fatal_stop failed_inside
       (JObj [("error",
               JObj [("@Message.ExtendedInfo",
                      JArr [JObj [("Message",
                                   JStr "Unable to complete the operation because of an internal error.")]])])])
       (writing true "lc_logs.txt" "head")
       (get_LC_logs_page base_args (answers [] failed_inside) 50 tt
                         (writing true "lc_logs.txt" "head")).
Proof.
  split; [reflexivity|].
  apply (internal_error_ends_scans_not_the_dump base_args (answers [] failed_inside) 50 0
           (writing true "lc_logs.txt" "head") failed_inside _
           "Unable to complete the operation because of an internal error.").
  - repeat split; eexists; reflexivity.
  - intros req. reflexivity.
  - discriminate.
  - discriminate.
  - reflexivity.
  - reflexivity.
  - reflexivity.
  - reflexivity.
Defined.

(** A scan over a log of finitely many pages whose last answer stops the
    run, whatever the page does with the file on that answer. *)
Lemma finite_log_stopped {B} (name : string) clock announce args tr
      (first : json -> Z -> M Z) (page : Z -> Z -> M (ctl * Z)) (post : Z -> M B)
      (sel : json -> bool) (render : json -> string) (ok : json -> Prop)
      (fit : list json -> Prop) (pre : globals -> Prop)
      (final : Z -> string -> option string)
      (w : world) (resp0 : response) (es0 : list json) (resps : list response)
      (ess : list (list json)) (stop : response) :
  (forall w0, exists c, announce w0 = (Ret tt, set_console c w0)) ->
  (forall data es content count w0,
      members_are data es -> List.Forall ok es -> pre (glob w0) -> file_is name content w0 ->
      wp (first data count)
         (fun r w' => r = Ret (count + Z.of_nat (length (kept sel es)))
                      /\ wrote name (content +:+ PyStr.concat (List.map render (kept sel es)))
                               w0 w') w0) ->
  page_goes_on page tr pre ok fit name
               (fun es c => c + Z.of_nat (length (kept sel es)))
               (fun es => PyStr.concat (List.map render (kept sel es))) ->
  page_stops page tr stop name final ->
  globals_bound (glob w) -> pre (glob w) ->
  (forall req, tr (length (net w)) req = resp0) ->
  first_page ok resp0 es0 ->
  List.Forall2 (good_page ok) resps ess -> List.Forall fit ess ->
  (length resps < 2000)%nat ->
  served tr (S (length (net w))) resps stop ->
  let run := bind (fresh_file clock name announce)
               (fun _ => bind (redfish_get args tr lclog_path)
                  (fun response => bind (response_json response)
                     (fun data => bind (first data 0)
                        (fun count => bind (for_each number_list page count) post)))) w in
  fst run = Exit 0
  /\ fs (snd run) !! name
     = final (Z.of_nat (length (kept sel (all_entries es0 ess))))
             (file_head clock +:+ PyStr.concat (List.map render (kept sel (all_entries es0 ess))))
  /\ length (net (snd run)) = (length (net w) + length resps + 2)%nat.
Proof.
  intros Hann Hfirst Hgo Hstop Hb Hpre Htr (data & Hbody & Hm & Hok0) Hpages Hfit Hlen Hsrv run.
  subst run.
  pose proof (fresh_file_wp clock name announce w Hann) as H1. unfold wp in H1.
  destruct (fresh_file clock name announce w) as [r1 w1] eqn:E1.
  destruct H1 as [Hr1 (Hf1 & Hn1 & Hg1 & _)]. simpl in Hr1, Hf1, Hn1, Hg1. subst r1.
  rewrite (bind_Ret _ _ _ _ _ E1).
  assert (Hb1 : globals_bound (glob w1)) by (now rewrite Hg1).
  assert (Htr1 : forall req, tr (length (net w1)) req = resp0) by (now rewrite Hn1).
  destruct (fetch_json args tr lclog_path w1 resp0 data Hb1 Htr1 Hbody) as (req & _ & Heq).
  rewrite Heq.
  pose proof (Hfirst data es0 (file_head clock) 0 (set_net (net w1 ++ [req]) w1) Hm Hok0
                     ltac:(simpl; now rewrite Hg1) Hf1) as H3. unfold wp in H3.
  destruct (first data 0 (set_net (net w1 ++ [req]) w1)) as [r3 w3] eqn:E3.
  destruct H3 as [Hr3 (Hf3 & Hn3 & Hg3 & _)]. simpl in Hr3, Hf3, Hn3, Hg3. subst r3.
  rewrite (bind_Ret _ _ _ _ _ E3).
  assert (Hlen3 : length (net w3) = S (length (net w))).
  { rewrite Hn3, List.length_app, Hn1. simpl. lia. }
  assert (Hb3 : globals_bound (glob w3)) by (now rewrite Hg3; simpl; rewrite Hg1).
  assert (Hpre3 : pre (glob w3)) by (now rewrite Hg3; simpl; rewrite Hg1).
  assert (Hsrv3 : served tr (length (net w3)) resps stop) by (now rewrite Hlen3).
  destruct (finite_log_loop page tr pre ok fit name _ _ stop final Hgo Hstop
              resps ess number_list (0 + Z.of_nat (length (kept sel es0))) _ w3
              Hpages Hfit ltac:(now rewrite number_list_length) Hb3 Hpre3 Hsrv3 Hf3)
    as (Hr & Hfs & Hn).
  destruct (for_each number_list page (0 + Z.of_nat (length (kept sel es0))) w3)
    as [r4 w4] eqn:E4.
  simpl in Hr, Hfs, Hn. subst r4. rewrite (bind_Exit _ _ _ _ _ E4). simpl.
  split; [reflexivity|]. split.
  - rewrite Hfs, fold_kept_pages, concat_kept_pages. unfold all_entries.
    rewrite kept_app, List.map_app, concat_app, List.length_app, app_assoc_s.
    f_equal. lia.
  - rewrite Hn, Hlen3. lia.
Qed.

(** A paged fetch answered by 500: [--get-fail] and [--get-message-id]
    leave the file whatever the count, [--get-category] removes it when
    nothing matched. *)
Lemma http_500_stops args tr stop data :
  status_code stop = 500 -> body stop = Some data ->
  page_stops (get_LC_log_failures_page args tr) tr stop "lc_log_failures.txt"
             (fun _ content => Some content)
  /\ page_stops (get_message_id_page args tr) tr stop "message_id_entries.txt"
                (fun _ content => Some content)
  /\ page_stops (get_category_entries_page args tr) tr stop "category_entries.txt" scan_file.
Proof.
  intros Hst Hbody.
  split; [|split]; intros seq s content w Hb Htr [Ho Hf];
    destruct (fetch_json args tr (skip_path seq) w stop data Hb Htr Hbody) as (req & _ & Heq).
  - unfold get_LC_log_failures_page. rewrite Heq, Hst.
    split; [reflexivity|]. split; [exact Hf|]. simpl. rewrite List.length_app. simpl. lia.
  - unfold get_message_id_page. rewrite Heq, Hst.
    split; [reflexivity|]. split; [exact Hf|]. simpl. rewrite List.length_app. simpl. lia.
  - unfold get_category_entries_page. rewrite Heq, Hst. cbn [Z.eqb Pos.eqb].
    unfold scan_file. destruct (s =? 0).
    + unfold bind, logging, emit, close, os_remove, sys_exit.
      cbn [fst snd fs set_console set_open_file set_net open_file]. rewrite Hf. cbn.
      split; [reflexivity|]. split; [apply lookup_delete_eq|].
      rewrite List.length_app. simpl. lia.
    + split; [reflexivity|]. split; [exact Hf|]. simpl. rewrite List.length_app. simpl. lia.
Qed.

(** C3. [get_LC_log_failures] on a log of finitely many pages that the
    iDRAC ends with HTTP 500: the run leaves by [sys.exit(0)] and
    [lc_log_failures.txt] is still there, with the head and the lines of
    the entries kept; so when no entry of the log matched the file is left
    behind, holding its head only.  ([get_message_id] has the same lines;
    [get_category_entries] removes its file on this path.) *)
Theorem http_500_leaves_an_empty_file (args : Args) (tr : nat -> request -> response)
        (clock : datetime) (w : world) (resp0 : response) (es0 : list json)
        (resps : list response) (ess : list (list json)) (stop : response) (data : json) :
  globals_bound (glob w) ->
  (forall req, tr (length (net w)) req = resp0) ->
  first_page (fun i => keys_unique i /\ field_is_str "Message" i) resp0 es0 ->
  List.Forall2 (good_page (fun i => keys_unique i /\ field_is_str "Message" i)) resps ess ->
  List.Forall (fun es => es <> []) ess ->
  (length resps < 2000)%nat ->
  served tr (S (length (net w))) resps stop ->
  status_code stop = 500 -> body stop = Some data ->
  fst (get_LC_log_failures args tr clock w) = Exit 0
  /\ fs (snd (get_LC_log_failures args tr clock w)) !! "lc_log_failures.txt"
     = Some (file_head clock
             +:+ PyStr.concat (List.map entry_lines (kept is_failure (all_entries es0 ess))))
  /\ (kept is_failure (all_entries es0 ess) = [] ->
      fs (snd (get_LC_log_failures args tr clock w)) !! "lc_log_failures.txt"
      = Some (file_head clock)).
Proof.
  intros Hb Htr H0 Hpages Hfit Hlen Hsrv Hst Hbody.
  assert (H : fst (get_LC_log_failures args tr clock w) = Exit 0
              /\ fs (snd (get_LC_log_failures args tr clock w)) !! "lc_log_failures.txt"
                 = Some (file_head clock
                         +:+ PyStr.concat (List.map entry_lines
                                                    (kept is_failure (all_entries es0 ess))))
              /\ length (net (snd (get_LC_log_failures args tr clock w)))
                 = (length (net w) + length resps + 2)%nat).
  { unfold get_LC_log_failures.
    apply (finite_log_stopped "lc_log_failures.txt" clock _ args tr fail_page
             (get_LC_log_failures_page args tr) _ is_failure entry_lines
             (fun i => keys_unique i /\ field_is_str "Message" i) (fun es => es <> [])
             (fun _ => True) (fun _ content => Some content)
             w resp0 es0 resps ess stop); auto.
    - intros w0. apply logging_announces.
    - intros data0 es content count w0 Hm Hok _ Hf.
      eapply wp_mono; [apply (fail_page_fold data0 es _ content count w0 Hm Hok Hf)|].
      intros r w' [-> Hw]. rewrite fold_count, concat_kept in *. auto.
    - apply fail_page_goes_on.
    - apply (http_500_stops args tr stop data Hst Hbody). }
  destruct H as (H1 & H2 & _). split; [exact H1|]. split; [exact H2|].
  intros Hnone. rewrite H2, Hnone. cbn [List.map PyStr.concat]. now rewrite app_empty_r.
Qed.

Lemma no_failure_in_entry2 : kept is_failure (all_entries [entry2] []) = [].
Proof. reflexivity. Qed.

(** A run of C3: one page without a failure, then HTTP 500. *)
Lemma http_500_leaves_an_empty_file_witness :
  kept is_failure (all_entries [entry2] []) = []
  /\ fst (get_LC_log_failures base_args (answers [a_page [entry2]] http_500) a_clock
                              (entered true)) = Exit 0
  /\ fs (snd (get_LC_log_failures base_args (answers [a_page [entry2]] http_500) a_clock
                                  (entered true))) !! "lc_log_failures.txt"
     = Some (file_head a_clock).
Proof.
  split; [exact no_failure_in_entry2|].
  destruct (http_500_leaves_an_empty_file base_args (answers [a_page [entry2]] http_500)
              a_clock (entered true) (a_page [entry2]) [entry2] [] [] http_500 (JObj [])
              (entered_bound true) (fun _ => eq_refl))
    as (H1 & _ & H3).
  - eexists. split; [reflexivity|]. split; [eexists; split; reflexivity|].
    constructor; [exact (an_entry_message _ _ _ _) | constructor].
  - constructor.
  - constructor.
  - simpl. lia.
  - intros i req. destruct i; reflexivity.
  - reflexivity.
  - reflexivity.
  - split; [exact H1 | exact (H3 no_failure_in_entry2)].
Defined.

(** A walk whose page goes on at every answer, over answers that are all
    [stop], a page without entries: it runs through the whole list of
    offsets, one request each, and leaves state and file as they were. *)
Lemma walk_over_empty_pages {St} (page : Z -> St -> M (ctl * St)) tr pre ok fit name step text
      (stop : response) :
  page_goes_on page tr pre ok fit name step text ->
  good_page ok stop [] -> fit [] ->
  (forall s, step [] s = s) -> text [] = EmptyString ->
  forall l s content w,
    globals_bound (glob w) -> pre (glob w) ->
    (forall i req, tr (length (net w) + i)%nat req = stop) ->
    file_is name content w ->
    fst (for_each l page s w) = Ret s
    /\ file_is name content (snd (for_each l page s w))
    /\ length (net (snd (for_each l page s w))) = (length (net w) + length l)%nat.
Proof.
  intros Hgo Hpage Hfit Hstep Htext l. induction l as [|seq l IH];
    intros s content w Hb Hpre Htr Hf.
  - cbn [for_each length]. split; [reflexivity|]. split; [exact Hf|]. simpl. lia.
  - assert (Hs : forall req, tr (length (net w)) req = stop).
    { intros req. specialize (Htr 0%nat req). now rewrite Nat.add_0_r in Htr. }
    destruct (Hgo seq s content w stop [] Hb Hpre Hs Hpage Hfit Hf) as (Hr & Hf1 & Hg1 & Hn1).
    rewrite Hstep, Htext, app_empty_r in *.
    destruct (page seq s w) as [r w1] eqn:Epage. simpl in Hr, Hf1, Hg1, Hn1. subst r.
    cbn [for_each]. rewrite !(bind_Ret _ _ _ _ _ Epage).
    assert (Htr1 : forall i req, tr (length (net w1) + i)%nat req = stop).
    { intros i req. rewrite Hn1. specialize (Htr (S i) req).
      now rewrite Nat.add_succ_r in Htr. }
    destruct (IH s content w1 ltac:(now rewrite Hg1) ltac:(now rewrite Hg1) Htr1 Hf1)
      as (Hr2 & Hf2 & Hn2).
    split; [exact Hr2|]. split; [exact Hf2|]. rewrite Hn2, Hn1. simpl. lia.
Qed.

(** C1. [get_category_entries] on a log whose first answer has the
    entries [es0] and whose every later answer is a 200 with an empty
    [Members]: the walk does not stop at the empty page, as the three other
    walks do; it goes through all the 2000 offsets, so the run has sent
    2001 requests when it ends.  What it keeps is right all the same: the
    entries of [es0] in the category, in their order, each once. *)
Theorem category_walk_passes_empty_pages (args : Args) (tr : nat -> request -> response)
        (clock : datetime) (arg : string) (w : world) (resp0 : response)
        (es0 : list json) (stop : response) :
  a_get_category args = Some arg ->
  existsb (String.eqb (PyStr.lower arg)) categories = true ->
  globals_bound (glob w) ->
  (forall req, tr (length (net w)) req = resp0) ->
  first_page (fun i => is_Some (category_of i)) resp0 es0 ->
  (forall i req, tr (S (length (net w)) + i)%nat req = stop) ->
  good_page (fun i => is_Some (category_of i)) stop [] ->
  length (net (snd (get_category_entries args tr clock w))) = (length (net w) + 2001)%nat
  /\ fst (get_category_entries args tr clock w)
     = (if Z.of_nat (length (kept (in_category arg) es0)) =? 0 then Exit 0 else Ret tt)
  /\ fs (snd (get_category_entries args tr clock w)) !! "category_entries.txt"
     = scan_file (Z.of_nat (length (kept (in_category arg) es0)))
                 (file_head clock
                  +:+ PyStr.concat (List.map entry_repr (kept (in_category arg) es0))).
Proof.
  intros Harg Hvalid Hb Htr (data & Hbody & Hm & Hok0) Hlater Hstop.
  unfold get_category_entries.
  assert (E : arg_lower (a_get_category args) w = (Ret (PyStr.lower arg), w))
    by (now rewrite Harg).
  rewrite (bind_Ret _ _ _ _ _ E), Hvalid. cbn [negb].
  lazymatch goal with
  | |- context [fresh_file clock ?nm ?ann] => set (announce := ann)
  end.
  pose proof (fresh_file_wp clock "category_entries.txt" announce w
                (fun w0 => logging_announces _ _ w0)) as H1.
  unfold wp in H1.
  destruct (fresh_file clock "category_entries.txt" announce w) as [r1 w1] eqn:E1.
  destruct H1 as [Hr1 (Hf1 & Hn1 & Hg1 & _)]. simpl in Hr1, Hf1, Hn1, Hg1. subst r1.
  rewrite (bind_Ret _ _ _ _ _ E1).
  assert (Hb1 : globals_bound (glob w1)) by (now rewrite Hg1).
  assert (Htr1 : forall req, tr (length (net w1)) req = resp0) by (now rewrite Hn1).
  destruct (fetch_json args tr lclog_path w1 resp0 data Hb1 Htr1 Hbody) as (req & _ & Heq).
  rewrite Heq.
  pose proof (category_page_fold args arg data es0 "category_entries.txt" (file_head clock) 0
                (set_net (net w1 ++ [req]) w1) Harg Hm Hok0 Hf1) as H3.
  unfold wp in H3. rewrite fold_count, concat_kept in H3.
  destruct (category_page args data 0 (set_net (net w1 ++ [req]) w1)) as [r3 w3] eqn:E3.
  destruct H3 as [Hr3 (Hf3 & Hn3 & Hg3 & _)]. simpl in Hr3, Hf3, Hn3, Hg3. subst r3.
  rewrite (bind_Ret _ _ _ _ _ E3).
  assert (Hlen3 : length (net w3) = S (length (net w))).
  { rewrite Hn3, List.length_app, Hn1. simpl. lia. }
  assert (Hb3 : globals_bound (glob w3)) by (now rewrite Hg3; simpl; rewrite Hg1).
  destruct (walk_over_empty_pages (get_category_entries_page args tr) tr (fun _ => True)
              (fun i => is_Some (category_of i)) (fun _ => True) "category_entries.txt" _ _
              stop (category_page_goes_on args tr arg Harg) Hstop I
              (fun s => Z.add_0_r s) eq_refl
              number_list (0 + Z.of_nat (length (kept (in_category arg) es0))) _ w3
              Hb3 I ltac:(now rewrite Hlen3) Hf3)
    as (Hr & Hf4 & Hn4).
  rewrite number_list_length, Hlen3 in Hn4.
  destruct (for_each number_list (get_category_entries_page args tr)
                     (0 + Z.of_nat (length (kept (in_category arg) es0))) w3)
    as [r4 w4] eqn:E4.
  cbn [fst snd] in Hr, Hf4, Hn4. subst r4. rewrite (bind_Ret _ _ _ _ _ E4).
  destruct (scan_post_ends "category_entries.txt"
              ("- WARNING, no " +:+ str_of_arg (a_get_category args)
               +:+ " category entries detected in LC logs")
              (captured "Lifecycle log entries" "category_entries.txt" " file") _
              (0 + Z.of_nat (length (kept (in_category arg) es0))) w4 Hf4)
    as (H1 & H2 & H3).
  cbv zeta in H1, H2, H3. rewrite Z.add_0_l in *.
  split; [rewrite H3, Hn4; lia|]. split; [exact H1 | exact H2].
Qed.

(** A run of C1: [--get-category audit] on a page of two entries followed
    by empty pages only. *)
Lemma category_walk_passes_empty_pages_witness :
  length (net (snd (get_category_entries (with_category "audit" base_args)
                      one_page_then_empty a_clock (entered true))))
  = (length (net (entered true)) + 2001)%nat.
Proof.
  apply (category_walk_passes_empty_pages (with_category "audit" base_args)
           one_page_then_empty a_clock "audit" (entered true) (a_page [entry1; entry2])
           [entry1; entry2] (a_page []) eq_refl eq_refl (entered_bound true)
           (fun _ => eq_refl)).
  - eexists. split; [reflexivity|]. split; [eexists; split; reflexivity|].
    constructor; [exact (an_entry_category _ _ _ _)|].
    constructor; [exact (an_entry_category _ _ _ _) | constructor].
  - intros i req. destruct i; reflexivity.
  - split; [reflexivity|]. eexists. split; [reflexivity|].
    split; [eexists; split; reflexivity | constructor].
Defined.




(** C8. What the sink writes for the entries of a page, in each mode
    that filters on the client.  In the full dump, in [--get-fail] and in
    [--get-message-id] an entry that is selected gives one line
    [key: value] for each of its attributes, in their order, and then an
    empty line; in [--get-category] it gives one line, the entry as [str]
    shows a dict, and then an empty line.  Entries that are not selected
    give nothing. *)
Theorem sink_formats (args : Args) (ver ids arg : string) (data : json)
        (es : list json) (name content : string) (count : Z) (w : world) :
  iDRAC_version (glob w) = Some ver ->
  a_get_message_id args = Some ids ->
  a_get_category args = Some arg ->
  members_are data es ->
  List.Forall (fun i => keys_unique i /\ field_is_str "Message" i
                        /\ field_is_str "MessageId" i /\ is_Some (category_of i)) es ->
  file_is name content w ->
  (forall items,
      entry_lines (JObj items)
      = PyStr.concat (List.map (fun ii => fst ii +:+ ": " +:+ py_str (snd ii) +:+ nl) items)
        +:+ nl)
  /\ (forall i, entry_repr i = py_str i +:+ nl +:+ nl)
  /\ wrote name (content +:+ PyStr.concat (List.map entry_lines es))
           w (snd (dump_page data w))
  /\ wrote name (content +:+ PyStr.concat (List.map entry_lines (kept is_failure es)))
           w (snd (fail_page data count w))
  /\ wrote name (content +:+ PyStr.concat (List.map entry_lines
                                                    (kept (has_message_id ver ids) es)))
           w (snd (message_id_page args data count w))
  /\ wrote name (content +:+ PyStr.concat (List.map entry_repr (kept (in_category arg) es)))
           w (snd (category_page args data count w)).
Proof.
  intros Hver Hids Harg Hm Hok Hf.
  assert (Hdict : List.Forall is_dict es).
  { eapply List.Forall_impl; [|exact Hok]. intros i (Hk & _). now destruct i. }
  assert (Hmsg : List.Forall (fun i => keys_unique i /\ field_is_str "Message" i) es).
  { eapply List.Forall_impl; [|exact Hok]. intros i (Hk & H1 & _). now split. }
  assert (Hmid : List.Forall (fun i => keys_unique i /\ field_is_str "MessageId" i) es).
  { eapply List.Forall_impl; [|exact Hok]. intros i (Hk & _ & H2 & _). now split. }
  assert (Hcat : List.Forall (fun i => is_Some (category_of i)) es).
  { eapply List.Forall_impl; [|exact Hok]. intros i (_ & _ & _ & H3). exact H3. }
  split; [reflexivity|]. split; [reflexivity|].
  split; [exact (proj2 (dump_page_fold data es name content w Hm Hdict Hf))|].
  split.
  { pose proof (fail_page_fold data es name content count w Hm Hmsg Hf) as H.
    unfold wp in H. rewrite concat_kept in H. exact (proj2 H). }
  split.
  { pose proof (message_id_page_fold args ver ids data es name content count w
                  Hver Hids Hm Hmid Hf) as H.
    unfold wp in H. rewrite concat_kept in H. exact (proj2 H). }
  pose proof (category_page_fold args arg data es name content count w Harg Hm Hcat Hf) as H.
  unfold wp in H. rewrite concat_kept in H. exact (proj2 H).
Qed.

(** A run of C8: a page with the one entry [entry3], kept in each mode. *)
Lemma sink_formats_witness :
  fs (snd (fail_page (JObj [("Members", JArr [entry3])]) 0
                     (writing true "lc_log_failures.txt" "head"))) !! "lc_log_failures.txt"
  = Some ("head" +:+ PyStr.concat (List.map entry_lines (kept is_failure [entry3])))
  /\ fs (snd (category_page (with_category "storage" (with_message_id "STOR7" base_args))
                            (JObj [("Members", JArr [entry3])]) 0
                            (writing true "lc_log_failures.txt" "head")))
       !! "lc_log_failures.txt"
     = Some ("head" +:+ PyStr.concat (List.map entry_repr (kept (in_category "storage") [entry3]))).
Proof.
  destruct (sink_formats (with_category "storage" (with_message_id "STOR7" base_args))
              "new" "STOR7" "storage" (JObj [("Members", JArr [entry3])]) [entry3]
              "lc_log_failures.txt" "head" 0 (writing true "lc_log_failures.txt" "head")
              eq_refl eq_refl eq_refl)
    as (_ & _ & _ & Hfail & _ & Hcat).
  - eexists. split; reflexivity.
  - constructor; [|constructor].
    split; [exact (proj1 (an_entry_message _ _ _ _))|].
    split; [exact I|]. split; [exact I | exact (an_entry_category _ _ _ _)].
  - split; reflexivity.
  - split; [exact (proj2 (proj1 Hfail)) | exact (proj2 (proj1 Hcat))].
Defined.

(** C8 as the specification words it fails in [--get-category]: for
    [entry3] the file gets the dict on one line, not a line for each
    attribute. *)
Lemma category_sink_writes_the_dict :
  fs (snd (category_page (with_category "storage" base_args)
                         (JObj [("Members", JArr [entry3])]) 0
                         (writing true "category_entries.txt" "head")))
    !! "category_entries.txt"
  = Some ("head{'Id': 3, 'Message': 'Disk failure predicted', 'MessageId': 'Update.1.0.STOR7', 'Oem': {'Dell': {'Category': 'Storage'}}}"
          +:+ nl +:+ nl)
  /\ entry_lines entry3
     = "Id: 3" +:+ nl +:+ "Message: Disk failure predicted" +:+ nl
       +:+ "MessageId: Update.1.0.STOR7" +:+ nl
       +:+ "Oem: {'Dell': {'Category': 'Storage'}}" +:+ nl +:+ nl
  /\ fs (snd (category_page (with_category "storage" base_args)
                            (JObj [("Members", JArr [entry3])]) 0
                            (writing true "category_entries.txt" "head")))
       !! "category_entries.txt"
     <> Some ("head" +:+ entry_lines entry3).
Proof.
  split; [vm_compute; reflexivity|]. split; [vm_compute; reflexivity|].
  vm_compute. discriminate.
Qed.
